(** * QZS L6 Tool: the SSR / Compact SSR / HAS decoders and the ephemeris scaling

    A shallow embedding of [libssr.py] and of the scaling part of [libeph.py].

    Conventions of the embedding.
    - A [bitstring] value is a list of bits, first bit of the stream first.
      Slicing clamps at the end of the list as Python slicing does, the
      [uint] and [int] interpretations raise bitstring's [InterpretError] on
      an empty bit string, and a bit string is true when one of its bits is
      set (the behaviour the flag tests of the source are written for).
    - A Python function that mutates [self] takes the [Ssr] record and returns
      the updated one; [raise] and the early [return 0] of the decoders are
      the two extra outcomes of the [flow] monad.
    - A Python [float] is modelled by the rational it stands for; an [int]
      stays an integer ([pynum] keeps the two apart as Python does).
    - The text of a trace line is not modelled: a trace line is the tuple of
      the values that the source formats into it. *)

From Stdlib Require Import String Ascii List ZArith QArith Bool Arith Lia.
From Stdlib Require Import DecimalString.
Import ListNotations.

Close Scope Q_scope.
Close Scope Z_scope.
Open Scope string_scope.
Open Scope nat_scope.
Open Scope list_scope.

Set Implicit Arguments.

(** ** Exceptions, results and control flow *)

Inductive exn : Type :=
| InterpretError              (* bitstring: zero length bitstring read as an integer *)
| ReadError                   (* bitstring: read past the end of a stream *)
| IndexError
| KeyError (key : string)
| NameError (name : string)
| AttributeError (name : string)
| Exception (msg : string).

(** What a call of a Python function gives back. *)
Inductive result (R : Type) : Type :=
| Ok (r : R)
| Exc (e : exn).
Arguments Exc {R} e.

(** Inside a function body: go on with a value, leave the function with
    [return r], or raise. *)
Inductive flow (R A : Type) : Type :=
| Next (a : A)
| Return (r : R)
| Raise (e : exn).
Arguments Next {R A} a.
Arguments Return {R A} r.
Arguments Raise {R A} e.

Definition bind {R A B} (m : flow R A) (k : A -> flow R B) : flow R B :=
  match m with
  | Next a => k a
  | Return r => Return r
  | Raise e => Raise e
  end.

Declare Scope flow_scope.
Delimit Scope flow_scope with flow.
Notation "x <- m ;; k" := (bind m (fun x => k))
  (at level 61, m at next level, right associativity) : flow_scope.
Notation "' pat <- m ;; k" := (bind m (fun x => match x with pat => k end))
  (at level 61, pat pattern, m at next level, right associativity) : flow_scope.
Open Scope flow_scope.

(** The end of a function body: falling off with the returned value and an
    early [return] are the same to the caller. *)
Definition call {R} (m : flow R R) : result R :=
  match m with
  | Next r => Ok r
  | Return r => Ok r
  | Raise e => Exc e
  end.

(** A call made inside a body. *)
Definition from_result {R A} (r : result A) : flow R A :=
  match r with
  | Ok a => Next a
  | Exc e => Raise e
  end.

(** ** Bit strings *)

Definition bits := list bool.

(** [payload[a:b]] *)
Definition slice (p : bits) (a b : nat) : bits := firstn (b - a) (skipn a p).

(** The unsigned value of a bit string, most significant bit first. *)
Definition bits_value (b : bits) : Z :=
  fold_left (fun acc x => (2 * acc + Z.b2z x)%Z) b 0%Z.

(** [b.uint] *)
Definition uint {R} (b : bits) : flow R Z :=
  match b with
  | [] => Raise InterpretError
  | _ :: _ => Next (bits_value b)
  end.

(** [b.int], two's complement *)
Definition int {R} (b : bits) : flow R Z :=
  match b with
  | [] => Raise InterpretError
  | sign :: _ =>
      Next (if sign then (bits_value b - 2 ^ Z.of_nat (length b))%Z else bits_value b)
  end.

(** [if b:] on a bit string *)
Definition truth (b : bits) : bool := existsb (fun x => x) b.

(** ['0b1' in b] *)
Definition contains_one (b : bits) : bool := existsb (fun x => x) b.

(** [b[i]] *)
Definition bit_at {R} (b : bits) (i : nat) : flow R bool :=
  match nth_error b i with
  | Some x => Next x
  | None => Raise IndexError
  end.

(** [bitstring.BitArray('0b1') * n] *)
Definition ones (n : nat) : bits := repeat true n.

(** ** Python numbers *)

Inductive pynum : Type :=
| PyInt (z : Z)
| PyFloat (q : Q).

(** The number a value stands for; the [f] presentation type formats it. *)
Definition py_value (x : pynum) : Q :=
  match x with
  | PyInt z => inject_Z z
  | PyFloat q => q
  end.

(** Python's [==] on numbers. *)
Definition py_eqb (x y : pynum) : bool := Qeq_bool (py_value x) (py_value y).

(** [i * lsb] for an integer [i] and a float [lsb] *)
Definition py_mul_if (i : Z) (lsb : Q) : pynum := PyFloat (inject_Z i * lsb)%Q.

(** ** Constants of libssr.py *)

Definition INVALID : pynum := PyInt 0.

Definition HAS_VI : list Z :=
  [5; 10; 15; 20; 30; 60; 90; 120; 180; 240; 300; 600; 900; 1800; 3600; 0]%Z.

(** [lst[i]] on a Python list, for a non-negative index *)
Definition list_get {R A} (l : list A) (i : Z) : flow R A :=
  match nth_error l (Z.to_nat i) with
  | Some x => Next x
  | None => Raise IndexError
  end.

(** ** Name tables *)

Definition gnssid2satsys {R} (gnssid : Z) : flow R string :=
  if (gnssid =? 0)%Z then Next "G"
  else if (gnssid =? 1)%Z then Next "R"
  else if (gnssid =? 2)%Z then Next "E"
  else if (gnssid =? 3)%Z then Next "C"
  else if (gnssid =? 4)%Z then Next "J"
  else if (gnssid =? 5)%Z then Next "S"
  else Raise (Exception "undefined gnssid").

Definition signame_G : list string :=
  [ "L1 C/A"; "L1 P"; "L1 Z-tracking"; "L1C(D)"; "L1C(P)";
    "L1C(D+P)"; "L2 CM"; "L2 CL"; "L2 CM+CL"; "L2 P"; "L2 Z-tracking";
    "L5 I"; "L5 Q"; "L5 I+Q"; EmptyString; EmptyString ].
Definition signame_R : list string :=
  [ "G1 C/A"; "G1 P"; "G2 C/A"; "G2 P"; "G1a(D)"; "G1a(P)";
    "G1a(D+P)"; "G2a(D)"; "G2a(P)"; "G2a(D+P)"; "G3 I"; "G3 Q";
    "G3 I+Q"; EmptyString; EmptyString; EmptyString; EmptyString ].
Definition signame_E : list string :=
  [ "E1 B"; "E1 C"; "E1 B+C"; "E5a I"; "E5a Q"; "E5a I+Q";
    "E5b I"; "E5b Q"; "E5b I+Q"; "E5 I"; "E5 Q"; "E5 I+Q";
    "E6 B"; "E6 C"; "E6 B+C"; EmptyString ].
Definition signame_C : list string :=
  [ "B1 I"; "B1 Q"; "B1 I+Q"; "B3 I"; "B3 Q"; "B3 I+Q";
    "B2 I"; "B2 Q"; "B2 I+Q"; EmptyString; EmptyString; EmptyString;
    EmptyString; EmptyString; EmptyString; EmptyString; EmptyString ].
Definition signame_J : list string :=
  [ "L1 C/A"; "L1 L1C(D)"; "L1 L1C(P)"; "L1 L1C(D+P)";
    "L2 L2C(M)"; "L2 L2C(L)"; "L2 L2C(M+L)"; "L5 I"; "L5 Q";
    "L5 I+Q"; EmptyString; EmptyString; EmptyString; EmptyString;
    EmptyString; EmptyString ].
Definition signame_S : list string :=
  [ "L1 C/A"; "L5 I"; "L5 Q"; "L5 I+Q"; EmptyString; EmptyString;
    EmptyString; EmptyString; EmptyString; EmptyString; EmptyString;
    EmptyString; EmptyString; EmptyString; EmptyString; EmptyString;
    EmptyString ].

Definition sigmask2signame {R} (satsys : string) (sigmask : Z) : flow R string :=
  if (satsys =? "G")%string then list_get signame_G sigmask
  else if (satsys =? "R")%string then list_get signame_R sigmask
  else if (satsys =? "E")%string then list_get signame_E sigmask
  else if (satsys =? "C")%string then list_get signame_C sigmask
  else if (satsys =? "J")%string then list_get signame_J sigmask
  else if (satsys =? "S")%string then list_get signame_S sigmask
  else Raise (Exception "unassigned signal name").

(** [f'{n:02d}'] for a non-negative [n] *)
Definition fmt_02d (n : nat) : string :=
  let d := NilZero.string_of_uint (Nat.to_uint n) in
  if n <? 10 then ("0" ++ d)%string else d.

(** ** Dictionaries keyed by the satellite system code *)

Definition dict (V : Type) : Type := string -> option V.

Definition dict_empty {V} : dict V := fun _ => None.

(** [d[k] = v] *)
Definition dict_set {V} (k : string) (v : V) (d : dict V) : dict V :=
  fun k' => if (k' =? k)%string then Some v else d k'.

(** [d[k]] *)
Definition dict_get {R V} (d : dict V) (k : string) : flow R V :=
  match d k with
  | Some v => Next v
  | None => Raise (KeyError k)
  end.

(** ** Trace lines

    One line of trace output: its leading tag, the names, the integers and the
    scaled values formatted into it, in the order of the source. *)

Record trace_line : Type := Line {
  tag : string;
  names : list string;
  ints : list Z;
  nums : list pynum
}.

(** ** The decoder object *)

Record Ssr : Type := mkSsr {
  fp_disp : option (list trace_line);
  t_level : Z;
  subtype : Z;
  msgnum : option Z;
  ssr_nsat : Z;
  ssr_mmi : bits;
  ssr_iod : Z;
  epoch : Z;
  hepoch : Z;
  interval : Z;
  mmi : bits;
  iod : Z;
  satsys : list string;
  nsatmask : list nat;
  nsigmask : list nat;
  cellmask : list bits;
  gsys : dict (list string);
  gsig : dict (list string);
  stat : bool;
  stat_nsat : Z;
  stat_nsig : Z;
  stat_bsat : Z;
  stat_bsig : Z;
  stat_both : Z;
  stat_bnull : Z
}.

(** Attribute assignments [self.f = v]. *)
Definition set_fp_disp (v : option (list trace_line)) (s : Ssr) : Ssr :=
  mkSsr v (s.(t_level)) (s.(subtype)) (s.(msgnum)) (s.(ssr_nsat)) (s.(ssr_mmi)) (s.(ssr_iod)) (s.(epoch)) (s.(hepoch)) (s.(interval)) (s.(mmi)) (s.(iod)) (s.(satsys)) (s.(nsatmask)) (s.(nsigmask)) (s.(cellmask)) (s.(gsys)) (s.(gsig)) (s.(stat)) (s.(stat_nsat)) (s.(stat_nsig)) (s.(stat_bsat)) (s.(stat_bsig)) (s.(stat_both)) (s.(stat_bnull)).
Definition set_t_level (v : Z) (s : Ssr) : Ssr :=
  mkSsr (s.(fp_disp)) v (s.(subtype)) (s.(msgnum)) (s.(ssr_nsat)) (s.(ssr_mmi)) (s.(ssr_iod)) (s.(epoch)) (s.(hepoch)) (s.(interval)) (s.(mmi)) (s.(iod)) (s.(satsys)) (s.(nsatmask)) (s.(nsigmask)) (s.(cellmask)) (s.(gsys)) (s.(gsig)) (s.(stat)) (s.(stat_nsat)) (s.(stat_nsig)) (s.(stat_bsat)) (s.(stat_bsig)) (s.(stat_both)) (s.(stat_bnull)).
Definition set_subtype (v : Z) (s : Ssr) : Ssr :=
  mkSsr (s.(fp_disp)) (s.(t_level)) v (s.(msgnum)) (s.(ssr_nsat)) (s.(ssr_mmi)) (s.(ssr_iod)) (s.(epoch)) (s.(hepoch)) (s.(interval)) (s.(mmi)) (s.(iod)) (s.(satsys)) (s.(nsatmask)) (s.(nsigmask)) (s.(cellmask)) (s.(gsys)) (s.(gsig)) (s.(stat)) (s.(stat_nsat)) (s.(stat_nsig)) (s.(stat_bsat)) (s.(stat_bsig)) (s.(stat_both)) (s.(stat_bnull)).
Definition set_msgnum (v : option Z) (s : Ssr) : Ssr :=
  mkSsr (s.(fp_disp)) (s.(t_level)) (s.(subtype)) v (s.(ssr_nsat)) (s.(ssr_mmi)) (s.(ssr_iod)) (s.(epoch)) (s.(hepoch)) (s.(interval)) (s.(mmi)) (s.(iod)) (s.(satsys)) (s.(nsatmask)) (s.(nsigmask)) (s.(cellmask)) (s.(gsys)) (s.(gsig)) (s.(stat)) (s.(stat_nsat)) (s.(stat_nsig)) (s.(stat_bsat)) (s.(stat_bsig)) (s.(stat_both)) (s.(stat_bnull)).
Definition set_ssr_nsat (v : Z) (s : Ssr) : Ssr :=
  mkSsr (s.(fp_disp)) (s.(t_level)) (s.(subtype)) (s.(msgnum)) v (s.(ssr_mmi)) (s.(ssr_iod)) (s.(epoch)) (s.(hepoch)) (s.(interval)) (s.(mmi)) (s.(iod)) (s.(satsys)) (s.(nsatmask)) (s.(nsigmask)) (s.(cellmask)) (s.(gsys)) (s.(gsig)) (s.(stat)) (s.(stat_nsat)) (s.(stat_nsig)) (s.(stat_bsat)) (s.(stat_bsig)) (s.(stat_both)) (s.(stat_bnull)).
Definition set_ssr_mmi (v : bits) (s : Ssr) : Ssr :=
  mkSsr (s.(fp_disp)) (s.(t_level)) (s.(subtype)) (s.(msgnum)) (s.(ssr_nsat)) v (s.(ssr_iod)) (s.(epoch)) (s.(hepoch)) (s.(interval)) (s.(mmi)) (s.(iod)) (s.(satsys)) (s.(nsatmask)) (s.(nsigmask)) (s.(cellmask)) (s.(gsys)) (s.(gsig)) (s.(stat)) (s.(stat_nsat)) (s.(stat_nsig)) (s.(stat_bsat)) (s.(stat_bsig)) (s.(stat_both)) (s.(stat_bnull)).
Definition set_ssr_iod (v : Z) (s : Ssr) : Ssr :=
  mkSsr (s.(fp_disp)) (s.(t_level)) (s.(subtype)) (s.(msgnum)) (s.(ssr_nsat)) (s.(ssr_mmi)) v (s.(epoch)) (s.(hepoch)) (s.(interval)) (s.(mmi)) (s.(iod)) (s.(satsys)) (s.(nsatmask)) (s.(nsigmask)) (s.(cellmask)) (s.(gsys)) (s.(gsig)) (s.(stat)) (s.(stat_nsat)) (s.(stat_nsig)) (s.(stat_bsat)) (s.(stat_bsig)) (s.(stat_both)) (s.(stat_bnull)).
Definition set_epoch (v : Z) (s : Ssr) : Ssr :=
  mkSsr (s.(fp_disp)) (s.(t_level)) (s.(subtype)) (s.(msgnum)) (s.(ssr_nsat)) (s.(ssr_mmi)) (s.(ssr_iod)) v (s.(hepoch)) (s.(interval)) (s.(mmi)) (s.(iod)) (s.(satsys)) (s.(nsatmask)) (s.(nsigmask)) (s.(cellmask)) (s.(gsys)) (s.(gsig)) (s.(stat)) (s.(stat_nsat)) (s.(stat_nsig)) (s.(stat_bsat)) (s.(stat_bsig)) (s.(stat_both)) (s.(stat_bnull)).
Definition set_hepoch (v : Z) (s : Ssr) : Ssr :=
  mkSsr (s.(fp_disp)) (s.(t_level)) (s.(subtype)) (s.(msgnum)) (s.(ssr_nsat)) (s.(ssr_mmi)) (s.(ssr_iod)) (s.(epoch)) v (s.(interval)) (s.(mmi)) (s.(iod)) (s.(satsys)) (s.(nsatmask)) (s.(nsigmask)) (s.(cellmask)) (s.(gsys)) (s.(gsig)) (s.(stat)) (s.(stat_nsat)) (s.(stat_nsig)) (s.(stat_bsat)) (s.(stat_bsig)) (s.(stat_both)) (s.(stat_bnull)).
Definition set_interval (v : Z) (s : Ssr) : Ssr :=
  mkSsr (s.(fp_disp)) (s.(t_level)) (s.(subtype)) (s.(msgnum)) (s.(ssr_nsat)) (s.(ssr_mmi)) (s.(ssr_iod)) (s.(epoch)) (s.(hepoch)) v (s.(mmi)) (s.(iod)) (s.(satsys)) (s.(nsatmask)) (s.(nsigmask)) (s.(cellmask)) (s.(gsys)) (s.(gsig)) (s.(stat)) (s.(stat_nsat)) (s.(stat_nsig)) (s.(stat_bsat)) (s.(stat_bsig)) (s.(stat_both)) (s.(stat_bnull)).
Definition set_mmi (v : bits) (s : Ssr) : Ssr :=
  mkSsr (s.(fp_disp)) (s.(t_level)) (s.(subtype)) (s.(msgnum)) (s.(ssr_nsat)) (s.(ssr_mmi)) (s.(ssr_iod)) (s.(epoch)) (s.(hepoch)) (s.(interval)) v (s.(iod)) (s.(satsys)) (s.(nsatmask)) (s.(nsigmask)) (s.(cellmask)) (s.(gsys)) (s.(gsig)) (s.(stat)) (s.(stat_nsat)) (s.(stat_nsig)) (s.(stat_bsat)) (s.(stat_bsig)) (s.(stat_both)) (s.(stat_bnull)).
Definition set_iod (v : Z) (s : Ssr) : Ssr :=
  mkSsr (s.(fp_disp)) (s.(t_level)) (s.(subtype)) (s.(msgnum)) (s.(ssr_nsat)) (s.(ssr_mmi)) (s.(ssr_iod)) (s.(epoch)) (s.(hepoch)) (s.(interval)) (s.(mmi)) v (s.(satsys)) (s.(nsatmask)) (s.(nsigmask)) (s.(cellmask)) (s.(gsys)) (s.(gsig)) (s.(stat)) (s.(stat_nsat)) (s.(stat_nsig)) (s.(stat_bsat)) (s.(stat_bsig)) (s.(stat_both)) (s.(stat_bnull)).
Definition set_satsys (v : list string) (s : Ssr) : Ssr :=
  mkSsr (s.(fp_disp)) (s.(t_level)) (s.(subtype)) (s.(msgnum)) (s.(ssr_nsat)) (s.(ssr_mmi)) (s.(ssr_iod)) (s.(epoch)) (s.(hepoch)) (s.(interval)) (s.(mmi)) (s.(iod)) v (s.(nsatmask)) (s.(nsigmask)) (s.(cellmask)) (s.(gsys)) (s.(gsig)) (s.(stat)) (s.(stat_nsat)) (s.(stat_nsig)) (s.(stat_bsat)) (s.(stat_bsig)) (s.(stat_both)) (s.(stat_bnull)).
Definition set_nsatmask (v : list nat) (s : Ssr) : Ssr :=
  mkSsr (s.(fp_disp)) (s.(t_level)) (s.(subtype)) (s.(msgnum)) (s.(ssr_nsat)) (s.(ssr_mmi)) (s.(ssr_iod)) (s.(epoch)) (s.(hepoch)) (s.(interval)) (s.(mmi)) (s.(iod)) (s.(satsys)) v (s.(nsigmask)) (s.(cellmask)) (s.(gsys)) (s.(gsig)) (s.(stat)) (s.(stat_nsat)) (s.(stat_nsig)) (s.(stat_bsat)) (s.(stat_bsig)) (s.(stat_both)) (s.(stat_bnull)).
Definition set_nsigmask (v : list nat) (s : Ssr) : Ssr :=
  mkSsr (s.(fp_disp)) (s.(t_level)) (s.(subtype)) (s.(msgnum)) (s.(ssr_nsat)) (s.(ssr_mmi)) (s.(ssr_iod)) (s.(epoch)) (s.(hepoch)) (s.(interval)) (s.(mmi)) (s.(iod)) (s.(satsys)) (s.(nsatmask)) v (s.(cellmask)) (s.(gsys)) (s.(gsig)) (s.(stat)) (s.(stat_nsat)) (s.(stat_nsig)) (s.(stat_bsat)) (s.(stat_bsig)) (s.(stat_both)) (s.(stat_bnull)).
Definition set_cellmask (v : list bits) (s : Ssr) : Ssr :=
  mkSsr (s.(fp_disp)) (s.(t_level)) (s.(subtype)) (s.(msgnum)) (s.(ssr_nsat)) (s.(ssr_mmi)) (s.(ssr_iod)) (s.(epoch)) (s.(hepoch)) (s.(interval)) (s.(mmi)) (s.(iod)) (s.(satsys)) (s.(nsatmask)) (s.(nsigmask)) v (s.(gsys)) (s.(gsig)) (s.(stat)) (s.(stat_nsat)) (s.(stat_nsig)) (s.(stat_bsat)) (s.(stat_bsig)) (s.(stat_both)) (s.(stat_bnull)).
Definition set_gsys (v : dict (list string)) (s : Ssr) : Ssr :=
  mkSsr (s.(fp_disp)) (s.(t_level)) (s.(subtype)) (s.(msgnum)) (s.(ssr_nsat)) (s.(ssr_mmi)) (s.(ssr_iod)) (s.(epoch)) (s.(hepoch)) (s.(interval)) (s.(mmi)) (s.(iod)) (s.(satsys)) (s.(nsatmask)) (s.(nsigmask)) (s.(cellmask)) v (s.(gsig)) (s.(stat)) (s.(stat_nsat)) (s.(stat_nsig)) (s.(stat_bsat)) (s.(stat_bsig)) (s.(stat_both)) (s.(stat_bnull)).
Definition set_gsig (v : dict (list string)) (s : Ssr) : Ssr :=
  mkSsr (s.(fp_disp)) (s.(t_level)) (s.(subtype)) (s.(msgnum)) (s.(ssr_nsat)) (s.(ssr_mmi)) (s.(ssr_iod)) (s.(epoch)) (s.(hepoch)) (s.(interval)) (s.(mmi)) (s.(iod)) (s.(satsys)) (s.(nsatmask)) (s.(nsigmask)) (s.(cellmask)) (s.(gsys)) v (s.(stat)) (s.(stat_nsat)) (s.(stat_nsig)) (s.(stat_bsat)) (s.(stat_bsig)) (s.(stat_both)) (s.(stat_bnull)).
Definition set_stat (v : bool) (s : Ssr) : Ssr :=
  mkSsr (s.(fp_disp)) (s.(t_level)) (s.(subtype)) (s.(msgnum)) (s.(ssr_nsat)) (s.(ssr_mmi)) (s.(ssr_iod)) (s.(epoch)) (s.(hepoch)) (s.(interval)) (s.(mmi)) (s.(iod)) (s.(satsys)) (s.(nsatmask)) (s.(nsigmask)) (s.(cellmask)) (s.(gsys)) (s.(gsig)) v (s.(stat_nsat)) (s.(stat_nsig)) (s.(stat_bsat)) (s.(stat_bsig)) (s.(stat_both)) (s.(stat_bnull)).
Definition set_stat_nsat (v : Z) (s : Ssr) : Ssr :=
  mkSsr (s.(fp_disp)) (s.(t_level)) (s.(subtype)) (s.(msgnum)) (s.(ssr_nsat)) (s.(ssr_mmi)) (s.(ssr_iod)) (s.(epoch)) (s.(hepoch)) (s.(interval)) (s.(mmi)) (s.(iod)) (s.(satsys)) (s.(nsatmask)) (s.(nsigmask)) (s.(cellmask)) (s.(gsys)) (s.(gsig)) (s.(stat)) v (s.(stat_nsig)) (s.(stat_bsat)) (s.(stat_bsig)) (s.(stat_both)) (s.(stat_bnull)).
Definition set_stat_nsig (v : Z) (s : Ssr) : Ssr :=
  mkSsr (s.(fp_disp)) (s.(t_level)) (s.(subtype)) (s.(msgnum)) (s.(ssr_nsat)) (s.(ssr_mmi)) (s.(ssr_iod)) (s.(epoch)) (s.(hepoch)) (s.(interval)) (s.(mmi)) (s.(iod)) (s.(satsys)) (s.(nsatmask)) (s.(nsigmask)) (s.(cellmask)) (s.(gsys)) (s.(gsig)) (s.(stat)) (s.(stat_nsat)) v (s.(stat_bsat)) (s.(stat_bsig)) (s.(stat_both)) (s.(stat_bnull)).
Definition set_stat_bsat (v : Z) (s : Ssr) : Ssr :=
  mkSsr (s.(fp_disp)) (s.(t_level)) (s.(subtype)) (s.(msgnum)) (s.(ssr_nsat)) (s.(ssr_mmi)) (s.(ssr_iod)) (s.(epoch)) (s.(hepoch)) (s.(interval)) (s.(mmi)) (s.(iod)) (s.(satsys)) (s.(nsatmask)) (s.(nsigmask)) (s.(cellmask)) (s.(gsys)) (s.(gsig)) (s.(stat)) (s.(stat_nsat)) (s.(stat_nsig)) v (s.(stat_bsig)) (s.(stat_both)) (s.(stat_bnull)).
Definition set_stat_bsig (v : Z) (s : Ssr) : Ssr :=
  mkSsr (s.(fp_disp)) (s.(t_level)) (s.(subtype)) (s.(msgnum)) (s.(ssr_nsat)) (s.(ssr_mmi)) (s.(ssr_iod)) (s.(epoch)) (s.(hepoch)) (s.(interval)) (s.(mmi)) (s.(iod)) (s.(satsys)) (s.(nsatmask)) (s.(nsigmask)) (s.(cellmask)) (s.(gsys)) (s.(gsig)) (s.(stat)) (s.(stat_nsat)) (s.(stat_nsig)) (s.(stat_bsat)) v (s.(stat_both)) (s.(stat_bnull)).
Definition set_stat_both (v : Z) (s : Ssr) : Ssr :=
  mkSsr (s.(fp_disp)) (s.(t_level)) (s.(subtype)) (s.(msgnum)) (s.(ssr_nsat)) (s.(ssr_mmi)) (s.(ssr_iod)) (s.(epoch)) (s.(hepoch)) (s.(interval)) (s.(mmi)) (s.(iod)) (s.(satsys)) (s.(nsatmask)) (s.(nsigmask)) (s.(cellmask)) (s.(gsys)) (s.(gsig)) (s.(stat)) (s.(stat_nsat)) (s.(stat_nsig)) (s.(stat_bsat)) (s.(stat_bsig)) v (s.(stat_bnull)).
Definition set_stat_bnull (v : Z) (s : Ssr) : Ssr :=
  mkSsr (s.(fp_disp)) (s.(t_level)) (s.(subtype)) (s.(msgnum)) (s.(ssr_nsat)) (s.(ssr_mmi)) (s.(ssr_iod)) (s.(epoch)) (s.(hepoch)) (s.(interval)) (s.(mmi)) (s.(iod)) (s.(satsys)) (s.(nsatmask)) (s.(nsigmask)) (s.(cellmask)) (s.(gsys)) (s.(gsig)) (s.(stat)) (s.(stat_nsat)) (s.(stat_nsig)) (s.(stat_bsat)) (s.(stat_bsig)) (s.(stat_both)) v.

(** The class-level defaults together with the arguments of [__init__]. *)
Definition Ssr_init (fp_disp : option (list trace_line)) (t_level : Z) : Ssr :=
  {| fp_disp := fp_disp; t_level := t_level;
     subtype := 0; msgnum := None;
     ssr_nsat := 0; ssr_mmi := []; ssr_iod := 0;
     epoch := 0; hepoch := 0; interval := 0; mmi := []; iod := 0;
     satsys := []; nsatmask := []; nsigmask := []; cellmask := [];
     gsys := dict_empty; gsig := dict_empty;
     stat := false; stat_nsat := 0; stat_nsig := 0;
     stat_bsat := 0; stat_bsig := 0; stat_both := 0; stat_bnull := 0 |}.

Definition trace (s : Ssr) (level : Z) (args : list trace_line) : Ssr :=
  if (s.(t_level) <? level)%Z then s
  else match s.(fp_disp) with
       | None => s
       | Some out => set_fp_disp (Some (out ++ args)) s
       end.

Definition show_cssr_stat (s : Ssr) : Ssr :=
  let bit_total :=
    (s.(stat_bsat) + s.(stat_bsig) + s.(stat_both) + s.(stat_bnull))%Z in
  trace s 0 [Line "stat" []
               [s.(stat_nsat); s.(stat_nsig); s.(stat_bsat); s.(stat_bsig);
                s.(stat_both); s.(stat_bnull); bit_total] []].

(** ** The Compact SSR header *)

Definition decode_cssr_head (s : Ssr) (payload : bits) : result (Ssr * nat) :=
  call (
    if negb (contains_one payload) then
      let s := trace s 2
                 [Line "CSSR null data" [] [Z.of_nat (length payload)] []] in
      let s := set_stat_bnull (s.(stat_bnull) + Z.of_nat (length payload))%Z s in
      let s := set_subtype 0%Z s in
      Return (s, 0)
    else
    let len_payload := length payload in
    if len_payload <? 12 then
      let s := set_msgnum (Some 0%Z) s in
      let s := set_subtype 0%Z s in
      Return (s, 0)
    else
    let pos := 0 in
    m <- uint (slice payload pos (pos + 12)) ;; let pos := pos + 12 in
    let s := set_msgnum (Some m) s in
    if negb (m =? 4073)%Z then
      let s := trace s 2
                 [Line "CSSR msgnum should be 4073"
                    [] [m; Z.of_nat (length payload)] []] in
      let s := set_stat_bnull (s.(stat_bnull) + Z.of_nat (length payload))%Z s in
      let s := set_subtype 0%Z s in
      Return (s, 0)
    else
    if len_payload <? pos + 4 then Return (set_subtype 0%Z s, 0) else
    st <- uint (slice payload pos (pos + 4)) ;; let pos := pos + 4 in
    let s := set_subtype st s in
    '(s, pos) <-
      (if (st =? 1)%Z then
         if len_payload <? pos + 20 then Return (s, 0) else
         ep <- uint (slice payload pos (pos + 20)) ;; let pos := pos + 20 in
         Next (set_epoch ep s, pos)
       else if (st =? 10)%Z then
         Return (s, pos)
       else
         if len_payload <? pos + 12 then Return (s, 0) else
         hep <- uint (slice payload pos (pos + 12)) ;; let pos := pos + 12 in
         Next (set_hepoch hep s, pos)) ;;
    if len_payload <? pos + 4 + 1 + 4 then Return (s, 0) else
    itv <- uint (slice payload pos (pos + 4)) ;; let pos := pos + 4 in
    let s := set_interval itv s in
    let s := set_mmi (slice payload pos (pos + 1)) s in let pos := pos + 1 in
    io <- uint (slice payload pos (pos + 4)) ;; let pos := pos + 4 in
    let s := set_iod io s in
    Next (s, pos)).

(** ** Loops

    [for x in l: body] with the variables the body updates as loop state. *)

Fixpoint for_each {R A St} (l : list A) (body : A -> St -> flow R St) (st : St)
  : flow R St :=
  match l with
  | [] => Next st
  | x :: l' => st' <- body x st ;; for_each l' body st'
  end.

(** [enumerate(l)] *)
Fixpoint enumerate_from {A} (i : nat) (l : list A) : list (nat * A) :=
  match l with
  | [] => []
  | x :: l' => (i, x) :: enumerate_from (S i) l'
  end.
Definition enumerate {A} (l : list A) : list (nat * A) := enumerate_from 0 l.

(** [range(n)] for a Python integer [n] *)
Definition range (n : Z) : list nat := seq 0 (Z.to_nat n).

(** ** The mask message (Compact SSR subtype 1 and the HAS mask) *)

(** The local tables that [_decode_mask] fills for one message. *)
Record mask_tables : Type := MaskTables {
  m_satsys : list string;
  m_nsatmask : list nat;
  m_nsigmask : list nat;
  m_cellmask : list bits;
  m_navmsg : list Z;
  m_gsys : dict (list string);
  m_gsig : dict (list string)
}.

Definition mask_tables_empty : mask_tables :=
  MaskTables [] [] [] [] [] dict_empty dict_empty.

(** The loop over [enumerate(bsatmask)]: the counter and the satellite names. *)
Definition mask_sat_loop {R} (t_satsys : string) (bsatmask : bits)
  : flow R (nat * list string) :=
  for_each (enumerate bsatmask)
    (fun '(i, val) '(t_satmask, t_gsys) =>
       if val : bool
       then Next (t_satmask + 1, t_gsys ++ [(t_satsys ++ fmt_02d (i + 1))%string])
       else Next (t_satmask, t_gsys))
    (0, []).

(** The loop over [enumerate(bsigmask)]: the counter and the signal names. *)
Definition mask_sig_loop {R} (t_satsys : string) (bsigmask : bits)
  : flow R (nat * list string) :=
  for_each (enumerate bsigmask)
    (fun '(i, val) '(t_sigmask, t_gsig) =>
       if val : bool
       then name <- sigmask2signame t_satsys (Z.of_nat i) ;;
            Next (t_sigmask + 1, t_gsig ++ [name])
       else Next (t_sigmask, t_gsig))
    (0, []).

(** The body of [for ignss in range(ngnss)]. *)
Definition mask_gnss {R} (payload : bits) (ssr_type : string)
    (st : nat * mask_tables) : flow R (nat * mask_tables) :=
  let '(pos, m) := st in
  ugnssid <- uint (slice payload pos (pos + 4)) ;; let pos := pos + 4 in
  let bsatmask := slice payload pos (pos + 40) in let pos := pos + 40 in
  let bsigmask := slice payload pos (pos + 16) in let pos := pos + 16 in
  let cmavail := slice payload pos (pos + 1) in let pos := pos + 1 in
  t_satsys <- gnssid2satsys ugnssid ;;
  '(t_satmask, t_gsys) <- mask_sat_loop t_satsys bsatmask ;;
  '(t_sigmask, t_gsig) <- mask_sig_loop t_satsys bsigmask ;;
  let ncell := t_satmask * t_sigmask in
  let '(bcellmask, pos) :=
    if truth cmavail
    then (slice payload pos (pos + ncell), pos + ncell)
    else (ones ncell, pos) in
  '(nm, pos) <-
    (if (ssr_type =? "has")%string
     then nm <- uint (slice payload pos (pos + 3)) ;; Next (nm, pos + 3)
     else Next (0%Z, pos)) ;;
  Next (pos,
        {| m_cellmask := m.(m_cellmask) ++ [bcellmask];
           m_satsys := m.(m_satsys) ++ [t_satsys];
           m_nsatmask := m.(m_nsatmask) ++ [t_satmask];
           m_nsigmask := m.(m_nsigmask) ++ [t_sigmask];
           m_gsys := dict_set t_satsys t_gsys m.(m_gsys);
           m_gsig := dict_set t_satsys t_gsig m.(m_gsig);
           m_navmsg := m.(m_navmsg) ++ [nm] |}).

(** [l[i]] for a list index that is a loop counter *)
Definition nth_get {R A} (l : list A) (i : nat) : flow R A :=
  match nth_error l i with
  | Some x => Next x
  | None => Raise IndexError
  end.

(** The loop state of the trace loop of [_decode_mask]. *)
Record mask_trace : Type := MaskTrace {
  mt_msg : list trace_line;
  mt_nsat : Z;
  mt_nsig : Z
}.

(** The trace loop of [_decode_mask] (one line per satellite, naming its
    active signals), which also counts satellites and active cells. *)
Definition mask_trace_loop {R} (s : Ssr) (ssr_type : string) (navmsg : list Z)
  : flow R mask_trace :=
  for_each (enumerate s.(satsys))
    (fun '(i, satsys) t =>
       let pos_mask := 0 in
       sats <- dict_get s.(gsys) satsys ;;
       '(t, pos_mask) <-
         for_each (enumerate sats)
           (fun '(j, gsys) '(t, pos_mask) =>
              let stat_nsat := (t.(mt_nsat) + 1)%Z in
              let head := if (ssr_type =? "cssr")%string then "ST1" else "MASK" in
              sigs <- dict_get s.(gsig) satsys ;;
              '(active, stat_nsig, pos_mask) <-
                for_each sigs
                  (fun gsig '(active, stat_nsig, pos_mask) =>
                     cm <- nth_get s.(cellmask) i ;;
                     mask <- bit_at cm pos_mask ;; let pos_mask := pos_mask + 1 in
                     if negb mask then Next (active, stat_nsig, pos_mask)
                     else Next (active ++ [gsig], (stat_nsig + 1)%Z, pos_mask))
                  ([], t.(mt_nsig), pos_mask) ;;
              Next (MaskTrace (t.(mt_msg) ++ [Line head (gsys :: active) [] []])
                      stat_nsat stat_nsig,
                    pos_mask))
           (t, pos_mask) ;;
       nm <- (if (ssr_type =? "has")%string then nth_get navmsg i else Next 0%Z) ;;
       if ((ssr_type =? "has")%string && negb (nm =? 0)%Z)%bool
       then Next (MaskTrace (t.(mt_msg) ++ [Line "Warning: HAS NM is not zero." [] [] []])
                    t.(mt_nsat) t.(mt_nsig))
       else Next t)
    (MaskTrace [] 0 0).

Definition _decode_mask (s : Ssr) (payload : bits) (pos : nat) (ssr_type : string)
  : result (Ssr * nat) :=
  call (
    if negb ((ssr_type =? "cssr")%string || (ssr_type =? "has")%string)
    then Raise (Exception "unknown ssr_type") else
    let len_payload := length payload in
    if len_payload <? pos + 4 then Return (s, 0) else
    ngnss <- uint (slice payload pos (pos + 4)) ;; let pos := pos + 4 in
    if (Z.of_nat (length payload) <? 49 + 61 * ngnss)%Z then Return (s, 0) else
    '(pos, m) <-
      for_each (range ngnss) (fun ignss st => mask_gnss payload ssr_type st)
        (pos, mask_tables_empty) ;;
    let pos := if (ssr_type =? "has")%string then pos + 6 else pos in
    let s := set_satsys m.(m_satsys) s in
    let s := set_nsatmask m.(m_nsatmask) s in
    let s := set_nsigmask m.(m_nsigmask) s in
    let s := set_cellmask m.(m_cellmask) s in
    let s := set_gsys m.(m_gsys) s in
    let s := set_gsig m.(m_gsig) s in
    t <- mask_trace_loop s ssr_type m.(m_navmsg) ;;
    let s := set_stat_nsat t.(mt_nsat) s in
    let s := set_stat_nsig t.(mt_nsig) s in
    let s := trace s 1 t.(mt_msg) in
    let s := if s.(stat) then show_cssr_stat s else s in
    let s := set_stat_bsat 0%Z s in
    let s := set_stat_bsig 0%Z s in
    let s := set_stat_both (Z.of_nat pos) s in
    let s := set_stat_bnull 0%Z s in
    Next (s, pos)).

Definition decode_cssr_st1 (s : Ssr) (payload : bits) (pos : nat) :=
  _decode_mask s payload pos "cssr".


(** ** Scaled fields

    The conditional expressions of the source that turn a raw field into a
    physical value or into [INVALID]. *)

(** [i * lsb if i != sentinel else INVALID] *)
Definition scale_unless (i : Z) (lsb : Q) (sentinel : Z) : pynum :=
  if negb (i =? sentinel)%Z then py_mul_if i lsb else INVALID.

(** A string of ['0'] and ['1'] characters as a bit string ([b.bin] read
    backwards). *)
Fixpoint bin (s : string) : bits :=
  match s with
  | EmptyString => []
  | String c s' => (c =? "1")%char :: bin s'
  end.




(** ** Orbit and clock corrections *)

(** [self.stat_both += a; self.stat_bsat += b] *)
Definition add_stat_sat (a b : Z) (s : Ssr) : Ssr :=
  let s := set_stat_both (s.(stat_both) + a)%Z s in
  set_stat_bsat (s.(stat_bsat) + b)%Z s.

(** [self.stat_both += a; self.stat_bsig += b] *)
Definition add_stat_sig (a b : Z) (s : Ssr) : Ssr :=
  let s := set_stat_both (s.(stat_both) + a)%Z s in
  set_stat_bsig (s.(stat_bsig) + b)%Z s.

Definition decode_cssr_st2 (s : Ssr) (payload : bits) (pos : nat)
  : result (Ssr * nat) :=
  call (
    let len_payload := length payload in
    let stat_pos := pos in
    '(pos, msg_trace1) <-
      for_each s.(satsys)
        (fun satsys st =>
           let bw := if (satsys =? "E")%string then 10 else 8 in  (* IODE bit width *)
           sats <- dict_get s.(gsys) satsys ;;
           for_each sats
             (fun gsys '(pos, msg_trace1) =>
                if len_payload <? pos + bw + 15 + 13 + 13 then Return (s, 0) else
                iode <- uint (slice payload pos (pos + bw)) ;; let pos := pos + bw in
                i_radial <- int (slice payload pos (pos + 15)) ;; let pos := pos + 15 in
                i_along <- int (slice payload pos (pos + 13)) ;; let pos := pos + 13 in
                i_cross <- int (slice payload pos (pos + 13)) ;; let pos := pos + 13 in
                let d_radial := scale_unless i_radial 0.0016 (-16384) in
                let d_along := scale_unless i_along 0.0064 (-16384) in
                let d_cross := scale_unless i_cross 0.0064 (-16384) in
                Next (pos, msg_trace1 ++
                             [Line "ST2" [gsys] [iode] [d_radial; d_along; d_cross]]))
             st)
        (pos, []) ;;
    let s := trace s 1 msg_trace1 in
    let s := add_stat_sat (Z.of_nat stat_pos) (Z.of_nat pos - Z.of_nat stat_pos) s in
    Next (s, pos)).


Definition decode_cssr_st3 (s : Ssr) (payload : bits) (pos : nat)
  : result (Ssr * nat) :=
  call (
    let len_payload := length payload in
    let stat_pos := pos in
    '(pos, msg_trace1) <-
      for_each (enumerate s.(satsys))
        (fun '(i, satsys) st =>
           sats <- dict_get s.(gsys) satsys ;;
           for_each sats
             (fun gsys '(pos, msg_trace1) =>
                if len_payload <? pos + 15 then Return (s, 0) else
                ic0 <- int (slice payload pos (pos + 15)) ;; let pos := pos + 15 in
                let c0 := scale_unless ic0 0.0016 (-16384) in
                Next (pos, msg_trace1 ++ [Line "ST3" [gsys] [] [c0]]))
             st)
        (pos, []) ;;
    let s := trace s 1 msg_trace1 in
    let s := add_stat_sat (Z.of_nat stat_pos) (Z.of_nat pos - Z.of_nat stat_pos) s in
    Next (s, pos)).



(** [decode_has_cksub] assigns to [multiplier[i]] without ever binding the
    name [multiplier]: once the right-hand side is evaluated, looking the
    name up raises [NameError], and the statements after it in the loop body
    (the length check, the read of the clock value and the trace line that
    formats the unbound [gsys]) are never reached. *)
Definition decode_has_cksub (s : Ssr) (payload : bits) (pos : nat)
  : result (Ssr * nat) :=
  call (
    let len_payload := length payload in
    let stat_pos := pos in
    if len_payload <? pos + 4 + 2 then Return (s, 0) else
    vi <- uint (slice payload pos (pos + 4)) ;; let pos := pos + 4 in
    ns0 <- uint (slice payload pos (pos + 2)) ;; let pos := pos + 2 in
    let ns := (ns0 + 1)%Z in  (* GNSS subset number *)
    vi_s <- list_get HAS_VI vi ;;
    let msg_trace1 := [Line "CKFUL validity_interval" [] [vi_s; vi; ns] []] in
    '(pos, msg_trace1) <-
      for_each (range ns)
        (fun i '(pos, msg_trace1) =>
           satsys <- uint (slice payload pos (pos + 4)) ;; let pos := pos + 4 in
           v <- uint (slice payload pos (pos + 2)) ;;
           Raise (NameError "multiplier") : flow (Ssr * nat) (nat * list trace_line))
        (pos, msg_trace1) ;;
    let s := trace s 1 msg_trace1 in
    let s := add_stat_sat (Z.of_nat stat_pos) (Z.of_nat pos - Z.of_nat stat_pos) s in
    Next (s, pos)).

(** ** Iteration over the cells of the mask

    The loop nest that the code-bias and phase-bias decoders share:
    [for i, satsys in enumerate(self.satsys)], [pos_mask = 0],
    [for j, gsys in enumerate(self.gsys[satsys])],
    [for gsig in self.gsig[satsys]],
    [mask = self.cellmask[i][pos_mask]; pos_mask += 1], then the body. *)

Definition for_cells {R St} (s : Ssr)
    (body : nat -> string -> nat -> string -> string -> bool -> St -> flow R St)
    (st : St) : flow R St :=
  for_each (enumerate s.(satsys))
    (fun '(i, satsys) st =>
       let pos_mask := 0 in
       sats <- dict_get s.(gsys) satsys ;;
       '(st, pos_mask) <-
         for_each (enumerate sats)
           (fun '(j, gsys) st_pm =>
              sigs <- dict_get s.(gsig) satsys ;;
              for_each sigs
                (fun gsig '(st, pos_mask) =>
                   cm <- nth_get s.(cellmask) i ;;
                   mask <- bit_at cm pos_mask ;; let pos_mask := pos_mask + 1 in
                   st <- body i satsys j gsys gsig mask st ;;
                   Next (st, pos_mask))
                st_pm)
           (st, pos_mask) ;;
       Next st)
    st.

(** ** Code and phase biases *)

Definition _decode_code_bias (s : Ssr) (payload : bits) (pos : nat)
    (ssr_type : string) : result (Ssr * nat) :=
  call (
    if negb ((ssr_type =? "cssr")%string || (ssr_type =? "has")%string)
    then Raise (Exception "unknow ssr_type") else
    let len_payload := length payload in
    nsigsat <-
      for_cells s
        (fun i satsys j gsys gsig mask nsigsat =>
           if negb mask then Next nsigsat else Next (nsigsat + 1))
        0 ;;
    '(pos, msg_trace1) <-
      (if (ssr_type =? "has")%string then
         if len_payload <? pos + 4 then Return (s, 0) else
         vi <- uint (slice payload pos (pos + 4)) ;; let pos := pos + 4 in
         vi_s <- list_get HAS_VI vi ;;
         Next (pos, [Line "CBIAS validity_interval" [] [vi_s; vi] []])
       else Next (pos, [])) ;;
    if length payload <? pos + 11 * nsigsat then Return (s, 0) else
    let stat_pos := pos in
    '(pos, msg_trace1) <-
      for_cells s
        (fun i satsys j gsys gsig mask '(pos, msg_trace1) =>
           if negb mask then Next (pos, msg_trace1) else
           icb <- int (slice payload pos (pos + 11)) ;; let pos := pos + 11 in
           let cb := scale_unless icb 0.02 (-1024) in
           let head := if (ssr_type =? "cssr")%string then "ST4" else "CBIAS" in
           Next (pos, msg_trace1 ++ [Line head [gsys; gsig] [] [cb]]))
        (pos, msg_trace1) ;;
    let s := trace s 1 msg_trace1 in
    let s := add_stat_sig (Z.of_nat stat_pos) (Z.of_nat pos - Z.of_nat stat_pos) s in
    Next (s, pos)).

Definition decode_cssr_st4 (s : Ssr) (payload : bits) (pos : nat) :=
  _decode_code_bias s payload pos "cssr".

Definition decode_has_cbias (s : Ssr) (payload : bits) (pos : nat) :=
  _decode_code_bias s payload pos "has".

Definition decode_cssr_st5 (s : Ssr) (payload : bits) (pos : nat)
  : result (Ssr * nat) :=
  call (
    let len_payload := length payload in
    let stat_pos := pos in
    '(pos, msg_trace1) <-
      for_cells s
        (fun i satsys j gsys gsig mask '(pos, msg_trace1) =>
           if negb mask then Next (pos, msg_trace1) else
           if len_payload <? pos + 15 + 2 then Return (s, 0) else
           ipb <- int (slice payload pos (pos + 15)) ;; let pos := pos + 15 in
           di <- uint (slice payload pos (pos + 2)) ;; let pos := pos + 2 in
           let pb := scale_unless ipb 0.001 (-16384) in
           Next (pos, msg_trace1 ++ [Line "ST5" [gsys; gsig] [di] [pb]]))
        (pos, []) ;;
    let s := trace s 1 msg_trace1 in
    let s := add_stat_sig (Z.of_nat stat_pos) (Z.of_nat pos - Z.of_nat stat_pos) s in
    Next (s, pos)).


(** The loop that reads one satellite mask per system into [svmask]
    (subtypes 6, 8, 9, 11 and 12). *)
Definition read_svmask (s : Ssr) (payload : bits) (pos : nat)
  : flow (Ssr * nat) (nat * dict bits) :=
  for_each s.(satsys)
    (fun satsys '(pos, svmask) =>
       sats <- dict_get s.(gsys) satsys ;;
       let ngsys := length sats in
       if length payload <? pos + ngsys then Return (s, 0) else
       Next (pos + ngsys, dict_set satsys (slice payload pos (pos + ngsys)) svmask))
    (pos, dict_empty).

(** [svmask[satsys][i]] *)
Definition svmask_at {R} (svmask : dict bits) (satsys : string) (i : nat)
  : flow R bool :=
  m <- dict_get svmask satsys ;; bit_at m i.

Definition decode_cssr_st6 (s : Ssr) (payload : bits) (pos : nat)
  : result (Ssr * nat) :=
  call (
    let len_payload := length payload in
    if len_payload <? 45 then Return (s, 0) else
    let stat_pos := pos in
    let f_cb := slice payload pos (pos + 1) in let pos := pos + 1 in  (* code bias existing flag *)
    let f_pb := slice payload pos (pos + 1) in let pos := pos + 1 in  (* phase bias existing flag *)
    let f_nb := slice payload pos (pos + 1) in let pos := pos + 1 in  (* network bias existing flag *)
    _ <- for_each s.(satsys)
           (fun satsys (_ : bits) =>
              sats <- dict_get s.(gsys) satsys ;; Next (ones (length sats)))
           [] ;;
    let msg_trace1 :=
      [Line "ST6" [] [Z.b2z (truth f_cb); Z.b2z (truth f_pb); Z.b2z (truth f_nb)] []] in
    '(pos, svmask, msg_trace1) <-
      (if truth f_nb then
         cnid <- uint (slice payload pos (pos + 5)) ;; let pos := pos + 5 in
         let msg_trace1 := msg_trace1 ++ [Line "ST6 NID" [] [cnid] []] in
         '(pos, svmask) <- read_svmask s payload pos ;;
         Next (pos, svmask, msg_trace1)
       else Next (pos, dict_empty, msg_trace1)) ;;
    '(pos, msg_trace1) <-
      for_cells s
        (fun i satsys j gsys gsig mask '(pos, msg_trace1) =>
           sv <- svmask_at svmask satsys j ;;
           if (negb sv || negb mask)%bool then Next (pos, msg_trace1) else
           '(pos, cbs) <-
             (if truth f_cb then
                if len_payload <? pos + 11 then Return (s, 0) else
                icb <- int (slice payload pos (pos + 11)) ;; let pos := pos + 11 in
                Next (pos, [scale_unless icb 0.02 (-1024)])
              else Next (pos, [])) ;;
           '(pos, dis, pbs) <-
             (if truth f_pb then
                if len_payload <? pos + 15 + 2 then Return (s, 0) else
                ipb <- int (slice payload pos (pos + 15)) ;; let pos := pos + 15 in
                di <- uint (slice payload pos (pos + 2)) ;; let pos := pos + 2 in
                Next (pos, [di], [scale_unless ipb 0.001 (-16384)])
              else Next (pos, [], [])) ;;
           Next (pos, msg_trace1 ++ [Line "ST6" [gsys; gsig] dis (cbs ++ pbs)]))
        (pos, msg_trace1) ;;
    let s := trace s 1 msg_trace1 in
    let s := add_stat_sig (Z.of_nat stat_pos + 3) (Z.of_nat pos - Z.of_nat stat_pos - 3) s in
    Next (s, pos)).

Definition decode_cssr_st7 (s : Ssr) (payload : bits) (pos : nat)
  : result (Ssr * nat) :=
  call (
    let len_payload := length payload in
    if len_payload <? 37 then Return (s, 0) else
    let stat_pos := pos in
    '(pos, msg_trace1) <-
      for_each s.(satsys)
        (fun satsys st =>
           sats <- dict_get s.(gsys) satsys ;;
           for_each sats
             (fun gsys '(pos, msg_trace1) =>
                if len_payload <? pos + 6 then Return (s, 0) else
                ura <- uint (slice payload pos (pos + 6)) ;; let pos := pos + 6 in
                Next (pos, msg_trace1 ++ [Line "ST7" [gsys] [ura] []]))
             st)
        (pos, []) ;;
    let s := trace s 1 msg_trace1 in
    let s := add_stat_sat (Z.of_nat stat_pos) (Z.of_nat pos - Z.of_nat stat_pos) s in
    Next (s, pos)).

(** ** STEC, troposphere, service information and combined corrections *)

(** The polynomial terms that follow [c00], selected by the correction type
    (subtypes 8 and 12). *)
Definition stec_terms (s : Ssr) (payload : bits) (stec_type : Z) (pos : nat)
  : flow (Ssr * nat) (nat * list pynum) :=
  let len_payload := length payload in
  '(pos, t1) <-
    (if (1 <=? stec_type)%Z then
       if len_payload <? pos + 12 + 12 then Return (s, 0) else
       ic01 <- int (slice payload pos (pos + 12)) ;; let pos := pos + 12 in
       ic10 <- int (slice payload pos (pos + 12)) ;; let pos := pos + 12 in
       Next (pos, [scale_unless ic01 0.02 (-2048); scale_unless ic10 0.02 (-2048)])
     else Next (pos, [])) ;;
  '(pos, t2) <-
    (if (2 <=? stec_type)%Z then
       if len_payload <? pos + 10 then Return (s, 0) else
       ic11 <- int (slice payload pos (pos + 10)) ;; let pos := pos + 10 in
       Next (pos, [scale_unless ic11 0.02 (-512)])
     else Next (pos, [])) ;;
  '(pos, t3) <-
    (if (3 <=? stec_type)%Z then
       if len_payload <? pos + 8 + 8 then Return (s, 0) else
       ic02 <- int (slice payload pos (pos + 8)) ;; let pos := pos + 8 in
       ic20 <- int (slice payload pos (pos + 8)) ;; let pos := pos + 8 in
       Next (pos, [scale_unless ic02 0.005 (-128); scale_unless ic20 0.005 (-128)])
     else Next (pos, [])) ;;
  Next (pos, t1 ++ t2 ++ t3).

Definition decode_cssr_st8 (s : Ssr) (payload : bits) (pos : nat)
  : result (Ssr * nat) :=
  call (
    let len_payload := length payload in
    if len_payload <? 44 then Return (s, 0) else
    let stat_pos := pos in
    stec_type <- uint (slice payload pos (pos + 2)) ;; let pos := pos + 2 in  (* STEC correction type *)
    cnid <- uint (slice payload pos (pos + 5)) ;; let pos := pos + 5 in       (* compact network ID *)
    '(pos, svmask) <- read_svmask s payload pos ;;
    '(pos, msg_trace1) <-
      for_each s.(satsys)
        (fun satsys st =>
           sats <- dict_get s.(gsys) satsys ;;
           for_each (enumerate sats)
             (fun '(i, gsys) '(pos, msg_trace1) =>
                sv <- svmask_at svmask satsys i ;;
                if negb sv then Next (pos, msg_trace1) else
                if len_payload <? pos + 6 + 14 then Return (s, 0) else
                qi <- uint (slice payload pos (pos + 6)) ;; let pos := pos + 6 in
                ic00 <- int (slice payload pos (pos + 14)) ;; let pos := pos + 14 in
                let c00 := scale_unless ic00 0.05 (-8192) in
                '(pos, terms) <- stec_terms s payload stec_type pos ;;
                Next (pos, msg_trace1 ++ [Line "ST8" [gsys] [] (c00 :: terms)]))
             st)
        (pos, []) ;;
    let s := trace s 1 msg_trace1 in
    let s := add_stat_sat (Z.of_nat stat_pos + 7) (Z.of_nat pos - Z.of_nat stat_pos - 7) s in
    Next (s, pos)).

Definition decode_cssr_st10 (s : Ssr) (payload : bits) (pos : nat)
  : result (Ssr * nat) :=
  call (
    let len_payload := length payload in
    if len_payload <? 5 then Return (s, 0) else
    counter <- uint (slice payload pos (pos + 3)) ;; let pos := pos + 3 in  (* info message counter *)
    idsize <- uint (slice payload pos (pos + 2)) ;; let pos := pos + 2 in   (* data size *)
    let dsize := Z.to_nat ((idsize + 1) * 40) in
    if len_payload <? pos + dsize then Return (s, 0) else
    let aux_frame_data := slice payload pos (pos + dsize) in let pos := pos + dsize in
    let s := trace s 1 [Line "ST10" [] [counter; bits_value aux_frame_data] []] in
    let s := set_stat_both (s.(stat_both) + Z.of_nat pos)%Z s in
    Next (s, pos)).

Definition decode_cssr_st11 (s : Ssr) (payload : bits) (pos : nat)
  : result (Ssr * nat) :=
  call (
    let len_payload := length payload in
    if len_payload <? 40 then Return (s, 0) else
    let stat_pos := pos in
    let f_o := slice payload pos (pos + 1) in let pos := pos + 1 in  (* orbit existing flag *)
    let f_c := slice payload pos (pos + 1) in let pos := pos + 1 in  (* clock existing flag *)
    let f_n := slice payload pos (pos + 1) in let pos := pos + 1 in  (* network correction *)
    let msg_trace1 :=
      [Line "ST11" [] [Z.b2z (truth f_o); Z.b2z (truth f_c); Z.b2z (truth f_n)] []] in
    '(pos, msg_trace1) <-
      (if truth f_n then
         if len_payload <? pos + 5 then Return (s, 0) else
         cnid <- uint (slice payload pos (pos + 5)) ;; let pos := pos + 5 in
         let msg_trace1 := msg_trace1 ++ [Line "ST11 NID" [] [cnid] []] in
         '(pos, svmask) <- read_svmask s payload pos ;;
         for_each s.(satsys)
           (fun satsys st =>
              sats <- dict_get s.(gsys) satsys ;;
              for_each (enumerate sats)
                (fun '(i, gsys) '(pos, msg_trace1) =>
                   sv <- svmask_at svmask satsys i ;;
                   if negb sv then Next (pos, msg_trace1) else
                   '(pos, iodes, orb) <-
                     (if truth f_o then
                        let bw := if (satsys =? "E")%string then 10 else 8 in  (* IODE width *)
                        if len_payload <? pos + bw + 15 + 13 + 13 then Return (s, 0) else
                        iode <- uint (slice payload pos (pos + bw)) ;; let pos := pos + bw in
                        id_radial <- int (slice payload pos (pos + 15)) ;; let pos := pos + 15 in
                        id_along <- int (slice payload pos (pos + 13)) ;; let pos := pos + 13 in
                        id_cross <- int (slice payload pos (pos + 13)) ;; let pos := pos + 13 in
                        let d_radial := scale_unless id_radial 0.0016 (-16384) in
                        let d_along := scale_unless id_along 0.0064 (-4096) in
                        let d_cross := scale_unless id_cross 0.0064 (-4096) in
                        Next (pos, [iode], [d_radial; d_along; d_cross])
                      else Next (pos, [], [])) ;;
                   '(pos, clk) <-
                     (if truth f_c then
                        if len_payload <? pos + 15 then Return (s, 0) else
                        ic0 <- int (slice payload pos (pos + 15)) ;; let pos := pos + 15 in
                        Next (pos, [scale_unless ic0 0.0016 (-16384)])
                      else Next (pos, [])) ;;
                   Next (pos, msg_trace1 ++ [Line "ST11" [gsys] iodes (orb ++ clk)]))
                st)
           (pos, msg_trace1)
       else Next (pos, msg_trace1)) ;;
    let s := trace s 1 msg_trace1 in
    let s := add_stat_sat (Z.of_nat stat_pos + 3) (Z.of_nat pos - Z.of_nat stat_pos - 3) s in
    let s := if truth f_n then add_stat_sat 5 (-5) s else s in
    Next (s, pos)).

(** The comparison [b == n] of a bit string with a Python integer is the
    bitstring library's; subtypes 9 and 12 use it on one-bit fields. It is a
    parameter of the two decoders and of the dispatch. *)
Section BitsEqInt.

Variable bits_eq_int : bits -> Z -> bool.

(** The STEC residual of subtype 9. *)
Definition st9_residual (crange : bits) (res : Z) : pynum :=
  if ((bits_eq_int crange 1 && (res =? -32767)%Z)
      || (bits_eq_int crange 0 && (res =? -64)%Z))%bool
  then INVALID else py_mul_if res 0.04.

Definition decode_cssr_st9 (s : Ssr) (payload : bits) (pos : nat)
  : result (Ssr * nat) :=
  call (
    let len_payload := length payload in
    if len_payload <? 45 then Return (s, 0) else
    tctype <- uint (slice payload pos (pos + 2)) ;; let pos := pos + 2 in  (* trop correction type *)
    let crange := slice payload pos (pos + 1) in let pos := pos + 1 in     (* trop correction range *)
    let bw := if truth crange then 16 else 7 in
    cnid <- uint (slice payload pos (pos + 5)) ;; let pos := pos + 5 in    (* compact network ID *)
    '(pos, svmask) <- read_svmask s payload pos ;;
    if len_payload <? pos + 6 + 6 then Return (s, 0) else
    tqi <- uint (slice payload pos (pos + 6)) ;; let pos := pos + 6 in     (* tropo quality indicator *)
    ngrid <- uint (slice payload pos (pos + 6)) ;; let pos := pos + 6 in   (* number of grids *)
    let msg_trace1 := [Line "ST9 Trop" [] [tctype; cnid; tqi; ngrid] []] in
    '(pos, msg_trace1) <-
      for_each (range ngrid)
        (fun i '(pos, msg_trace1) =>
           if len_payload <? pos + 9 + 8 then Return (s, 0) else
           ivd_h <- int (slice payload pos (pos + 9)) ;; let pos := pos + 9 in  (* hydrostatic vert delay *)
           ivd_w <- int (slice payload pos (pos + 8)) ;; let pos := pos + 8 in  (* wet vert delay *)
           let vd_h := scale_unless ivd_h 0.004 (-256) in
           let vd_w := scale_unless ivd_w 0.004 (-128) in
           let msg_trace1 :=
             msg_trace1 ++ [Line "ST9 Trop grid" [] [Z.of_nat (i + 1); ngrid] [vd_h; vd_w]] in
           for_each s.(satsys)
             (fun satsys st =>
                sats <- dict_get s.(gsys) satsys ;;
                for_each (enumerate sats)
                  (fun '(j, gsys) '(pos, msg_trace1) =>
                     sv <- svmask_at svmask satsys j ;;
                     if negb sv then Next (pos, msg_trace1) else
                     if len_payload <? pos + bw then Return (s, 0) else
                     res <- int (slice payload pos (pos + bw)) ;; let pos := pos + bw in
                     let residual := st9_residual crange res in
                     Next (pos, msg_trace1 ++
                                  [Line "ST9 STEC" [gsys]
                                     [Z.of_nat (i + 1); ngrid; Z.of_nat bw] [residual]]))
                  st)
             (pos, msg_trace1))
        (pos, msg_trace1) ;;
    let s := trace s 1 msg_trace1 in
    let s := set_stat_both (s.(stat_both) + Z.of_nat pos)%Z s in
    Next (s, pos)).

(** The troposphere residual of subtype 12. *)
Definition st12_tr (trs : bits) (itr : Z) : pynum :=
  if ((bits_eq_int trs 0 && negb (itr =? -32)%Z)
      || (bits_eq_int trs 1 && negb (itr =? -128)%Z))%bool
  then INVALID else py_mul_if itr 0.004.

(** The STEC residual of subtype 12. *)
Definition st12_sr (srs isr : Z) (lsb : Q) : pynum :=
  let sr := py_mul_if isr lsb in
  let sr := if ((srs =? 0) && (isr =? -8))%Z%bool then INVALID else sr in
  let sr := if ((srs =? 1) && (isr =? -8))%Z%bool then INVALID else sr in
  let sr := if ((srs =? 2) && (isr =? -16))%Z%bool then INVALID else sr in
  let sr := if ((srs =? 3) && (isr =? -64))%Z%bool then INVALID else sr in
  sr.

Definition decode_cssr_st12 (s : Ssr) (payload : bits) (pos : nat)
  : result (Ssr * nat) :=
  call (
    let len_payload := length payload in
    if len_payload <? 52 then Return (s, 0) else
    let tropo := slice payload pos (pos + 2) in let pos := pos + 2 in     (* Tropo correction avail *)
    let stec := slice payload pos (pos + 2) in let pos := pos + 2 in      (* STEC correction avail *)
    cnid <- uint (slice payload pos (pos + 5)) ;; let pos := pos + 5 in   (* compact network ID *)
    ngrid <- uint (slice payload pos (pos + 6)) ;; let pos := pos + 6 in  (* number of grids *)
    let msg_trace1 :=
      [Line "ST12" [] [bits_value tropo; bits_value stec; cnid; ngrid] []] in
    tropo0 <- bit_at tropo 0 ;;
    '(pos, msg_trace1) <-
      (if tropo0 then
         if len_payload <? pos + 6 + 2 + 9 then Return (s, 0) else
         tqi <- uint (slice payload pos (pos + 6)) ;; let pos := pos + 6 in    (* tropo quality ind *)
         ttype <- uint (slice payload pos (pos + 2)) ;; let pos := pos + 2 in  (* tropo correction type *)
         it00 <- int (slice payload pos (pos + 9)) ;; let pos := pos + 9 in    (* tropo poly coeff *)
         let t00 := scale_unless it00 0.004 (-256) in
         '(pos, t1) <-
           (if (1 <=? ttype)%Z then
              if len_payload <? pos + 7 + 7 then Return (s, 0) else
              it01 <- int (slice payload pos (pos + 7)) ;; let pos := pos + 7 in
              it10 <- int (slice payload pos (pos + 7)) ;; let pos := pos + 7 in
              Next (pos, [scale_unless it01 0.002 (-64); scale_unless it10 0.002 (-64)])
            else Next (pos, [])) ;;
         '(pos, t2) <-
           (if (2 <=? ttype)%Z then
              if len_payload <? pos + 7 then Return (s, 0) else
              it11 <- int (slice payload pos (pos + 7)) ;; let pos := pos + 7 in
              Next (pos, [scale_unless it11 0.001 (-64)])
            else Next (pos, [])) ;;
         Next (pos, msg_trace1 ++ [Line "ST12 Trop" [] [tqi; ttype] (t00 :: t1 ++ t2)])
       else Next (pos, msg_trace1)) ;;
    tropo1 <- bit_at tropo 1 ;;
    '(pos, msg_trace1) <-
      (if tropo1 then
         if len_payload <? pos + 1 + 4 then Return (s, 0) else
         let trs := slice payload pos (pos + 1) in let pos := pos + 1 in        (* tropo residual size *)
         itro <- uint (slice payload pos (pos + 4)) ;; let pos := pos + 4 in  (* tropo residual offset *)
         let bw := if truth trs then 8 else 6 in
         let tro := py_mul_if itro 0.02 in
         let msg_trace1 := msg_trace1 ++ [Line "ST12 Trop offset" [] [] [tro]] in
         if len_payload <? pos + bw * Z.to_nat ngrid then Return (s, 0) else
         for_each (range ngrid)
           (fun i '(pos, msg_trace1) =>
              itr <- int (slice payload pos (pos + bw)) ;; let pos := pos + bw in  (* tropo residual *)
              let tr := st12_tr trs itr in
              Next (pos, msg_trace1 ++
                           [Line "ST12 Trop grid" []
                              [Z.of_nat (i + 1); ngrid; Z.of_nat bw] [tr]]))
           (pos, msg_trace1)
       else Next (pos, msg_trace1)) ;;
    let stat_pos := pos in
    stec0 <- bit_at stec 0 ;;
    '(pos, msg_trace1) <-
      (if stec0 then
         '(pos, svmask) <- read_svmask s payload pos ;;
         for_each s.(satsys)
           (fun satsys st =>
              sats <- dict_get s.(gsys) satsys ;;
              for_each (enumerate sats)
                (fun '(i, gsys) '(pos, msg_trace1) =>
                   sv <- svmask_at svmask satsys i ;;
                   if negb sv then Next (pos, msg_trace1) else
                   if len_payload <? pos + 6 + 2 + 14 then Return (s, 0) else
                   sqi <- uint (slice payload pos (pos + 6)) ;; let pos := pos + 6 in   (* quality ind *)
                   sct <- uint (slice payload pos (pos + 2)) ;; let pos := pos + 2 in   (* correct type *)
                   ic00 <- int (slice payload pos (pos + 14)) ;; let pos := pos + 14 in
                   let c00 := scale_unless ic00 0.05 (-8192) in
                   '(pos, terms) <- stec_terms s payload sct pos ;;
                   let msg_trace1 :=
                     msg_trace1 ++ [Line "ST12 STEC" [gsys] [sqi; sct] (c00 :: terms)] in
                   if len_payload <? pos + 2 then Return (s, 0) else
                   (* STEC residual size *)
                   srs <- uint (slice payload pos (pos + 2)) ;; let pos := pos + 2 in
                   bw <- list_get [4; 4; 5; 7] srs ;;
                   lsb <- list_get [0.04; 0.12; 0.16; 0.24]%Q srs ;;
                   for_each (range ngrid)
                     (fun i '(pos, msg_trace1) =>
                        if len_payload <? pos + bw then Return (s, 0) else
                        isr <- int (slice payload pos (pos + bw)) ;; let pos := pos + bw in
                        let sr := st12_sr srs isr lsb in
                        Next (pos, msg_trace1 ++
                                     [Line "ST12 STEC grid" [gsys]
                                        [Z.of_nat (i + 1); ngrid; Z.of_nat bw] [sr]]))
                     (pos, msg_trace1))
                st)
           (pos, msg_trace1)
       else Next (pos, msg_trace1)) ;;
    let s := trace s 1 msg_trace1 in
    let s := add_stat_sat (Z.of_nat stat_pos) (Z.of_nat pos - Z.of_nat stat_pos) s in
    Next (s, pos)).

(** ** The subtype dispatch *)

(** The summary string that [decode_cssr] returns. *)
Inductive cssr_string : Type :=
| StrEmpty                               (* [''] *)
| StrEpoch (subtype epoch iod : Z)       (* [ST1  epoch=... iod=...] *)
| StrHepoch (subtype hepoch iod : Z).    (* [STn  hepoch=... iod=...] *)

Definition decode_cssr (s : Ssr) (payload : bits)
  : result (Ssr * (nat * cssr_string)) :=
  call (
    '(s, pos) <- from_result (decode_cssr_head s payload) ;;
    if pos =? 0 then Return (s, (0, StrEmpty)) else
    let st := s.(subtype) in
    '(s, pos) <-
      (if (st =? 1)%Z then from_result (decode_cssr_st1 s payload pos)
       else if (st =? 2)%Z then from_result (decode_cssr_st2 s payload pos)
       else if (st =? 3)%Z then from_result (decode_cssr_st3 s payload pos)
       else if (st =? 4)%Z then from_result (decode_cssr_st4 s payload pos)
       else if (st =? 5)%Z then from_result (decode_cssr_st5 s payload pos)
       else if (st =? 6)%Z then from_result (decode_cssr_st6 s payload pos)
       else if (st =? 7)%Z then from_result (decode_cssr_st7 s payload pos)
       else if (st =? 8)%Z then from_result (decode_cssr_st8 s payload pos)
       else if (st =? 9)%Z then from_result (decode_cssr_st9 s payload pos)
       else if (st =? 10)%Z then from_result (decode_cssr_st10 s payload pos)
       else if (st =? 11)%Z then from_result (decode_cssr_st11 s payload pos)
       else if (st =? 12)%Z then from_result (decode_cssr_st12 s payload pos)
       else Raise (Exception "unknown CSSR subtype")) ;;
    let string :=
      if (s.(subtype) =? 1)%Z
      then StrEpoch s.(subtype) s.(epoch) s.(iod)
      else StrHepoch s.(subtype) s.(hepoch) s.(iod) in
    Next (s, (pos, string))).

End BitsEqInt.

(** ** RTCM SSR messages *)

(** The bit width of the satellite ID, which changes with the satellite system. *)
Definition ssr_satid_bw (satsys : string) : nat :=
  if (satsys =? "J")%string then 4
  else if (satsys =? "R")%string then 5
  else 6.

(** The string that the [ssr_decode_*] functions return: the satellite names,
    [nsat], [iod] and whether [' cont.'] is appended. *)
Definition ssr_string (s : Ssr) (strsat : list string) : trace_line :=
  Line "SSR" strsat [s.(ssr_nsat); s.(ssr_iod); Z.b2z (truth s.(ssr_mmi))] [].

Definition ssr_decode_head (s : Ssr) (payload : bits) (pos : nat)
    (satsys mtype : string) : result (Ssr * nat) :=
  call (
    (* bit width of ssr_epoch changes according to satellite system *)
    let bw := if negb (satsys =? "R")%string then 20 else 17 in
    ssr_epoch <- uint (slice payload pos (pos + bw)) ;; let pos := pos + bw in
    ssr_interval <- uint (slice payload pos (pos + 4)) ;; let pos := pos + 4 in
    let s := set_ssr_mmi (slice payload pos (pos + 1)) s in let pos := pos + 1 in
    pos <-
      (if ((mtype =? "SSR orbit")%string || (mtype =? "SSR obt/clk")%string)%bool
       then ssr_sdat <- uint (slice payload pos (pos + 1)) ;; Next (pos + 1)
       else Next pos) ;;
    v <- uint (slice payload pos (pos + 4)) ;; let pos := pos + 4 in
    let s := set_ssr_iod v s in
    ssr_pid <- uint (slice payload pos (pos + 16)) ;; let pos := pos + 16 in
    ssr_sid <- uint (slice payload pos (pos + 4)) ;; let pos := pos + 4 in
    let bw := if negb (satsys =? "J")%string then 6 else 4 in
    v <- uint (slice payload pos (pos + bw)) ;; let pos := pos + bw in
    let s := set_ssr_nsat v s in
    Next (s, pos)).

Definition ssr_decode_orbit (s : Ssr) (payload : bits) (pos : nat)
    (satsys : string) : result (Ssr * (nat * trace_line)) :=
  call (
    let bw := ssr_satid_bw satsys in
    '(s, pos, strsat) <-
      for_each (range s.(ssr_nsat))
        (fun i '(s, pos, strsat) =>
           satid <- uint (slice payload pos (pos + bw)) ;; let pos := pos + bw in
           iode <- uint (slice payload pos (pos + 8)) ;; let pos := pos + 8 in
           idrad <- int (slice payload pos (pos + 22)) ;; let pos := pos + 22 in
           idaln <- int (slice payload pos (pos + 20)) ;; let pos := pos + 20 in
           idcrs <- int (slice payload pos (pos + 20)) ;; let pos := pos + 20 in
           iddrad <- int (slice payload pos (pos + 21)) ;; let pos := pos + 21 in
           iddaln <- int (slice payload pos (pos + 19)) ;; let pos := pos + 19 in
           iddcrs <- int (slice payload pos (pos + 19)) ;; let pos := pos + 19 in
           let drad := py_mul_if idrad 1e-4 in
           let daln := py_mul_if idaln 4e-4 in
           let dcrs := py_mul_if idcrs 4e-5 in
           let ddrad := py_mul_if iddrad 1e-6 in
           let ddaln := py_mul_if iddaln 4e-6 in
           let ddcrs := py_mul_if iddcrs 4e-6 in
           let name := (satsys ++ fmt_02d (Z.to_nat satid))%string in
           let s := trace s 1 [Line "SSR orbit" [name] []
                                 [drad; daln; dcrs; ddrad; ddaln; ddcrs]] in
           Next (s, pos, strsat ++ [name]))
        (s, pos, []) ;;
    Next (s, (pos, ssr_string s strsat))).

Definition ssr_decode_clock (s : Ssr) (payload : bits) (pos : nat)
    (satsys : string) : result (Ssr * (nat * trace_line)) :=
  call (
    let bw := ssr_satid_bw satsys in
    '(s, pos, strsat) <-
      for_each (range s.(ssr_nsat))
        (fun i '(s, pos, strsat) =>
           satid <- uint (slice payload pos (pos + bw)) ;; let pos := pos + bw in
           ic0 <- int (slice payload pos (pos + 22)) ;; let pos := pos + 22 in
           ic1 <- int (slice payload pos (pos + 21)) ;; let pos := pos + 21 in
           ic2 <- int (slice payload pos (pos + 27)) ;; let pos := pos + 27 in
           let c0 := py_mul_if ic0 1e-4 in
           let c1 := py_mul_if ic1 1e-6 in
           let c2 := py_mul_if ic2 2e-9 in
           let name := (satsys ++ fmt_02d (Z.to_nat satid))%string in
           let s := trace s 1 [Line "SSR clock" [name] [] [c0; c1; c2]] in
           Next (s, pos, strsat ++ [name]))
        (s, pos, []) ;;
    Next (s, (pos, ssr_string s strsat))).

Definition ssr_decode_code_bias (s : Ssr) (payload : bits) (pos : nat)
    (satsys : string) : result (Ssr * (nat * trace_line)) :=
  call (
    let bw := ssr_satid_bw satsys in
    '(s, pos, strsat) <-
      for_each (range s.(ssr_nsat))
        (fun i '(s, pos, strsat) =>
           satid <- uint (slice payload pos (pos + bw)) ;; let pos := pos + bw in
           ncb <- uint (slice payload pos (pos + 5)) ;; let pos := pos + 5 in  (* code bias number *)
           let name := (satsys ++ fmt_02d (Z.to_nat satid))%string in
           let strsat := strsat ++ [name] in
           '(s, pos) <-
             for_each (range ncb)
               (fun j '(s, pos) =>
                  (* signal & tracking mode indicator *)
                  ustmi <- uint (slice payload pos (pos + 5)) ;; let pos := pos + 5 in
                  icb <- int (slice payload pos (pos + 14)) ;; let pos := pos + 14 in
                  let cb := py_mul_if icb 1e-2 in
                  stmi <- sigmask2signame satsys ustmi ;;
                  let s := trace s 1 [Line "SSR code bias" [name; stmi] [] [cb]] in
                  Next (s, pos))
               (s, pos) ;;
           Next (s, pos, strsat))
        (s, pos, []) ;;
    Next (s, (pos, ssr_string s strsat))).

Definition ssr_decode_ura (s : Ssr) (payload : bits) (pos : nat)
    (satsys : string) : result (Ssr * (nat * trace_line)) :=
  call (
    let bw := ssr_satid_bw satsys in
    '(s, pos, strsat) <-
      for_each (range s.(ssr_nsat))
        (fun i '(s, pos, strsat) =>
           satid <- uint (slice payload pos (pos + bw)) ;; let pos := pos + bw in
           ura <- uint (slice payload pos (pos + 6)) ;; let pos := pos + 6 in  (* user range accuracy *)
           let name := (satsys ++ fmt_02d (Z.to_nat satid))%string in
           let s := trace s 1 [Line "SSR ura" [name] [ura] []] in
           Next (s, pos, strsat ++ [name]))
        (s, pos, []) ;;
    Next (s, (pos, ssr_string s strsat))).

Definition ssr_decode_hr_clock (s : Ssr) (payload : bits) (pos : nat)
    (satsys : string) : result (Ssr * (nat * trace_line)) :=
  call (
    let bw := ssr_satid_bw satsys in
    '(s, pos, strsat) <-
      for_each (range s.(ssr_nsat))
        (fun i '(s, pos, strsat) =>
           satid <- uint (slice payload pos (pos + bw)) ;; let pos := pos + bw in
           ihrc <- int (slice payload pos (pos + 22)) ;; let pos := pos + 22 in  (* high rate clock *)
           let hrc := py_mul_if ihrc 1e-4 in
           let name := (satsys ++ fmt_02d (Z.to_nat satid))%string in
           let s := trace s 1 [Line "SSR high rate clock" [name] [] [hrc]] in
           Next (s, pos, strsat ++ [name]))
        (s, pos, []) ;;
    Next (s, (pos, ssr_string s strsat))).

(** ** Ephemeris scaling (libeph.py) *)

(** An attribute value of the raw record: the class-level default is the
    integer 0, [payload.read(n)] is a bit string. *)
Inductive pyobj : Type :=
| ObjInt (z : Z)
| ObjBits (b : bits).

(** [o.name] on an object given by its attributes *)
Definition getattr {R V} (o : dict V) (name : string) : flow R V :=
  match o name with
  | Some v => Next v
  | None => Raise (AttributeError name)
  end.

(** [x.u] and [x.i]: the unsigned and the two's complement reading of a bit
    string; an integer has neither attribute. *)
Definition dot_u {R} (x : pyobj) : flow R Z :=
  match x with
  | ObjBits b => uint b
  | ObjInt _ => Raise (AttributeError "u")
  end.

Definition dot_i {R} (x : pyobj) : flow R Z :=
  match x with
  | ObjBits b => int b
  | ObjInt _ => Raise (AttributeError "i")
  end.

Definition attr_u {R} (r : dict pyobj) (name : string) : flow R Z :=
  x <- getattr r name ;; dot_u x.

Definition attr_i {R} (r : dict pyobj) (name : string) : flow R Z :=
  x <- getattr r name ;; dot_i x.

(** Ratio of a circle's circumference *)
Definition PI : Q := 3.1415926535898.

(** The names that class [EphRaw] gives a default to. *)
Definition EphRaw_names : list string :=
  [ "svid"; "wn"; "sva"; "gpsc"; "idot"; "iode"; "toc"; "af2"; "af1"; "af0";
    "iodc"; "crs"; "dn"; "m0"; "cuc"; "e"; "cus"; "a12"; "toe"; "cic"; "omg0";
    "cis"; "i0"; "crc"; "omg"; "omgd"; "tgd"; "svh"; "l2p"; "fi";
    "fcn"; "iodn"; "sisa"; "t0e"; "t0c"; "be5a"; "be5b"; "ai0"; "ai1";
    "a0"; "a1"; "dtls"; "t0t"; "wn0t"; "wnlsf"; "dn"; "dtlsf"; "a0g"; "a1g";
    "t0g"; "wn0g" ].

(** [EphRaw()] *)
Definition EphRaw : dict pyobj :=
  fold_left (fun o name => dict_set name (ObjInt 0) o) EphRaw_names dict_empty.

(** [EphData.__init__]: the attributes of the new object. The argument
    [satsys] is not used by the source. *)
Definition EphData (satsys : string) (r : dict pyobj) : result (dict pynum) :=
  call (
    let self : dict pynum := dict_empty in
    v <- attr_u r "svid" ;; let self := dict_set "svid" (PyInt v) self in
    v <- attr_i r "m0" ;; let self := dict_set "m0" (PyFloat (inject_Z v * 2 ^ (-31) * PI)) self in
    v <- attr_u r "e" ;; let self := dict_set "e" (PyFloat (inject_Z v * 2 ^ (-33))) self in
    v <- attr_u r "a12" ;; let self := dict_set "a12" (PyFloat (inject_Z v * 2 ^ (-19))) self in
    v <- attr_u r "t0e" ;; let self := dict_set "t0e" (PyInt (v * 60)) self in
    v <- attr_i r "omg0" ;; let self := dict_set "omg0" (PyFloat (inject_Z v * 2 ^ (-31) * PI)) self in
    v <- attr_i r "i0" ;; let self := dict_set "i0" (PyFloat (inject_Z v * 2 ^ (-31) * PI)) self in
    v <- attr_i r "omg" ;; let self := dict_set "omg" (PyFloat (inject_Z v * 2 ^ (-31) * PI)) self in
    v <- attr_i r "idot" ;; let self := dict_set "idot" (PyFloat (inject_Z v * 2 ^ (-43) * PI)) self in
    v <- attr_i r "dn" ;; let self := dict_set "dn" (PyFloat (inject_Z v * 2 ^ (-43) * PI)) self in
    v <- attr_i r "omgd" ;; let self := dict_set "omgd" (PyFloat (inject_Z v * 2 ^ (-43) * PI)) self in
    v <- attr_i r "cuc" ;; let self := dict_set "cuc" (PyFloat (inject_Z v * 2 ^ (-29))) self in
    v <- attr_i r "cus" ;; let self := dict_set "cus" (PyFloat (inject_Z v * 2 ^ (-29))) self in
    v <- attr_i r "crc" ;; let self := dict_set "crc" (PyFloat (inject_Z v * 2 ^ (-5))) self in
    v <- attr_i r "crs" ;; let self := dict_set "crs" (PyFloat (inject_Z v * 2 ^ (-5))) self in
    v <- attr_i r "cic" ;; let self := dict_set "cic" (PyFloat (inject_Z v * 2 ^ (-29))) self in
    v <- attr_i r "cis" ;; let self := dict_set "cis" (PyFloat (inject_Z v * 2 ^ (-29))) self in
    v <- attr_u r "t0c" ;; let self := dict_set "t0c" (PyInt (v * 60)) self in
    v <- attr_i r "af0" ;; let self := dict_set "af0" (PyFloat (inject_Z v * 2 ^ (-34))) self in
    v <- attr_i r "af1" ;; let self := dict_set "af1" (PyFloat (inject_Z v * 2 ^ (-46))) self in
    v <- attr_i r "af2" ;; let self := dict_set "af2" (PyFloat (inject_Z v * 2 ^ (-59))) self in
    v <- attr_i r "be5a" ;; let self := dict_set "be5a" (PyFloat (inject_Z v * 2 ^ (-32))) self in
    v <- attr_i r "be5b" ;; let self := dict_set "be5b" (PyFloat (inject_Z v * 2 ^ (-32))) self in
    v <- attr_u r "ai0" ;; let self := dict_set "ai0" (PyFloat (inject_Z v * 2 ^ (-2))) self in
    v <- attr_i r "ai1" ;; let self := dict_set "ai1" (PyFloat (inject_Z v * 2 ^ (-8))) self in
    v <- attr_i r "a0" ;; let self := dict_set "a0" (PyFloat (inject_Z v * 2 ^ (-30))) self in
    v <- attr_i r "a1" ;; let self := dict_set "a1" (PyFloat (inject_Z v * 2 ^ (-50))) self in
    v <- attr_i r "dtls" ;; let self := dict_set "dtls" (PyInt v) self in
    v <- attr_u r "t0t" ;; let self := dict_set "t0t" (PyInt v) self in
    v <- attr_u r "wn0t" ;; let self := dict_set "wn0t" (PyInt v) self in
    v <- attr_u r "wnlsf" ;; let self := dict_set "wnlsf" (PyInt v) self in
    v <- attr_u r "dn" ;; let self := dict_set "dn" (PyInt v) self in
    v <- attr_i r "dtlsf" ;; let self := dict_set "dtlsf" (PyInt v) self in
    v <- attr_i r "a0g" ;; let self := dict_set "a0g" (PyFloat (inject_Z v * 2 ^ (-35))) self in
    v <- attr_i r "a1g" ;; let self := dict_set "a1g" (PyFloat (inject_Z v * 2 ^ (-51))) self in
    v <- attr_u r "t0g" ;; let self := dict_set "t0g" (PyInt (v * 3600)) self in
    v <- attr_u r "wn0g" ;; let self := dict_set "wn0g" (PyInt v) self in
    Next self).

(** * Notions used to state the properties *)

(** The state after the header decoder has classified a payload of [n] bits
    as null data, with the trace line it writes at level 2. *)
Definition null_data_state (s : Ssr) (line : trace_line) (n : nat) : Ssr :=
  let s := trace s 2 [line] in
  set_subtype 0%Z (set_stat_bnull (s.(stat_bnull) + Z.of_nat n)%Z s).

(** ** The scaled fields of the Compact SSR and HAS decoders

    A scaled field is read from [f_width] bits and turned into a value by one
    of three expressions of the source. *)

Inductive field_kind : Type :=
| IntField (lsb : Q) (sentinel : Z)
    (* [i = payload[...].int; i * lsb if i != sentinel else INVALID] *)
| BinField (lsb : Q) (pattern : string)
    (* [b = payload[...]; b.int * lsb if b.bin != pattern else INVALID] *)
| HasClock.
    (* the [if]/[elif]/[else] of [decode_has_ckful] and [decode_has_cksub] *)


Record scaled_field : Type := Field {
  f_decoder : string;
  f_name : string;
  f_width : nat;
  f_kind : field_kind
}.



(** The two fields of [decode_cssr_st2] that test a 13-bit value against the
    constant [-16384]. *)
Definition st2_track_fields : list scaled_field :=
  [ Field "decode_cssr_st2" "d_along" 13 (IntField 0.0064 (-16384));
    Field "decode_cssr_st2" "d_cross" 13 (IntField 0.0064 (-16384)) ].



(** ** Example messages *)

(** A Compact SSR header: message number 4073, the subtype, and zero for the
    epoch, the update interval, the multiple message indicator and the issue
    of data. 45 bits for subtype 1, 37 bits for the other subtypes but 10. *)
Definition example_header (subtype : string) : bits :=
  bin "111111101001" ++ bin subtype ++
  (if (subtype =? "0001")%string then repeat false 20 else repeat false 12) ++
  bin "0000" ++ bin "0" ++ bin "0000".

(** A mask message for one GNSS with the given system id, satellite mask
    (40 bits), signal mask (16 bits) and no cell mask. *)
Definition example_mask (gnssid satmask sigmask : string) : bits :=
  example_header "0001" ++ bin "0001" ++
  bin gnssid ++ bin satmask ++ bin sigmask ++ bin "0".

(** GPS, first satellite, first signal. *)
Definition example_mask_one : bits :=
  example_mask "0000"
    "1000000000000000000000000000000000000000" "1000000000000000".

(** GPS, satellites 1, 3 and 5, signals 0 and 2. *)
Definition example_mask_135 : bits :=
  example_mask "0000"
    "1010100000000000000000000000000000000000" "1010000000000000".

(** The decoder object with a display attached and trace level 1, after it
    has decoded the given mask message ([None] if that fails). *)
Definition state_after_mask (mask_message : bits) : option Ssr :=
  match decode_cssr_head (Ssr_init (Some []) 1) mask_message with
  | Ok (s, pos) =>
      match decode_cssr_st1 s mask_message pos with
      | Ok (s, _) => Some s
      | Exc _ => None
      end
  | Exc _ => None
  end.







(** ** Ephemeris records *)

(** The attributes of the raw record that [EphData.__init__] reads. *)
Definition EphData_reads : list string :=
  [ "svid"; "m0"; "e"; "a12"; "t0e"; "omg0"; "i0"; "omg"; "idot"; "dn";
    "omgd"; "cuc"; "cus"; "crc"; "crs"; "cic"; "cis"; "t0c"; "af0"; "af1";
    "af2"; "be5a"; "be5b"; "ai0"; "ai1"; "a0"; "a1"; "dtls"; "t0t"; "wn0t";
    "wnlsf"; "dtlsf"; "a0g"; "a1g"; "t0g"; "wn0g" ].

(** A raw record whose attributes read by [EphData.__init__] are all
    non-empty bit strings. *)
Definition raw_bits (r : dict pyobj) : Prop :=
  forall name, In name EphData_reads ->
    exists b, r name = Some (ObjBits b) /\ b <> [].

(** The two's complement value of a non-empty bit string. *)
Definition int_value (b : bits) : Z :=
  match b with
  | true :: _ => (bits_value b - 2 ^ Z.of_nat (length b))%Z
  | _ => bits_value b
  end.

(** A raw record with the same bit string in every attribute. *)
Definition example_raw (b : bits) : dict pyobj := fun _ => Some (ObjBits b).

(** ** Reasoning about bodies *)

(** [wp m Q QR]: the body [m] does not raise; it goes on with a value that
    satisfies [Q] or leaves the function with a value that satisfies [QR]. *)
Definition wp {R A} (m : flow R A) (Q : A -> Prop) (QR : R -> Prop) : Prop :=
  match m with
  | Next a => Q a
  | Return r => QR r
  | Raise _ => False
  end.

(** The same for the result of a call. *)
Definition returns {R} (r : result R) (Q : R -> Prop) : Prop :=
  match r with
  | Ok v => Q v
  | Exc _ => False
  end.

(** ** States of the decoder object *)

(** The satellites and the signals that the mask gives a system. *)
Definition sats_of (s : Ssr) (sys : string) : list string :=
  match s.(gsys) sys with Some l => l | None => [] end.

Definition sigs_of (s : Ssr) (sys : string) : list string :=
  match s.(gsig) sys with Some l => l | None => [] end.

(** Every system of the mask has its satellites and signals, and its cell
    mask has a bit for every pair of a satellite and a signal. A mask message
    that is decoded without an exception leaves the object in such a state,
    and so does [__init__]. *)
Definition mask_ok (s : Ssr) : Prop :=
  forall i sys, nth_error s.(satsys) i = Some sys ->
    s.(gsys) sys <> None /\ s.(gsig) sys <> None /\
    exists cm, nth_error s.(cellmask) i = Some cm /\
               length (sats_of s sys) * length (sigs_of s sys) <= length cm.

(** The number of satellites of the mask. *)
Definition nsat_total (s : Ssr) : nat :=
  list_sum (map (fun sys => length (sats_of s sys)) s.(satsys)).

(** The bits of the orbit corrections of subtype 2: per satellite an IODE of
    10 bits for Galileo and of 8 bits otherwise, and 15 + 13 + 13 bits. *)
Definition st2_sat_bits (sys : string) : nat :=
  (if (sys =? "E")%string then 10 else 8) + 15 + 13 + 13.

Definition st2_bits (s : Ssr) : nat :=
  list_sum (map (fun sys => length (sats_of s sys) * st2_sat_bits sys) s.(satsys)).

(** The mask tables of two states are the same. *)
Definition same_mask (s s' : Ssr) : Prop :=
  s'.(satsys) = s.(satsys) /\ s'.(gsys) = s.(gsys) /\ s'.(gsig) = s.(gsig) /\
  s'.(cellmask) = s.(cellmask) /\ s'.(nsatmask) = s.(nsatmask) /\
  s'.(nsigmask) = s.(nsigmask).

(** The outcome of a decoder that needs [need] bits from [pos] on: position 0
    and an unchanged object when the payload is too short, and otherwise the
    position after the bits, with the mask tables unchanged. *)
Definition consumes (s : Ssr) (payload : bits) (pos need : nat)
    (out : Ssr * nat) : Prop :=
  if (0 <? need) && (length payload <? pos + need)
  then out = (s, 0)
  else snd out = pos + need /\ same_mask s (fst out).

(** The length of the header of a subtype. *)
Definition header_bits (subtype : Z) : nat :=
  if (subtype =? 1)%Z then 45 else if (subtype =? 10)%Z then 16 else 37.

(** The payload carries a whole header: a set bit, the message number 4073
    and the bits of the header of its subtype. *)
Definition has_header (payload : bits) : bool :=
  contains_one payload && (12 <=? length payload) &&
  (bits_value (slice payload 0 12) =? 4073)%Z &&
  (header_bits (bits_value (slice payload 12 16)) <=? length payload).

(** What the header decoder gives back: the mask tables are untouched; on a
    whole header the subtype is stored and the position is the length of the
    header, and otherwise the position is 0. *)
Definition head_post (s : Ssr) (payload : bits) (out : Ssr * nat) : Prop :=
  let s1 := fst out in
  let pos := snd out in
  same_mask s s1 /\
  if has_header payload
  then s1.(subtype) = bits_value (slice payload 12 16) /\
       pos = header_bits s1.(subtype)
  else pos = 0.

(** The object with the tables of a mask message stored. *)
Definition with_mask (m : mask_tables) (s : Ssr) : Ssr :=
  set_gsig m.(m_gsig)
    (set_gsys m.(m_gsys)
       (set_cellmask m.(m_cellmask)
          (set_nsigmask m.(m_nsigmask)
             (set_nsatmask m.(m_nsatmask)
                (set_satsys m.(m_satsys) s))))).

(** A mask body at [pos] that declares one GNSS with the given system id,
    the first satellite, the first signal and no cell mask. *)
Definition single_mask (payload : bits) (pos : nat) (gnssid : Z) : Prop :=
  110 <= length payload /\ pos + 65 <= length payload /\
  bits_value (slice payload pos (pos + 4)) = 1%Z /\
  bits_value (slice payload (pos + 4) (pos + 8)) = gnssid /\
  slice payload (pos + 8) (pos + 48) = true :: repeat false 39 /\
  slice payload (pos + 48) (pos + 64) = true :: repeat false 15 /\
  slice payload (pos + 64) (pos + 65) = [false].

(** The mask context of one system with one satellite, one signal and one
    active cell. *)
Definition single_context (s : Ssr) (sys sat sig : string) : Prop :=
  s.(satsys) = [sys] /\ s.(gsys) sys = Some [sat] /\ s.(gsig) sys = Some [sig] /\
  s.(cellmask) = [[true]].

(** ** The cells of the mask, as the specification addresses them

    One cell per system, satellite and signal, satellite-major: the cell of
    the satellite with index [j] and of the signal with index [k] has the bit
    [j * n_signals + k] of the cell mask of its system. A cell carries the
    index and the code of its system, the index and the name of its
    satellite, the name of its signal and its mask bit. *)

Definition cell : Type := nat * string * nat * string * string * bool.

Definition cells_of (s : Ssr) : list cell :=
  flat_map
    (fun '(i, sys) =>
       let cm := nth i s.(cellmask) [] in
       let sigs := sigs_of s sys in
       flat_map
         (fun '(j, sat) =>
            map (fun '(k, sig) =>
                   (i, sys, j, sat, sig, nth (j * length sigs + k) cm false))
                (enumerate sigs))
         (enumerate (sats_of s sys)))
    (enumerate s.(satsys)).

(** The body of a cell loop applied to a cell. *)
Definition on_cell {R St}
    (body : nat -> string -> nat -> string -> string -> bool -> St -> flow R St)
    (c : cell) (st : St) : flow R St :=
  let '(i, sys, j, sat, sig, mask) := c in body i sys j sat sig mask st.

(** The satellite and the signal of the active cells, in order. *)
Definition active_cells (s : Ssr) : list (string * string) :=
  map (fun '(_, _, _, sat, sig, _) => (sat, sig))
      (filter (fun '(_, _, _, _, _, mask) => mask) (cells_of s)).

(** The header fields of two states are the same. *)
Definition same_head (s s' : Ssr) : Prop :=
  s'.(subtype) = s.(subtype) /\ s'.(msgnum) = s.(msgnum) /\
  s'.(epoch) = s.(epoch) /\ s'.(hepoch) = s.(hepoch) /\
  s'.(interval) = s.(interval) /\ s'.(mmi) = s.(mmi) /\ s'.(iod) = s.(iod).

(** The outcome of a decoder that stays within the payload: position 0 and
    an unchanged object, or a position from the starting position on and not
    after the end of the payload, with the mask tables and the header fields
    unchanged. *)
Definition within (s : Ssr) (payload : bits) (pos : nat) (out : Ssr * nat) : Prop :=
  out = (s, 0) \/
  (pos <= snd out <= length payload /\
   same_mask s (fst out) /\ same_head s (fst out)).

(** [mask_ok] as a check. *)
Definition mask_okb (s : Ssr) : bool :=
  forallb
    (fun '(i, sys) =>
       match s.(gsys) sys, s.(gsig) sys, nth_error s.(cellmask) i with
       | Some sats, Some sigs, Some cm => length sats * length sigs <=? length cm
       | _, _, _ => false
       end)
    (enumerate s.(satsys)).

(** The number of active cells among the given cells. *)
Definition count_active (cells : list cell) : nat :=
  length (filter (fun '(_, _, _, _, _, mask) => mask) cells).

(** The satellite masks read by [read_svmask]: one per system of the mask,
    with a bit for every satellite of the system. *)
Definition svmask_ok (s : Ssr) (svmask : dict bits) : Prop :=
  forall sys, In sys s.(satsys) ->
    exists m, svmask sys = Some m /\ length m = length (sats_of s sys).

(** The loop invariant of the decoders: the position moves on and stays
    within the payload. *)
Definition pos_inv {Msg} (payload : bits) (pos : nat) (st : nat * Msg) : Prop :=
  pos <= fst st <= length payload.

(** The subtypes whose decoders check the length of the payload before
    every read. *)
Definition checked_subtypes : list Z := [2; 3; 4; 5; 7; 8; 9; 11; 12]%Z.

(** The subtypes that read nothing when the mask has no satellite. *)
Definition mask_only_subtypes : list Z := [2; 3; 4; 5; 7]%Z.

(** The outcome of [decode_cssr] on a message it decodes: the summary of the
    subtype, a position within the payload, and the mask tables unchanged. *)
Definition cssr_post (s : Ssr) (payload : bits) (st : Z)
    (out : Ssr * (nat * cssr_string)) : Prop :=
  let s' := fst out in
  fst (snd out) <= length payload /\
  snd (snd out) = StrHepoch st s'.(hepoch) s'.(iod) /\
  s'.(subtype) = st /\
  same_mask s s'.

(** What is asked of the body of a satellite loop, for a payload of [len]
    bits and an early return of [ret]: with [w] bits left it advances the
    position by [w]; otherwise it returns. *)
Definition reads_bits {R Msg} (len : nat) (ret : R) (w : nat)
    (body : nat * Msg -> flow R (nat * Msg)) : Prop :=
  forall pos msg,
    wp (body (pos, msg))
       (fun st => fst st = pos + w /\ fst st <= len)
       (fun r => r = ret /\ len < pos + w).

(** The comparison [BitArray == int] of the versions of the bit string
    library that compare the unsigned value. *)
Definition bits_eq_value (b : bits) (z : Z) : bool := (bits_value b =? z)%Z.

(** An RTCM SSR orbit header for GPS that announces one satellite: epoch,
    update interval, multiple message indicator, satellite reference datum,
    issue of data, provider and solution id all zero. 56 bits, no satellite
    record after them. *)
Definition example_ssr_header : bits :=
  repeat false 20 ++ bin "0000" ++ bin "0" ++ bin "0" ++ bin "0000" ++
  repeat false 16 ++ bin "0000" ++ bin "000001".

(** The decoder that [decode_cssr] calls for a subtype other than 1 and
    10. *)
Definition cssr_decoders (bits_eq_int : bits -> Z -> bool)
  : list (Z * (Ssr -> bits -> nat -> result (Ssr * nat))) :=
  [ (2, decode_cssr_st2); (3, decode_cssr_st3); (4, decode_cssr_st4);
    (5, decode_cssr_st5); (6, decode_cssr_st6); (7, decode_cssr_st7);
    (8, decode_cssr_st8); (9, decode_cssr_st9 bits_eq_int);
    (11, decode_cssr_st11); (12, decode_cssr_st12 bits_eq_int) ]%Z.

(** The subtypes of [cssr_decoders]. *)
Definition non_mask_subtypes : list Z := [2; 3; 4; 5; 6; 7; 8; 9; 11; 12]%Z.

(** The object after the example mask of three satellites and two signals. *)
Definition example_state_135 : Ssr :=
  match state_after_mask example_mask_135 with
  | Some s => s
  | None => Ssr_init None 0
  end.

(** The example mask of three satellites and two signals with a transmitted
    cell mask: the first signal for the first satellite, the second signal
    for the second satellite, the first signal for the third satellite. *)
Definition example_mask_135_cells : bits :=
  example_header "0001" ++ bin "0001" ++ bin "0000" ++
  bin "1010100000000000000000000000000000000000" ++ bin "1010000000000000" ++
  bin "1" ++ bin "100110".

(** The indices of the set bits of a mask, ascending. *)
Definition set_bits (b : bits) : list nat :=
  map fst (filter snd (enumerate b)).

(** The satellite, the signal and the mask bit of the cells, in order. *)
Definition cell_names (cells : list cell) : list (string * string * bool) :=
  map (fun '(_, _, _, sat, sig, mask) => (sat, sig, mask)) cells.

(** The object after the example mask with a transmitted cell mask. *)
Definition example_state_135_cells : Ssr :=
  match state_after_mask example_mask_135_cells with
  | Some s => s
  | None => Ssr_init None 0
  end.



(** The bits of the RTCM SSR header: the epoch (17 bits for GLONASS, 20
    otherwise), the update interval, the multiple message indicator, the
    satellite reference datum of the orbit messages, the issue of data, the
    provider and solution ids and the number of satellites (4 bits for QZSS,
    6 otherwise). *)
Definition ssr_head_bits (satsys mtype : string) : nat :=
  (if negb (satsys =? "R")%string then 20 else 17) + 4 + 1 +
  (if ((mtype =? "SSR orbit")%string || (mtype =? "SSR obt/clk")%string)%bool
   then 1 else 0) +
  4 + 16 + 4 + (if negb (satsys =? "J")%string then 6 else 4).

(** The RTCM SSR decoders of satellite records of a fixed size, with the
    bits of a record after the satellite id. *)
Definition ssr_record_decoders
  : list ((Ssr -> bits -> nat -> string -> result (Ssr * (nat * trace_line))) * nat) :=
  [ (ssr_decode_orbit, 8 + 22 + 20 + 20 + 21 + 19 + 19);
    (ssr_decode_clock, 22 + 21 + 27);
    (ssr_decode_ura, 6);
    (ssr_decode_hr_clock, 22) ].

(** The names of the satellite systems with a table of signal names. *)
Definition signal_systems : list string := ["G"; "R"; "E"; "C"; "J"; "S"].

(** * Properties *)

Unset Implicit Arguments.

(** ** Bit strings *)

Lemma slice_length (p : bits) (a b : nat) :
  length (slice p a b) = Nat.min (b - a) (length p - a).
Proof.
  unfold slice. now rewrite length_firstn, length_skipn.
Qed.

Lemma slice_nonempty (p : bits) (a b : nat) :
  a < b -> a < length p -> slice p a b <> [].
Proof.
  intros Hab Hlen Hnil.
  apply (f_equal (@length bool)) in Hnil.
  rewrite slice_length in Hnil. simpl in Hnil. lia.
Qed.

Lemma uint_nonempty {R} (b : bits) :
  b <> [] -> @uint R b = Next (bits_value b).
Proof. destruct b; [congruence | reflexivity]. Qed.

Lemma uint_slice {R} (p : bits) (a b : nat) :
  a < b -> a < length p -> @uint R (slice p a b) = Next (bits_value (slice p a b)).
Proof. intros. now apply uint_nonempty, slice_nonempty. Qed.

Lemma uint_empty_slice {R} (p : bits) (a b : nat) :
  length p <= a -> @uint R (slice p a b) = Raise InterpretError.
Proof.
  intros H. unfold slice. now rewrite skipn_all2, firstn_nil by lia.
Qed.

Lemma contains_one_false (p : bits) :
  contains_one p = false <-> (forall b, In b p -> b = false).
Proof.
  unfold contains_one. split.
  - intros H b Hb. destruct b; [|reflexivity].
    assert (existsb (fun x => x) p = true) by (apply existsb_exists; eauto).
    congruence.
  - intros H. destruct (existsb (fun x => x) p) eqn:E; [|reflexivity].
    apply existsb_exists in E. destruct E as [x [Hin Hx]]. subst.
    now apply H in Hin.
Qed.

Lemma contains_one_true (p : bits) :
  contains_one p = true <-> In true p.
Proof.
  unfold contains_one. rewrite existsb_exists. split.
  - intros [x [Hin Hx]]. now subst.
  - intros H. now exists true.
Qed.

(** ** The Compact SSR header *)

Lemma trace_fields (s : Ssr) (level : Z) (l : list trace_line) :
  let s' := trace s level l in
  s'.(subtype) = s.(subtype) /\ s'.(msgnum) = s.(msgnum) /\
  s'.(epoch) = s.(epoch) /\ s'.(hepoch) = s.(hepoch) /\
  s'.(interval) = s.(interval) /\ s'.(mmi) = s.(mmi) /\ s'.(iod) = s.(iod) /\
  s'.(stat_bnull) = s.(stat_bnull) /\ s'.(satsys) = s.(satsys) /\
  s'.(gsys) = s.(gsys) /\ s'.(gsig) = s.(gsig) /\ s'.(cellmask) = s.(cellmask) /\
  s'.(stat_both) = s.(stat_both) /\ s'.(stat_bsat) = s.(stat_bsat) /\
  s'.(stat_bsig) = s.(stat_bsig) /\ s'.(t_level) = s.(t_level) /\
  s'.(stat) = s.(stat).
Proof.
  unfold trace. destruct (s.(t_level) <? level)%Z; [repeat split|].
  destruct s.(fp_disp); repeat split.
Qed.

(** C10. A payload in which no bit is set is null padding for the header
    decoder: whatever its length, the decoder returns position 0 without
    raising, adds the bit length of the payload to [stat_bnull], sets the
    subtype to 0 and leaves every header field ([msgnum], [epoch], [hepoch],
    [interval], [mmi], [iod]) as it was. *)
Theorem decode_cssr_head_null_padding (s : Ssr) (payload : bits) :
  (forall b, In b payload -> b = false) ->
  let n := length payload in
  let s' := null_data_state s (Line "CSSR null data" [] [Z.of_nat n] []) n in
  decode_cssr_head s payload = Ok (s', 0) /\
  s'.(stat_bnull) = (s.(stat_bnull) + Z.of_nat n)%Z /\
  s'.(subtype) = 0%Z /\
  s'.(msgnum) = s.(msgnum) /\ s'.(epoch) = s.(epoch) /\
  s'.(hepoch) = s.(hepoch) /\ s'.(interval) = s.(interval) /\
  s'.(mmi) = s.(mmi) /\ s'.(iod) = s.(iod).
Proof.
  intros Hzero n s'.
  apply contains_one_false in Hzero.
  split.
  - unfold decode_cssr_head. rewrite Hzero. reflexivity.
  - subst s'. unfold null_data_state.
    pose proof (trace_fields s 2
                  [Line "CSSR null data" [] [Z.of_nat n] []]) as H.
    cbv zeta in H. simpl. intuition congruence.
Qed.

Lemma decode_cssr_head_null_padding_witness :
  let payload := repeat false 16 in
  let s := Ssr_init (Some []) 2 in
  exists s',
    decode_cssr_head s payload = Ok (s', 0) /\
    s'.(stat_bnull) = 16%Z /\ s'.(subtype) = 0%Z /\
    s'.(fp_disp) = Some [Line "CSSR null data" [] [16%Z] []].
Proof.
  intros payload s.
  destruct (decode_cssr_head_null_padding s payload) as [H _].
  - intros b Hb. apply repeat_spec in Hb. exact Hb.
  - eexists. split; [exact H|]. repeat split.
Defined.

(** C8. A payload of at least 12 bits that has a set bit and whose first
    12 bits are not the message number 4073 is treated as null data: the
    decoder returns position 0 without raising, adds the bit length of the
    payload to [stat_bnull] and sets the subtype to 0 (it also records the
    message number it read). *)
Theorem decode_cssr_head_wrong_msgnum (s : Ssr) (payload : bits) :
  12 <= length payload ->
  In true payload ->
  bits_value (slice payload 0 12) <> 4073%Z ->
  let n := length payload in
  let m := bits_value (slice payload 0 12) in
  let s' :=
    null_data_state (set_msgnum (Some m) s)
      (Line "CSSR msgnum should be 4073" [] [m; Z.of_nat n] []) n in
  decode_cssr_head s payload = Ok (s', 0) /\
  s'.(stat_bnull) = (s.(stat_bnull) + Z.of_nat n)%Z /\
  s'.(subtype) = 0%Z /\
  s'.(msgnum) = Some m.
Proof.
  intros Hlen Hone Hm n m s'.
  apply contains_one_true in Hone.
  split.
  - unfold decode_cssr_head. rewrite Hone. cbn [negb].
    destruct (Nat.ltb_spec (length payload) 12) as [|_]; [lia|].
    cbn [Nat.add]. rewrite uint_slice by lia. cbn [bind].
    fold m. destruct (Z.eqb_spec m 4073) as [|_]; [contradiction|].
    reflexivity.
  - subst s'. unfold null_data_state.
    pose proof (trace_fields (set_msgnum (Some m) s) 2
                  [Line "CSSR msgnum should be 4073" [] [m; Z.of_nat n] []]) as H.
    cbv zeta in H. simpl in *. intuition congruence.
Qed.

Lemma decode_cssr_head_wrong_msgnum_witness :
  let payload := bin "0000000000010000" in
  let s := Ssr_init None 0 in
  exists s',
    decode_cssr_head s payload = Ok (s', 0) /\
    s'.(stat_bnull) = 16%Z /\ s'.(subtype) = 0%Z /\ s'.(msgnum) = Some 1%Z.
Proof.
  intros payload s.
  destruct (decode_cssr_head_wrong_msgnum s payload) as [H _].
  - simpl. lia.
  - simpl. tauto.
  - vm_compute. discriminate.
  - eexists. split; [exact H|]. repeat split.
Defined.

(** ** Values of bit strings *)

Lemma bits_value_acc (b : bits) (acc : Z) :
  fold_left (fun a x => (2 * a + Z.b2z x)%Z) b acc
  = (acc * 2 ^ Z.of_nat (length b) + bits_value b)%Z.
Proof.
  unfold bits_value. revert acc.
  induction b as [|x b IH]; intros acc.
  - simpl. lia.
  - cbn [fold_left length]. rewrite IH, (IH (2 * 0 + Z.b2z x)%Z).
    rewrite Nat2Z.inj_succ, Z.pow_succ_r by lia. ring.
Qed.

Lemma bits_value_cons (x : bool) (b : bits) :
  bits_value (x :: b) = (Z.b2z x * 2 ^ Z.of_nat (length b) + bits_value b)%Z.
Proof.
  unfold bits_value at 1. cbn [fold_left]. rewrite bits_value_acc. ring.
Qed.

Lemma bits_value_range (b : bits) :
  (0 <= bits_value b < 2 ^ Z.of_nat (length b))%Z.
Proof.
  induction b as [|x b IH].
  - cbv. split; [discriminate | reflexivity].
  - rewrite bits_value_cons. cbn [length].
    rewrite Nat2Z.inj_succ, Z.pow_succ_r by lia.
    destruct x; cbn [Z.b2z]; lia.
Qed.

Lemma list_get_HAS_VI {R} (b : bits) :
  length b <= 4 -> exists v, @list_get R Z HAS_VI (bits_value b) = Next v.
Proof.
  intros Hlen. unfold list_get.
  pose proof (bits_value_range b) as Hr.
  assert (Hpow : (2 ^ Z.of_nat (length b) <= 2 ^ 4)%Z)
    by (apply Z.pow_le_mono_r; lia).
  destruct (nth_error HAS_VI (Z.to_nat (bits_value b))) eqn:E; [eauto|].
  apply nth_error_None in E. simpl in E. lia.
Qed.

(** ** The HAS clock subset decoder *)

Lemma range_succ (n : Z) :
  (0 <= n)%Z -> range (n + 1) = 0 :: seq 1 (Z.to_nat n).
Proof.
  intros H. unfold range.
  replace (Z.to_nat (n + 1)) with (S (Z.to_nat n)) by lia. reflexivity.
Qed.

(** C9 (as the code has it). Once the initial length check of
    [decode_has_cksub] passes (at least 6 bits from [pos] on), the call never
    returns: the first iteration of the subset loop raises. The exception is
    the [NameError] for the unbound name [multiplier] when at least 11 bits
    remain from [pos] on (so that both reads before the assignment have a bit
    to read); with only 6 to 10 bits it is bitstring's [InterpretError],
    raised by a read of an empty slice before the assignment is reached. *)
Theorem decode_has_cksub_never_returns (s : Ssr) (payload : bits) (pos : nat) :
  pos + 4 + 2 <= length payload ->
  decode_has_cksub s payload pos
  = Exc (if pos + 11 <=? length payload
         then NameError "multiplier" else InterpretError).
Proof.
  intros Hlen. unfold decode_has_cksub.
  destruct (Nat.ltb_spec (length payload) (pos + 4 + 2)) as [|_]; [lia|].
  rewrite uint_slice by lia. cbn [bind].
  rewrite uint_slice by lia. cbn [bind].
  destruct (@list_get_HAS_VI (Ssr * nat) (slice payload pos (pos + 4)))
    as [v Hv]; [rewrite slice_length; lia|].
  rewrite Hv. cbn [bind].
  rewrite range_succ by apply bits_value_range.
  cbn [for_each].
  destruct (Nat.leb_spec (pos + 11) (length payload)) as [H11|H11].
  - rewrite uint_slice by lia. cbn [bind].
    rewrite uint_slice by lia. reflexivity.
  - destruct (Nat.le_gt_cases (length payload) (pos + 4 + 2)) as [H6|H6].
    + rewrite uint_empty_slice by lia. reflexivity.
    + rewrite uint_slice by lia. cbn [bind].
      rewrite uint_empty_slice by lia. reflexivity.
Qed.

Lemma decode_has_cksub_never_returns_witness :
  decode_has_cksub (Ssr_init None 0) (repeat false 24) 0
  = Exc (NameError "multiplier").
Proof.
  apply (decode_has_cksub_never_returns (Ssr_init None 0) (repeat false 24) 0).
  simpl. lia.
Defined.

(** C9 (as stated) fails on a payload that passes the initial length check
    with fewer than 11 bits: six zero bits at position 0 give [vi = 0] and one
    subset, and the first read of the loop body finds no bit left, so that
    the exception is bitstring's [InterpretError] and not a [NameError]. *)
Lemma decode_has_cksub_short_not_name_error :
  let s := Ssr_init None 0 in
  let payload := repeat false 6 in
  (length payload <? 0 + 4 + 2) = false /\
  decode_has_cksub s payload 0 = Exc InterpretError /\
  (forall name, decode_has_cksub s payload 0 <> Exc (NameError name)).
Proof.
  intros s payload. split; [reflexivity|]. split; [reflexivity|].
  intros name H. vm_compute in H. discriminate H.
Qed.

(** ** Two's complement *)

Lemma int_nonempty {R} (sign : bool) (b : bits) :
  @int R (sign :: b)
  = Next (bits_value b - Z.b2z sign * 2 ^ Z.of_nat (length b))%Z.
Proof.
  unfold int. f_equal. rewrite bits_value_cons. cbn [length].
  rewrite Nat2Z.inj_succ, Z.pow_succ_r by lia.
  destruct sign; cbn [Z.b2z]; lia.
Qed.



Lemma int_range {R} (b : bits) (v : Z) :
  @int R b = Next v ->
  (- 2 ^ (Z.of_nat (length b) - 1) <= v < 2 ^ (Z.of_nat (length b) - 1))%Z.
Proof.
  destruct b as [|x b]; [discriminate|].
  rewrite int_nonempty. intros H. injection H as <-.
  cbn [length]. replace (Z.of_nat (S (length b)) - 1)%Z with (Z.of_nat (length b)) by lia.
  pose proof (bits_value_range b). destruct x; cbn [Z.b2z]; lia.
Qed.


(** ** Scaled fields and the INVALID marker *)


Lemma py_eqb_invalid_zero (lsb : Q) :
  py_eqb INVALID (py_mul_if 0 lsb) = true.
Proof.
  unfold py_eqb. apply Qeq_bool_iff. simpl.
  unfold Qeq, Qmult. simpl. reflexivity.
Qed.














(** ** Ephemeris scaling *)

Lemma int_int_value {R} (b : bits) : b <> [] -> @int R b = Next (int_value b).
Proof. destruct b as [|[|] b]; [congruence | reflexivity | reflexivity]. Qed.

Lemma bind_attr_u {R A} (r : dict pyobj) (name : string) (b : bits)
    (k : Z -> flow R A) :
  r name = Some (ObjBits b) -> b <> [] ->
  bind (attr_u r name) k = k (bits_value b).
Proof.
  intros Hr Hb. unfold attr_u, getattr. rewrite Hr. cbn [bind dot_u].
  now rewrite uint_nonempty.
Qed.

Lemma bind_attr_i {R A} (r : dict pyobj) (name : string) (b : bits)
    (k : Z -> flow R A) :
  r name = Some (ObjBits b) -> b <> [] ->
  bind (attr_i r name) k = k (int_value b).
Proof.
  intros Hr Hb. unfold attr_i, getattr. rewrite Hr. cbn [bind dot_i].
  now rewrite int_int_value.
Qed.

Ltac read_attr Hall :=
  match goal with
  | |- context [bind (@attr_u ?R ?r ?n) ?k] =>
      let b := fresh "b" in
      let Hr := fresh "Hr" in
      let Hb := fresh "Hb" in
      destruct (Hall n ltac:(simpl; repeat (first [left; reflexivity | right]))) as [b [Hr Hb]];
      rewrite (@bind_attr_u R _ r n b k Hr Hb); cbv beta
  | |- context [bind (@attr_i ?R ?r ?n) ?k] =>
      let b := fresh "b" in
      let Hr := fresh "Hr" in
      let Hb := fresh "Hb" in
      destruct (Hall n ltac:(simpl; repeat (first [left; reflexivity | right]))) as [b [Hr Hb]];
      rewrite (@bind_attr_i R _ r n b k Hr Hb); cbv beta
  end.

Ltac same_bits :=
  repeat match goal with
         | H1 : ?r ?n = Some (ObjBits ?b1), H2 : ?r ?n = Some (ObjBits ?b2) |- _ =>
             assert (b2 = b1) by congruence; subst b2; clear H2
         end.

Ltac known_bits Hbb :=
  match type of Hbb with
  | ?r ?n = Some (ObjBits ?bb) =>
      match goal with
      | H : r n = Some (ObjBits ?b') |- _ =>
          tryif constr_eq H Hbb then fail
          else (assert (b' = bb) by congruence; subst b')
      end
  end.



(** ** Rules for bodies *)

Lemma wp_Next {R A} (a : A) (Q : A -> Prop) (QR : R -> Prop) :
  Q a -> wp (Next a) Q QR.
Proof. exact (fun H => H). Qed.

Lemma wp_Return {R A} (r : R) (Q : A -> Prop) (QR : R -> Prop) :
  QR r -> wp (@Return R A r) Q QR.
Proof. exact (fun H => H). Qed.

Lemma wp_bind {R A B} (m : flow R A) (k : A -> flow R B)
    (Q : B -> Prop) (QR : R -> Prop) :
  wp m (fun a => wp (k a) Q QR) QR -> wp (bind m k) Q QR.
Proof. destruct m; exact (fun H => H). Qed.

Lemma wp_mono {R A} (m : flow R A) (Q Q' : A -> Prop) (QR QR' : R -> Prop) :
  wp m Q QR -> (forall a, Q a -> Q' a) -> (forall r, QR r -> QR' r) ->
  wp m Q' QR'.
Proof. destruct m; cbn [wp]; auto. Qed.

Lemma wp_call {R} (m : flow R R) (Q : R -> Prop) :
  wp m Q Q -> returns (call m) Q.
Proof. destruct m; exact (fun H => H). Qed.

Lemma wp_from_result {R A} (r : result A) (Q : A -> Prop) (QR : R -> Prop) :
  returns r Q -> wp (@from_result R A r) Q QR.
Proof. destruct r; exact (fun H => H). Qed.

Lemma returns_mono {R} (r : result R) (Q Q' : R -> Prop) :
  returns r Q -> (forall v, Q v -> Q' v) -> returns r Q'.
Proof. destruct r; cbn [returns]; auto. Qed.

Lemma returns_ok {R} (r : result R) (Q : R -> Prop) :
  returns r Q <-> exists v, r = Ok v /\ Q v.
Proof.
  destruct r; cbn [returns]; split.
  - eauto.
  - now intros [v [[= ->] H]].
  - contradiction.
  - now intros [v [H _]].
Qed.

(** The loop rule: an invariant indexed by the elements already visited. *)
Lemma wp_for_each {R A St} (l : list A) (body : A -> St -> flow R St)
    (Inv : list A -> St -> Prop) (QR : R -> Prop) (st : St) :
  Inv [] st ->
  (forall pre x post st, l = pre ++ x :: post -> Inv pre st ->
     wp (body x st) (Inv (pre ++ [x])) QR) ->
  wp (for_each l body st) (Inv l) QR.
Proof.
  intros H0 Hstep.
  assert (G : forall post pre st, l = pre ++ post -> Inv pre st ->
              wp (for_each post body st) (Inv l) QR).
  { induction post as [|x post IH]; intros pre st' Hl Hinv.
    - rewrite app_nil_r in Hl. subst pre. exact Hinv.
    - cbn [for_each]. apply wp_bind.
      eapply wp_mono; [apply (Hstep pre x post st' Hl Hinv) | | auto].
      intros st'' Hst''. apply (IH (pre ++ [x])); [|exact Hst''].
      now rewrite <- app_assoc. }
  apply (G l [] st); [reflexivity | exact H0].
Qed.

Lemma wp_uint_slice {R} (p : bits) (a b : nat) (Q : Z -> Prop) (QR : R -> Prop) :
  a < b -> a < length p -> Q (bits_value (slice p a b)) ->
  wp (uint (slice p a b)) Q QR.
Proof. intros Hab Hlen HQ. rewrite uint_slice by assumption. exact HQ. Qed.

Lemma int_slice {R} (p : bits) (a b : nat) :
  a < b -> a < length p -> @int R (slice p a b) = Next (int_value (slice p a b)).
Proof. intros. now apply int_int_value, slice_nonempty. Qed.

Lemma wp_int_slice {R} (p : bits) (a b : nat) (Q : Z -> Prop) (QR : R -> Prop) :
  a < b -> a < length p -> Q (int_value (slice p a b)) ->
  wp (int (slice p a b)) Q QR.
Proof. intros Hab Hlen HQ. rewrite int_slice by assumption. exact HQ. Qed.

Lemma wp_dict_get {R V} (d : dict V) (k : string) (v : V)
    (Q : V -> Prop) (QR : R -> Prop) :
  d k = Some v -> Q v -> wp (dict_get d k) Q QR.
Proof. intros Hd HQ. unfold dict_get. rewrite Hd. exact HQ. Qed.


Lemma wp_bit_at {R} (b : bits) (i : nat) (Q : bool -> Prop) (QR : R -> Prop) :
  i < length b -> (forall x, nth_error b i = Some x -> Q x) ->
  wp (bit_at b i) Q QR.
Proof.
  intros Hi HQ. unfold bit_at.
  destruct (nth_error b i) eqn:E; [now apply HQ|].
  apply nth_error_None in E. lia.
Qed.

Lemma wp_if {R A} (c : bool) (m1 m2 : flow R A) (Q : A -> Prop) (QR : R -> Prop) :
  (c = true -> wp m1 Q QR) -> (c = false -> wp m2 Q QR) ->
  wp (if c then m1 else m2) Q QR.
Proof. destruct c; auto. Qed.

Lemma list_sum_cons (a : nat) (l : list nat) : list_sum (a :: l) = a + list_sum l.
Proof. reflexivity. Qed.

(** ** Loops that read a fixed number of bits per satellite *)

Section SatelliteLoops.

Context {R Msg : Type}.
Variable len : nat.   (* the length of the payload *)
Variable ret : R.     (* what the early return gives back *)

Lemma wp_sat_loop {A} (sats : list A) (w : nat)
    (body : A -> nat * Msg -> flow R (nat * Msg)) (pos : nat) (msg : Msg) :
  0 < w ->
  (forall g, reads_bits len ret w (body g)) ->
  wp (for_each sats body (pos, msg))
     (fun st => fst st = pos + length sats * w /\ (0 < length sats -> fst st <= len))
     (fun r => r = ret /\ len < pos + length sats * w /\ 0 < length sats * w).
Proof.
  intros Hw Hbody. revert pos msg.
  induction sats as [|g sats IH]; intros pos msg.
  - cbn [for_each length]. apply wp_Next. cbn [fst]. lia.
  - cbn [for_each]. apply wp_bind.
    eapply wp_mono; [apply (Hbody g pos msg) | | ].
    + intros [pos' msg'] [Hpos Hlen]. cbn [fst] in *.
      eapply wp_mono; [apply (IH pos' msg') | | ].
      * intros [pos'' msg''] [H1 H2]. cbn [fst length] in *. lia.
      * intros r [Hr [Hshort Hpos']]. cbn [length]. split; [exact Hr | lia].
    + intros r [Hr Hshort]. cbn [length]. split; [exact Hr | lia].
Qed.

(** The loop over the systems of the mask, each with its satellites. *)
Lemma wp_sys_loop (gsys : dict (list string)) (sats : string -> list string)
    (syss : list string) (w : string -> nat)
    (inner : string -> string -> nat * Msg -> flow R (nat * Msg))
    (pos : nat) (msg : Msg) :
  (forall sys, In sys syss -> gsys sys = Some (sats sys)) ->
  (forall sys, 0 < w sys) ->
  (forall sys g, reads_bits len ret (w sys) (inner sys g)) ->
  let total := list_sum (map (fun sys => length (sats sys) * w sys) syss) in
  wp (for_each syss
        (fun sys st => bind (dict_get gsys sys)
                         (fun l => for_each l (inner sys) st))
        (pos, msg))
     (fun st => fst st = pos + total /\ (0 < total -> fst st <= len))
     (fun r => r = ret /\ len < pos + total /\ 0 < total).
Proof.
  intros Hkeys Hw Hinner. revert pos msg.
  induction syss as [|sys syss IH]; intros pos msg total.
  - cbn [for_each]. apply wp_Next. subst total. simpl. lia.
  - cbn [for_each]. apply wp_bind. apply wp_bind.
    apply (wp_dict_get _ _ (sats sys)); [apply Hkeys; now left|].
    subst total. cbn [map]. rewrite list_sum_cons.
    eapply wp_mono;
      [apply (wp_sat_loop (sats sys) (w sys) (inner sys) pos msg (Hw sys) (Hinner sys)) | | ].
    + intros [pos' msg'] [Hpos Hlen]. cbn [fst] in *.
      eapply wp_mono;
        [apply (IH (fun s' Hs' => Hkeys s' (or_intror Hs')) pos' msg') | | ].
      * intros [pos'' msg''] [H1 H2]. cbn [fst] in *.
        destruct (sats sys); cbn [length] in *; lia.
      * intros r [Hr [Hshort Hpos']]. split; [exact Hr | lia].
    + intros r [Hr [Hshort Hpos']]. split; [exact Hr | lia].
Qed.

End SatelliteLoops.

Lemma for_each_ext {R A St} (l : list A) (f g : A -> St -> flow R St) (st : St) :
  (forall x st, f x st = g x st) -> for_each l f st = for_each l g st.
Proof.
  intros H. revert st. induction l as [|x l IH]; intros st; [reflexivity|].
  cbn [for_each]. rewrite H. destruct (g x st); cbn [bind]; auto.
Qed.

Lemma for_each_enumerate_from {R A St} (l : list A) (i : nat)
    (f : A -> St -> flow R St) (st : St) :
  for_each (enumerate_from i l) (fun '(_, x) st => f x st) st = for_each l f st.
Proof.
  revert i st. induction l as [|x l IH]; intros i st; [reflexivity|].
  cbn [enumerate_from for_each]. destruct (f x st); cbn [bind]; auto.
Qed.

(** ** Subtypes 2 and 3 *)

Lemma mask_ok_keys (s : Ssr) (sys : string) :
  mask_ok s -> In sys s.(satsys) -> s.(gsys) sys <> None.
Proof.
  intros Hok Hin. apply In_nth_error in Hin as [i Hi].
  now destruct (Hok i sys Hi).
Qed.

Lemma mask_ok_sats (s : Ssr) (sys : string) :
  mask_ok s -> In sys s.(satsys) -> s.(gsys) sys = Some (sats_of s sys).
Proof.
  intros Hok Hin. pose proof (mask_ok_keys s sys Hok Hin) as H.
  unfold sats_of. now destruct (s.(gsys) sys).
Qed.

Lemma same_mask_refl (s : Ssr) : same_mask s s.
Proof. repeat split. Qed.

Lemma same_mask_trans (s1 s2 s3 : Ssr) :
  same_mask s1 s2 -> same_mask s2 s3 -> same_mask s1 s3.
Proof. unfold same_mask. intuition congruence. Qed.

Lemma same_mask_trace (s : Ssr) (level : Z) (l : list trace_line) :
  same_mask s (trace s level l).
Proof.
  unfold trace. destruct (s.(t_level) <? level)%Z; [apply same_mask_refl|].
  destruct s.(fp_disp); repeat split.
Qed.

Lemma same_mask_add_stat_sat (s : Ssr) (a b : Z) : same_mask s (add_stat_sat a b s).
Proof. repeat split. Qed.

Lemma same_mask_add_stat_sig (s : Ssr) (a b : Z) : same_mask s (add_stat_sig a b s).
Proof. repeat split. Qed.

Lemma same_mask_finish_sat (s : Ssr) (l : list trace_line) (a b : Z) :
  same_mask s (add_stat_sat a b (trace s 1 l)).
Proof.
  eapply same_mask_trans; [apply same_mask_trace | apply same_mask_add_stat_sat].
Qed.

Lemma same_mask_finish_sig (s : Ssr) (l : list trace_line) (a b : Z) :
  same_mask s (add_stat_sig a b (trace s 1 l)).
Proof.
  eapply same_mask_trans; [apply same_mask_trace | apply same_mask_add_stat_sig].
Qed.

Lemma consumes_intro (s : Ssr) (payload : bits) (pos need : nat) (out : Ssr * nat) :
  snd out = pos + need -> (0 < need -> snd out <= length payload) ->
  same_mask s (fst out) ->
  consumes s payload pos need out.
Proof.
  intros Hpos Hlen Hmask. unfold consumes.
  destruct (Nat.ltb_spec 0 need) as [Hn|Hn]; cbn [andb]; [|auto].
  destruct (Nat.ltb_spec (length payload) (pos + need)); [lia | auto].
Qed.

Lemma consumes_short (s : Ssr) (payload : bits) (pos need : nat) :
  length payload < pos + need -> 0 < need ->
  consumes s payload pos need (s, 0).
Proof.
  intros Hlen Hn. unfold consumes.
  destruct (Nat.ltb_spec 0 need); [|lia]. cbn [andb].
  destruct (Nat.ltb_spec (length payload) (pos + need)); [reflexivity | lia].
Qed.

Lemma list_sum_scale (f : string -> nat) (w : nat) (l : list string) :
  list_sum (map (fun x => f x * w) l) = list_sum (map f l) * w.
Proof.
  induction l as [|x l IH]; [reflexivity|].
  cbn [map]. rewrite !list_sum_cons, IH. lia.
Qed.

Lemma decode_cssr_st3_consumes (s : Ssr) (payload : bits) (pos : nat) :
  mask_ok s ->
  returns (decode_cssr_st3 s payload pos)
          (consumes s payload pos (nsat_total s * 15)).
Proof.
  intros Hok. unfold decode_cssr_st3. apply wp_call. apply wp_bind.
  unfold enumerate.
  rewrite (for_each_enumerate_from (R := Ssr * nat) s.(satsys) 0
             (fun satsys st =>
                bind (dict_get s.(gsys) satsys)
                  (fun sats =>
                     for_each sats
                       (fun gsys '(pos, msg_trace1) =>
                          if length payload <? pos + 15 then Return (s, 0) else
                          bind (int (slice payload pos (pos + 15)))
                            (fun ic0 =>
                               Next (pos + 15,
                                     msg_trace1 ++
                                       [Line "ST3" [gsys] []
                                          [scale_unless ic0 0.0016 (-16384)]])))
                       st))).
  pose proof (list_sum_scale (fun sys => length (sats_of s sys)) 15 s.(satsys)) as Hn.
  fold (nsat_total s) in Hn.
  eapply wp_mono;
    [apply (wp_sys_loop (length payload) (s, 0) s.(gsys) (sats_of s) s.(satsys)
              (fun _ => 15))| |].
  - intros sys Hin. now apply mask_ok_sats.
  - intros _. lia.
  - intros sys g pos' msg. cbv beta iota.
    apply wp_if; intros Hc.
    + apply wp_Return. apply Nat.ltb_lt in Hc. auto.
    + apply Nat.ltb_ge in Hc. apply wp_bind. apply wp_int_slice; [lia | lia|].
      apply wp_Next. cbn [fst]. lia.
  - intros [pos' msg] [Hpos Hlen]. cbn [fst] in *. cbv beta iota zeta.
    apply wp_Next.
    rewrite Hn in Hpos, Hlen.
    apply consumes_intro; cbn [fst snd]; [exact Hpos | exact Hlen |].
    apply same_mask_finish_sat.
  - intros r [-> [Hshort Hpos]]. cbv beta.
    rewrite Hn in Hshort, Hpos.
    now apply consumes_short.
Qed.

(** Reads of slices that the preceding length check covers. *)
Ltac wp_read :=
  apply wp_bind;
  first [apply wp_uint_slice | apply wp_int_slice]; [lia | lia | cbv beta].

Lemma decode_cssr_st2_consumes (s : Ssr) (payload : bits) (pos : nat) :
  mask_ok s ->
  returns (decode_cssr_st2 s payload pos) (consumes s payload pos (st2_bits s)).
Proof.
  intros Hok. unfold decode_cssr_st2. apply wp_call. apply wp_bind.
  cbv zeta.
  eapply wp_mono;
    [eapply (wp_sys_loop (length payload) (s, 0) s.(gsys) (sats_of s) s.(satsys)
               st2_sat_bits)| |].
  - intros sys Hin. now apply mask_ok_sats.
  - intros sys. unfold st2_sat_bits. lia.
  - intros sys g pos' msg. cbv beta iota. unfold st2_sat_bits.
    destruct (sys =? "E")%string.
    + apply wp_if; intros Hc.
      * apply wp_Return. apply Nat.ltb_lt in Hc. split; [reflexivity | lia].
      * apply Nat.ltb_ge in Hc. repeat wp_read.
        apply wp_Next. cbn [fst]. lia.
    + apply wp_if; intros Hc.
      * apply wp_Return. apply Nat.ltb_lt in Hc. split; [reflexivity | lia].
      * apply Nat.ltb_ge in Hc. repeat wp_read.
        apply wp_Next. cbn [fst]. lia.
  - intros [pos' msg] [Hpos Hlen]. cbn [fst] in *. cbv beta iota.
    apply wp_Next.
    apply consumes_intro; cbn [fst snd]; [exact Hpos | exact Hlen |].
    apply same_mask_finish_sat.
  - intros r [-> [Hshort Hpos]]. cbv beta. now apply consumes_short.
Qed.

(** ** The header never raises *)

Lemma decode_cssr_head_post (s : Ssr) (payload : bits) :
  returns (decode_cssr_head s payload) (head_post s payload).
Proof.
  unfold decode_cssr_head, head_post, has_header. apply wp_call.
  apply wp_if; intros Hone.
  { apply negb_true_iff in Hone. rewrite Hone.
    apply wp_Return. split; [|reflexivity].
    cbn [fst]. eapply same_mask_trans; [apply same_mask_trace|]. repeat split. }
  apply negb_false_iff in Hone. rewrite Hone. cbn [andb].
  apply wp_if; intros H12.
  { apply wp_Return. apply Nat.ltb_lt in H12.
    destruct (Nat.leb_spec 12 (length payload)); [lia|].
    split; [repeat split | reflexivity]. }
  apply Nat.ltb_ge in H12.
  destruct (Nat.leb_spec 12 (length payload)) as [_|]; [|lia]. cbn [andb].
  cbv zeta. cbn [Nat.add].
  apply wp_bind. apply wp_uint_slice; [lia | lia |]. cbv beta.
  apply wp_if; intros Hm.
  { apply negb_true_iff in Hm. rewrite Hm.
    apply wp_Return. split; [|reflexivity].
    cbn [fst]. eapply same_mask_trans; [|apply same_mask_trans with
      (s2 := trace (set_msgnum (Some (bits_value (slice payload 0 12))) s) 2
               [Line "CSSR msgnum should be 4073" []
                  [bits_value (slice payload 0 12); Z.of_nat (length payload)] []]);
      [apply same_mask_trace | repeat split]].
    repeat split. }
  apply negb_false_iff in Hm. rewrite Hm. cbn [andb].
  set (st := bits_value (slice payload 12 16)).
  assert (H16' : 16 <= header_bits st)
    by (unfold header_bits; destruct (st =? 1)%Z, (st =? 10)%Z; lia).
  apply wp_if; intros H16.
  { apply wp_Return. apply Nat.ltb_lt in H16.
    destruct (Nat.leb_spec (header_bits st) (length payload)); [lia|].
    split; [repeat split | reflexivity]. }
  apply Nat.ltb_ge in H16.
  apply wp_bind. apply wp_uint_slice; [lia | lia |]. cbv beta. fold st.
  apply wp_bind. unfold header_bits in *.
  apply wp_if; intros Hst1; [|apply wp_if; intros Hst10].
  - (* the mask message *)
    rewrite Hst1.
    apply wp_if; intros H36.
    { apply wp_Return. apply Nat.ltb_lt in H36.
      destruct (Nat.leb_spec 45 (length payload)); [lia|].
      split; [repeat split | reflexivity]. }
    apply Nat.ltb_ge in H36.
    apply wp_bind. apply wp_uint_slice; [lia | lia |]. cbv beta.
    apply wp_Next. cbv beta iota.
    apply wp_if; intros H45.
    { apply wp_Return. apply Nat.ltb_lt in H45.
      destruct (Nat.leb_spec 45 (length payload)); [lia|].
      split; [repeat split | reflexivity]. }
    apply Nat.ltb_ge in H45.
    destruct (Nat.leb_spec 45 (length payload)); [|lia].
    apply wp_bind. apply wp_uint_slice; [lia | lia |]. cbv beta.
    apply wp_bind. apply wp_uint_slice; [lia | lia |]. cbv beta.
    apply wp_Next. split; [repeat split|]. cbn [fst snd].
    change (subtype _) with st. rewrite Hst1. split; reflexivity.
  - (* service information *)
    rewrite Hst1, Hst10.
    destruct (Nat.leb_spec 16 (length payload)); [|lia].
    apply wp_Return. split; [repeat split|]. cbn [fst snd].
    change (subtype _) with st. rewrite Hst1, Hst10. split; reflexivity.
  - rewrite Hst1, Hst10.
    apply wp_if; intros H28.
    { apply wp_Return. apply Nat.ltb_lt in H28.
      destruct (Nat.leb_spec 37 (length payload)); [lia|].
      split; [repeat split | reflexivity]. }
    apply Nat.ltb_ge in H28.
    apply wp_bind. apply wp_uint_slice; [lia | lia |]. cbv beta.
    apply wp_Next. cbv beta iota.
    apply wp_if; intros H37.
    { apply wp_Return. apply Nat.ltb_lt in H37.
      destruct (Nat.leb_spec 37 (length payload)); [lia|].
      split; [repeat split | reflexivity]. }
    apply Nat.ltb_ge in H37.
    destruct (Nat.leb_spec 37 (length payload)); [|lia].
    apply wp_bind. apply wp_uint_slice; [lia | lia |]. cbv beta.
    apply wp_bind. apply wp_uint_slice; [lia | lia |]. cbv beta.
    apply wp_Next. split; [repeat split|]. cbn [fst snd].
    change (subtype _) with st. rewrite Hst1, Hst10. split; reflexivity.
Qed.

(** ** The mask message *)

Lemma same_mask_show_cssr_stat (s : Ssr) : same_mask s (show_cssr_stat s).
Proof. apply same_mask_trace. Qed.

Lemma same_mask_reset_stat (s : Ssr) (a b c d : Z) :
  same_mask s (set_stat_bnull a (set_stat_both b (set_stat_bsig c (set_stat_bsat d s)))).
Proof. repeat split. Qed.

Lemma same_mask_counts (s : Ssr) (a b : Z) :
  same_mask s (set_stat_nsig a (set_stat_nsat b s)).
Proof. repeat split. Qed.

(** How [_decode_mask] is put together: the loop over the GNSS fills the
    tables, the trace loop runs on the object with the tables stored. *)
Lemma decode_mask_success (s : Ssr) (payload : bits) (pos : nat) (ssr_type : string)
    (pos' : nat) (m : mask_tables) (t : mask_trace) :
  ssr_type = "cssr" \/ ssr_type = "has" ->
  pos + 4 <= length payload ->
  let ngnss := bits_value (slice payload pos (pos + 4)) in
  (49 + 61 * ngnss <= Z.of_nat (length payload))%Z ->
  for_each (R := Ssr * nat) (range ngnss)
    (fun _ st => mask_gnss payload ssr_type st)
    (pos + 4, mask_tables_empty) = Next (pos', m) ->
  mask_trace_loop (R := Ssr * nat) (with_mask m s) ssr_type m.(m_navmsg) = Next t ->
  exists s',
    _decode_mask s payload pos ssr_type
    = Ok (s', if (ssr_type =? "has")%string then pos' + 6 else pos') /\
    same_mask (with_mask m s) s'.
Proof.
  intros Hty Hlen ngnss Hall Hloop Htrace.
  unfold _decode_mask.
  assert (Hty' : negb ((ssr_type =? "cssr")%string || (ssr_type =? "has")%string)
                 = false) by (destruct Hty; subst; reflexivity).
  rewrite Hty'.
  destruct (Nat.ltb_spec (length payload) (pos + 4)); [lia|].
  rewrite uint_slice by lia. cbn [bind]. fold ngnss.
  destruct (Z.ltb_spec (Z.of_nat (length payload)) (49 + 61 * ngnss)); [lia|].
  rewrite Hloop. cbn [bind]. fold (with_mask m s). rewrite Htrace. cbn [bind call].
  eexists. split; [reflexivity|].
  set (s1 := set_stat_nsig _ _).
  assert (H1 : same_mask (with_mask m s) (trace s1 1 t.(mt_msg))).
  { eapply same_mask_trans; [|apply same_mask_trace].
    subst s1. apply same_mask_counts. }
  set (s2 := trace s1 1 t.(mt_msg)) in *.
  assert (H2 : same_mask (with_mask m s) (if s2.(stat) then show_cssr_stat s2 else s2)).
  { destruct s2.(stat); [|exact H1].
    eapply same_mask_trans; [exact H1 | apply same_mask_show_cssr_stat]. }
  generalize dependent (if s2.(stat) then show_cssr_stat s2 else s2).
  intros s3 H3.
  eapply same_mask_trans; [exact H3 | apply same_mask_reset_stat].
Qed.

Lemma for_each_clear_bits {R St} (n i : nat)
    (on_set : nat -> St -> flow R St) (st : St) :
  for_each (enumerate_from i (repeat false n))
    (fun '(i, val) st => if val : bool then on_set i st else Next st) st
  = Next st.
Proof.
  revert i. induction n as [|n IH]; intros i; [reflexivity|].
  cbn [repeat enumerate_from for_each bind]. apply IH.
Qed.

Lemma mask_sat_loop_first {R} (sys : string) (n : nat) :
  @mask_sat_loop R sys (true :: repeat false n) = Next (1, [(sys ++ "01")%string]).
Proof.
  unfold mask_sat_loop, enumerate. cbn [enumerate_from for_each bind].
  change (fmt_02d (0 + 1)) with "01". cbn [Nat.add app].
  etransitivity;
    [|apply (for_each_clear_bits (R := R) n 1
               (fun i '(t_satmask, t_gsys) =>
                  Next (t_satmask + 1, t_gsys ++ [(sys ++ fmt_02d (i + 1))%string]))
               (1, [(sys ++ "01")%string]))].
  apply for_each_ext. intros [i [|]] [c l]; reflexivity.
Qed.

Lemma gnssid2satsys_cases {R} (g : Z) (sys : string) :
  @gnssid2satsys R g = Next sys ->
  In (g, sys) [(0, "G"); (1, "R"); (2, "E"); (3, "C"); (4, "J"); (5, "S")]%Z.
Proof.
  unfold gnssid2satsys. intros H.
  repeat match type of H with
         | (if (?g =? ?k)%Z then _ else _) = _ =>
             destruct (Z.eqb_spec g k);
             [subst; injection H as <-; simpl; tauto|]
         end.
  discriminate.
Qed.

Lemma mask_sig_loop_first {R} (g : Z) (sys : string) (n : nat) :
  @gnssid2satsys R g = Next sys ->
  exists name,
    @sigmask2signame R sys 0 = Next name /\
    @mask_sig_loop R sys (true :: repeat false n) = Next (1, [name]).
Proof.
  intros Hg. apply gnssid2satsys_cases in Hg.
  assert (Hloop : forall name, @sigmask2signame R sys 0 = Next name ->
            @mask_sig_loop R sys (true :: repeat false n) = Next (1, [name])).
  { intros name Hname.
    unfold mask_sig_loop, enumerate. cbn [enumerate_from for_each].
    change (Z.of_nat 0) with 0%Z. rewrite Hname. cbn [bind Nat.add app].
    etransitivity;
      [|apply (for_each_clear_bits (R := R) n 1
                 (fun i '(t_sigmask, t_gsig) =>
                    bind (sigmask2signame sys (Z.of_nat i))
                      (fun name => Next (t_sigmask + 1, t_gsig ++ [name])))
                 (1, [name]))].
    apply for_each_ext. intros [i [|]] [c l]; reflexivity. }
  simpl in Hg.
  repeat (destruct Hg as [[= <- <-] | Hg];
          [eexists; split; [reflexivity | apply Hloop; reflexivity]|]).
  contradiction.
Qed.

(** A mask message for one system with its first satellite and its first
    signal and without a cell mask gives the mask context of one satellite,
    one signal and one active cell. *)
Lemma decode_cssr_st1_single (s : Ssr) (payload : bits) (pos : nat)
    (g : Z) (sys : string) :
  single_mask payload pos g ->
  @gnssid2satsys (Ssr * nat) g = Next sys ->
  exists s1 sig,
    decode_cssr_st1 s payload pos = Ok (s1, pos + 65) /\
    single_context s1 sys (sys ++ "01") sig.
Proof.
  intros (H110 & Hlen & Hn & Hg & Hsat & Hsig & Hcm) Hsys.
  destruct (@mask_sig_loop_first (Ssr * nat) g sys 15 Hsys) as [sig [Hname Hsigs]].

  destruct (decode_mask_success s payload pos "cssr"
              (pos + 65)
              (MaskTables [sys] [1] [1] [[true]] [0%Z]
                 (dict_set sys [(sys ++ "01")%string] dict_empty)
                 (dict_set sys [sig] dict_empty))
              (MaskTrace [Line "ST1" [(sys ++ "01")%string; sig] [] []] 1 1))
    as [s1 [Hdec Hmask]].
  - now left.
  - lia.
  - rewrite Hn. lia.
  - rewrite Hn. change (range 1) with [0]. cbn [for_each]. unfold mask_gnss.
    rewrite uint_slice by lia. cbn [bind].
    replace (pos + 4 + 4) with (pos + 8) by lia.
    replace (pos + 8 + 40) with (pos + 48) by lia.
    replace (pos + 48 + 16) with (pos + 64) by lia.
    replace (pos + 64 + 1) with (pos + 65) by lia.
    rewrite Hg, Hsys, Hsat, Hsig, Hcm. cbn [bind].
    rewrite mask_sat_loop_first, Hsigs. cbn [bind].
    reflexivity.
  - apply gnssid2satsys_cases in Hsys. simpl in Hsys.
    repeat (destruct Hsys as [[= <- <-] | Hsys];
            [injection Hname as <-; reflexivity|]).
    contradiction.
  - exists s1, sig. split; [exact Hdec|].
    destruct Hmask as (H1 & H2 & H3 & H4 & _).
    unfold single_context. rewrite H1, H2, H3, H4.
    cbn. unfold dict_set. rewrite String.eqb_refl. repeat split.
Qed.

Lemma single_context_same_mask (s s' : Ssr) (sys sat sig : string) :
  single_context s sys sat sig -> same_mask s s' -> single_context s' sys sat sig.
Proof.
  unfold single_context, same_mask.
  intros (H1 & H2 & H3 & H4) (E1 & E2 & E3 & E4 & _).
  rewrite E1, E2, E3, E4. auto.
Qed.

Lemma single_context_mask_ok (s : Ssr) (sys sat sig : string) :
  single_context s sys sat sig -> mask_ok s.
Proof.
  intros (H1 & H2 & H3 & H4) i sys' Hi. rewrite H1 in Hi.
  destruct i as [|i]; [|destruct i; discriminate].
  injection Hi as <-. unfold sats_of, sigs_of. rewrite H2, H3, H4.
  repeat split; try discriminate.
  exists [true]. split; [reflexivity | simpl; lia].
Qed.

Lemma single_context_st2_bits (s : Ssr) (sys sat sig : string) :
  single_context s sys sat sig -> st2_bits s = st2_sat_bits sys.
Proof.
  intros (H1 & H2 & _). unfold st2_bits, sats_of. rewrite H1. cbn [map].
  rewrite H2. simpl. lia.
Qed.

(** C6. A mask message that declares one GNSS with its first satellite, its
    first signal and no cell mask is decoded to the mask context of one
    satellite, one signal and one active cell. With that context the orbit
    decoder of subtype 2 consumes the IODE and 15 + 13 + 13 bits from its
    starting position and no more: it returns the position after them when
    the payload has them and 0 otherwise. The IODE has 10 bits for Galileo
    (system id 2) and 8 bits for GPS and every other system. *)
Theorem st2_after_single_mask (s : Ssr) (mask_message : bits) (pos : nat)
    (gnssid : Z) (sys : string) :
  single_mask mask_message pos gnssid ->
  @gnssid2satsys (Ssr * nat) gnssid = Next sys ->
  exists s1 sig,
    decode_cssr_st1 s mask_message pos = Ok (s1, pos + 65) /\
    single_context s1 sys (sys ++ "01") sig /\
    let iode_bits := if (gnssid =? 2)%Z then 10 else 8 in
    forall s2 payload pos2,
      same_mask s1 s2 ->
      returns (decode_cssr_st2 s2 payload pos2)
        (fun out =>
           if length payload <? pos2 + (iode_bits + 15 + 13 + 13)
           then out = (s2, 0)
           else snd out = pos2 + (iode_bits + 15 + 13 + 13) /\
                same_mask s2 (fst out)).
Proof.
  intros Hmask Hsys.
  destruct (decode_cssr_st1_single s mask_message pos gnssid sys Hmask Hsys)
    as [s1 [sig [Hdec Hctx]]].
  exists s1, sig. split; [exact Hdec|]. split; [exact Hctx|].
  intros iode_bits s2 payload pos2 Hsame.
  pose proof (single_context_same_mask _ _ _ _ _ Hctx Hsame) as Hctx2.
  eapply returns_mono;
    [apply decode_cssr_st2_consumes, (single_context_mask_ok _ _ _ _ Hctx2)|].
  intros out. unfold consumes.
  rewrite (single_context_st2_bits _ _ _ _ Hctx2).
  assert (Hbits : st2_sat_bits sys = iode_bits + 15 + 13 + 13).
  { apply gnssid2satsys_cases in Hsys. simpl in Hsys. subst iode_bits.
    repeat (destruct Hsys as [[= <- <-] | Hsys]; [reflexivity|]).
    contradiction. }
  rewrite Hbits.
  destruct (Nat.ltb_spec 0 (iode_bits + 15 + 13 + 13)); [|lia].
  cbn [andb]. auto.
Qed.

Lemma st2_after_single_mask_witness :
  exists s1 sig,
    decode_cssr_st1 (Ssr_init None 0) example_mask_one 45 = Ok (s1, 45 + 65) /\
    single_context s1 "G" "G01" sig /\
    forall s2 payload pos2,
      same_mask s1 s2 ->
      returns (decode_cssr_st2 s2 payload pos2)
        (fun out =>
           if length payload <? pos2 + (8 + 15 + 13 + 13)
           then out = (s2, 0)
           else snd out = pos2 + (8 + 15 + 13 + 13) /\ same_mask s2 (fst out)).
Proof.
  apply (st2_after_single_mask (Ssr_init None 0) example_mask_one 45 0 "G").
  - unfold single_mask. repeat split; try reflexivity; simpl; lia.
  - reflexivity.
Defined.

(** ** The order of the cells *)

Lemma bind_assoc {R A B C} (m : flow R A) (f : A -> flow R B) (g : B -> flow R C) :
  bind (bind m f) g = bind m (fun x => bind (f x) g).
Proof. destruct m; reflexivity. Qed.

Lemma bind_ext {R A B} (m : flow R A) (f g : A -> flow R B) :
  (forall x, f x = g x) -> bind m f = bind m g.
Proof. intros H. destruct m; cbn [bind]; auto. Qed.

Lemma bind_Next_r {R A} (m : flow R A) : bind m (fun x => Next x) = m.
Proof. destruct m; reflexivity. Qed.

Lemma for_each_app {R A St} (l1 l2 : list A) (f : A -> St -> flow R St) (st : St) :
  for_each (l1 ++ l2) f st = bind (for_each l1 f st) (for_each l2 f).
Proof.
  revert st. induction l1 as [|x l1 IH]; intros st; [reflexivity|].
  cbn [app for_each]. rewrite bind_assoc. apply bind_ext. intros st'. apply IH.
Qed.

Lemma bit_at_nth {R} (b : bits) (i : nat) :
  i < length b -> @bit_at R b i = Next (nth i b false).
Proof.
  intros Hi. unfold bit_at.
  rewrite (nth_error_nth' b false Hi). reflexivity.
Qed.

Section CellOrder.

Context {R St : Type}.
Variable s : Ssr.
Variable body : nat -> string -> nat -> string -> string -> bool -> St -> flow R St.

(** The loop over the signals of one satellite. *)
Lemma sig_loop_cells (i : nat) (sys : string) (j : nat) (sat : string)
    (cm : bits) (base : nat) (sigs : list string) (k0 : nat) (st : St) :
  nth_error s.(cellmask) i = Some cm ->
  base + k0 + length sigs <= length cm ->
  for_each sigs
    (fun gsig '(st, pos_mask) =>
       bind (nth_get s.(cellmask) i) (fun cm =>
       bind (bit_at cm pos_mask) (fun mask =>
       bind (body i sys j sat gsig mask st) (fun st =>
       Next (st, pos_mask + 1)))))
    (st, base + k0)
  = bind (for_each
            (map (fun '(k, sig) => (i, sys, j, sat, sig, nth (base + k) cm false))
                 (enumerate_from k0 sigs))
            (on_cell body) st)
         (fun st' => Next (st', base + k0 + length sigs)).
Proof.
  intros Hcm. revert k0 st.
  induction sigs as [|sig sigs IH]; intros k0 st Hlen.
  - cbn [for_each enumerate_from map bind length]. now rewrite Nat.add_0_r.
  - cbn [for_each enumerate_from map length] in *.
    unfold nth_get at 1. rewrite Hcm. cbn [bind].
    rewrite bit_at_nth by lia. cbn [bind].
    rewrite !bind_assoc. cbn [on_cell]. apply bind_ext. intros st'. cbn [bind].
    replace (base + k0 + 1) with (base + S k0) by lia.
    rewrite IH by lia.
    replace (base + S k0 + length sigs) with (base + k0 + S (length sigs)) by lia.
    reflexivity.
Qed.

(** The loop over the satellites of one system. *)
Lemma sat_loop_cells (i : nat) (sys : string) (cm : bits) (sigs sats : list string)
    (j0 : nat) (st : St) :
  nth_error s.(cellmask) i = Some cm ->
  s.(gsig) sys = Some sigs ->
  (j0 + length sats) * length sigs <= length cm ->
  for_each (enumerate_from j0 sats)
    (fun '(j, gsys) st_pm =>
       bind (dict_get s.(gsig) sys) (fun sigs =>
       for_each sigs
         (fun gsig '(st, pos_mask) =>
            bind (nth_get s.(cellmask) i) (fun cm =>
            bind (bit_at cm pos_mask) (fun mask =>
            bind (body i sys j gsys gsig mask st) (fun st =>
            Next (st, pos_mask + 1)))))
         st_pm))
    (st, j0 * length sigs)
  = bind (for_each
            (flat_map
               (fun '(j, sat) =>
                  map (fun '(k, sig) =>
                         (i, sys, j, sat, sig, nth (j * length sigs + k) cm false))
                      (enumerate sigs))
               (enumerate_from j0 sats))
            (on_cell body) st)
         (fun st' => Next (st', (j0 + length sats) * length sigs)).
Proof.
  intros Hcm Hsigs. revert j0 st.
  induction sats as [|sat sats IH]; intros j0 st Hlen.
  - cbn [for_each enumerate_from flat_map bind length]. now rewrite Nat.add_0_r.
  - cbn [for_each enumerate_from flat_map length] in *.
    unfold dict_get at 1. rewrite Hsigs. cbn [bind].
    rewrite for_each_app, bind_assoc.
    replace (j0 * length sigs) with (j0 * length sigs + 0) at 1 by lia.
    unfold enumerate.
    rewrite (sig_loop_cells i sys j0 sat cm (j0 * length sigs) sigs 0 st Hcm) by nia.
    rewrite bind_assoc. apply bind_ext. intros st'. cbn [bind].
    replace (j0 * length sigs + 0 + length sigs) with (S j0 * length sigs) by lia.
    rewrite IH by lia.
    replace ((S j0 + length sats) * length sigs)
      with ((j0 + S (length sats)) * length sigs) by lia.
    reflexivity.
Qed.

Lemma for_cells_from (syss : list string) (i0 : nat) (st : St) :
  (forall i sys, nth_error syss i = Some sys ->
     s.(gsys) sys <> None /\ s.(gsig) sys <> None /\
     exists cm, nth_error s.(cellmask) (i0 + i) = Some cm /\
                length (sats_of s sys) * length (sigs_of s sys) <= length cm) ->
  for_each (enumerate_from i0 syss)
    (fun '(i, satsys) st =>
       let pos_mask := 0 in
       bind (dict_get s.(gsys) satsys) (fun sats =>
       bind (for_each (enumerate sats)
               (fun '(j, gsys) st_pm =>
                  bind (dict_get s.(gsig) satsys) (fun sigs =>
                  for_each sigs
                    (fun gsig '(st, pos_mask) =>
                       bind (nth_get s.(cellmask) i) (fun cm =>
                       bind (bit_at cm pos_mask) (fun mask =>
                       let pos_mask := pos_mask + 1 in
                       bind (body i satsys j gsys gsig mask st) (fun st =>
                       Next (st, pos_mask)))))
                    st_pm))
               (st, pos_mask))
            (fun '(st, pos_mask) => Next st)))
    st
  = for_each
      (flat_map
         (fun '(i, sys) =>
            let cm := nth i s.(cellmask) [] in
            let sigs := sigs_of s sys in
            flat_map
              (fun '(j, sat) =>
                 map (fun '(k, sig) =>
                        (i, sys, j, sat, sig, nth (j * length sigs + k) cm false))
                     (enumerate sigs))
              (enumerate (sats_of s sys)))
         (enumerate_from i0 syss))
      (on_cell body) st.
Proof.
  revert i0 st. induction syss as [|sys syss IH]; intros i0 st Hok; [reflexivity|].
  cbn [enumerate_from for_each flat_map]. cbv zeta.
  destruct (Hok 0 sys eq_refl) as (Hg & Hs & cm & Hcm & Hlen).
  rewrite Nat.add_0_r in Hcm.
  unfold sats_of, sigs_of in *.
  destruct (s.(gsys) sys) as [sats|] eqn:Esats; [|congruence].
  destruct (s.(gsig) sys) as [sigs|] eqn:Esigs; [|congruence].
  unfold dict_get at 1. rewrite Esats. cbn [bind].
  assert (Hnth : nth i0 (cellmask s) [] = cm) by now apply nth_error_nth.
  rewrite Hnth.
  unfold enumerate at 1.
  change (@pair St nat st 0) with (st, 0 * length sigs).
  rewrite (sat_loop_cells i0 sys cm sigs sats 0 st Hcm Esigs) by (simpl; lia).
  rewrite for_each_app, !bind_assoc.
  apply bind_ext. intros st'. cbn [bind].
  apply IH. intros i sys' Hi.
  specialize (Hok (S i) sys' Hi).
  now replace (i0 + S i) with (S i0 + i) in Hok by lia.
Qed.

(** Every cell loop visits the cells of the mask in the order of the
    specification, with the mask bit of the row-major index. *)
Lemma for_cells_order (st : St) :
  mask_ok s ->
  for_cells s body st = for_each (cells_of s) (on_cell body) st.
Proof.
  intros Hok. unfold for_cells, cells_of, enumerate at 1 4.
  apply (for_cells_from s.(satsys) 0 st). exact Hok.
Qed.

End CellOrder.

(** ** The tables of one GNSS of the mask *)

Lemma for_each_post {R A St} (l : list A) (body : A -> St -> flow R St)
    (Inv : St -> Prop) (st st' : St) :
  Inv st ->
  (forall x st st', Inv st -> body x st = Next st' -> Inv st') ->
  for_each l body st = Next st' -> Inv st'.
Proof.
  intros H0 Hstep. revert st H0.
  induction l as [|x l IH]; intros st H0 H.
  - injection H as <-. exact H0.
  - cbn [for_each] in H. destruct (body x st) as [st1| |] eqn:E; try discriminate.
    cbn [bind] in H. apply (IH st1); [|exact H]. now apply (Hstep x st st1).
Qed.

Lemma mask_sat_loop_count {R} (sys : string) (b : bits) (n : nat) (l : list string) :
  @mask_sat_loop R sys b = Next (n, l) -> n = length l.
Proof.
  unfold mask_sat_loop.
  apply (for_each_post _ _ (fun st => fst st = length (snd st)) (0, []) (n, l));
    [reflexivity|].
  intros [i [|]] [c t] [c' t'] Hinv [= <- <-]; cbn [fst snd] in *; [|exact Hinv].
  rewrite length_app. cbn [length]. lia.
Qed.

Lemma mask_sig_loop_count {R} (sys : string) (b : bits) (n : nat) (l : list string) :
  @mask_sig_loop R sys b = Next (n, l) -> n = length l.
Proof.
  unfold mask_sig_loop.
  apply (for_each_post _ _ (fun st => fst st = length (snd st)) (0, []) (n, l));
    [reflexivity|].
  intros [i [|]] [c t] [c' t'] Hinv H; cbn [fst snd] in *.
  - destruct (sigmask2signame sys (Z.of_nat i)); try discriminate.
    cbn [bind] in H. injection H as <- <-.
    rewrite length_app. cbn [length]. lia.
  - injection H as <- <-. exact Hinv.
Qed.

(** What one round of the loop over the GNSS adds to the tables: the system,
    its satellites and signals, and a cell mask that is read from the payload
    when the availability flag is set and is all ones, one bit per pair of a
    satellite and a signal, when the flag is clear. *)
Lemma mask_gnss_tables {R} (payload : bits) (ssr_type : string)
    (pos pos' : nat) (m m' : mask_tables) :
  @mask_gnss R payload ssr_type (pos, m) = Next (pos', m') ->
  exists sys sats sigs,
    m'.(m_satsys) = m.(m_satsys) ++ [sys] /\
    m'.(m_gsys) = dict_set sys sats m.(m_gsys) /\
    m'.(m_gsig) = dict_set sys sigs m.(m_gsig) /\
    m'.(m_nsatmask) = m.(m_nsatmask) ++ [length sats] /\
    m'.(m_nsigmask) = m.(m_nsigmask) ++ [length sigs] /\
    m'.(m_cellmask) =
      m.(m_cellmask) ++
      [if truth (slice payload (pos + 60) (pos + 61))
       then slice payload (pos + 61) (pos + 61 + length sats * length sigs)
       else ones (length sats * length sigs)].
Proof.
  unfold mask_gnss.
  destruct (uint (slice payload pos (pos + 4))) as [g| |]; try discriminate.
  cbn [bind].
  destruct (gnssid2satsys g) as [sys| |]; try discriminate. cbn [bind].
  destruct (mask_sat_loop sys _) as [[nsat sats]| |] eqn:Esat; try discriminate.
  destruct (mask_sig_loop sys _) as [[nsig sigs]| |] eqn:Esig; try discriminate.
  cbn [bind].
  apply mask_sat_loop_count in Esat. apply mask_sig_loop_count in Esig. subst.
  replace (pos + 4 + 40 + 16) with (pos + 60) by lia.
  replace (pos + 60 + 1) with (pos + 61) by lia.
  destruct (truth (slice payload (pos + 60) (pos + 61)));
    destruct (ssr_type =? "has")%string;
    try (destruct (uint _) as [nm| |]; try discriminate; cbn [bind]);
    intros [= <- <-]; exists sys, sats, sigs; cbn; repeat split.
Qed.

(** ** Checking a mask context by computation *)

Lemma enumerate_from_nth {A} (l : list A) (i0 i : nat) (x : A) :
  nth_error l i = Some x -> In (i0 + i, x) (enumerate_from i0 l).
Proof.
  revert i0 i. induction l as [|y l IH]; intros i0 [|i] H; try discriminate.
  - injection H as ->. rewrite Nat.add_0_r. now left.
  - right. replace (i0 + S i) with (S i0 + i) by lia. now apply IH.
Qed.

Lemma mask_okb_ok (s : Ssr) : mask_okb s = true -> mask_ok s.
Proof.
  unfold mask_okb. rewrite forallb_forall. intros H i sys Hi.
  specialize (H (i, sys) (enumerate_from_nth _ 0 i sys Hi)). cbv beta iota in H.
  unfold sats_of, sigs_of.
  destruct (s.(gsys) sys), (s.(gsig) sys), (nth_error s.(cellmask) i);
    try discriminate.
  apply Nat.leb_le in H. repeat split; try discriminate. eauto.
Qed.

Lemma mask_ok_same_mask (s s' : Ssr) : mask_ok s -> same_mask s s' -> mask_ok s'.
Proof.
  intros Hok (E1 & E2 & E3 & E4 & _) i sys Hi.
  unfold sats_of, sigs_of. rewrite E1 in Hi. rewrite E2, E3, E4.
  apply (Hok i sys Hi).
Qed.

Lemma mask_ok_init (fp : option (list trace_line)) (level : Z) :
  mask_ok (Ssr_init fp level).
Proof. intros [|i] sys Hi; discriminate. Qed.

(** ** Decoders that stay within the payload *)

Lemma wp_for_each_inv {R A St} (l : list A) (body : A -> St -> flow R St)
    (Inv : St -> Prop) (QR : R -> Prop) (st : St) :
  Inv st ->
  (forall x st, In x l -> Inv st -> wp (body x st) Inv QR) ->
  wp (for_each l body st) Inv QR.
Proof.
  intros H0 Hstep.
  apply (wp_for_each l body (fun _ => Inv) QR st H0).
  intros pre x post st' Hl Hinv. apply Hstep; [|exact Hinv].
  subst l. apply in_or_app. right. now left.
Qed.

Ltac wp_guard :=
  let Hc := fresh "Hc" in
  apply wp_if;
  [ intros Hc; try apply Nat.ltb_lt in Hc
  | intros Hc; try apply Nat.ltb_ge in Hc ].

Ltac wp_step :=
  lazymatch goal with
  | |- wp (bind _ _) _ _ => apply wp_bind
  | |- wp (uint (slice _ _ _)) _ _ => apply wp_uint_slice; [lia | lia | cbv beta]
  | |- wp (int (slice _ _ _)) _ _ => apply wp_int_slice; [lia | lia | cbv beta]
  | |- wp (Next _) _ _ => apply wp_Next; cbv beta iota
  | |- wp (Return _) _ _ => apply wp_Return
  | |- wp (if (_ <? _) then _ else _) _ _ => wp_guard
  | |- wp (let _ := _ in _) _ _ => cbv zeta
  end.

Lemma same_head_refl (s : Ssr) : same_head s s.
Proof. repeat split. Qed.

Lemma same_head_trans (s1 s2 s3 : Ssr) :
  same_head s1 s2 -> same_head s2 s3 -> same_head s1 s3.
Proof. unfold same_head. intuition congruence. Qed.

Lemma same_head_trace (s : Ssr) (level : Z) (l : list trace_line) :
  same_head s (trace s level l).
Proof.
  pose proof (trace_fields s level l) as Ht. cbv zeta in Ht.
  unfold same_head. tauto.
Qed.

Lemma same_head_add_stat_sat (s : Ssr) (a b : Z) : same_head s (add_stat_sat a b s).
Proof. repeat split. Qed.

Lemma same_head_add_stat_sig (s : Ssr) (a b : Z) : same_head s (add_stat_sig a b s).
Proof. repeat split. Qed.

Lemma within_return (s : Ssr) (payload : bits) (pos : nat) :
  within s payload pos (s, 0).
Proof. now left. Qed.

Lemma within_finish_sat (s : Ssr) (payload : bits) (pos pos' : nat)
    (l : list trace_line) (a b : Z) :
  pos <= pos' <= length payload ->
  within s payload pos (add_stat_sat a b (trace s 1 l), pos').
Proof.
  intros H. right. split; [exact H|]. split; [apply same_mask_finish_sat|].
  unfold add_stat_sat. pose proof (trace_fields s 1 l) as Ht. cbv zeta in Ht.
  unfold same_head. cbn. intuition congruence.
Qed.

Lemma within_finish_sig (s : Ssr) (payload : bits) (pos pos' : nat)
    (l : list trace_line) (a b : Z) :
  pos <= pos' <= length payload ->
  within s payload pos (add_stat_sig a b (trace s 1 l), pos').
Proof.
  intros H. right. split; [exact H|]. split; [apply same_mask_finish_sig|].
  unfold add_stat_sig. pose proof (trace_fields s 1 l) as Ht. cbv zeta in Ht.
  unfold same_head. cbn. intuition congruence.
Qed.

Lemma decode_cssr_st7_within (s : Ssr) (payload : bits) (pos : nat) :
  mask_ok s -> pos <= length payload ->
  returns (decode_cssr_st7 s payload pos) (within s payload pos).
Proof.
  intros Hok Hpos. unfold decode_cssr_st7. apply wp_call. cbv zeta.
  apply wp_if; intros _; [apply wp_Return, within_return|].
  apply wp_bind.
  eapply wp_mono with (Q := pos_inv payload pos) (QR := fun r => r = (s, 0)).
  - apply wp_for_each_inv; [unfold pos_inv; cbn [fst]; lia|].
    intros sys st Hin Hinv. apply wp_bind.
    apply (wp_dict_get _ _ _ _ _ (mask_ok_sats s sys Hok Hin)).
    apply wp_for_each_inv; [exact Hinv|].
    intros g [pos' msg] _ Hinv'. unfold pos_inv in *. cbn [fst] in *.
    repeat wp_step; cbn [fst]; [reflexivity | lia].
  - intros [pos' msg] Hinv. apply wp_Next. now apply within_finish_sat.
  - intros r ->. apply within_return.
Qed.

Lemma enumerate_from_in {A} (l : list A) (i0 i : nat) (x : A) :
  In (i, x) (enumerate_from i0 l) -> i0 <= i < i0 + length l /\ In x l.
Proof.
  revert i0. induction l as [|y l IH]; intros i0 H; [contradiction|].
  destruct H as [[= <- <-] | H].
  - cbn [length]. split; [lia | now left].
  - apply IH in H. cbn [length]. split; [lia | now right].
Qed.

Lemma decode_cssr_st2_within (s : Ssr) (payload : bits) (pos : nat) :
  mask_ok s -> pos <= length payload ->
  returns (decode_cssr_st2 s payload pos) (within s payload pos).
Proof.
  intros Hok Hpos. unfold decode_cssr_st2. apply wp_call. cbv zeta.
  apply wp_bind.
  eapply wp_mono with (Q := pos_inv payload pos) (QR := fun r => r = (s, 0)).
  - apply wp_for_each_inv; [unfold pos_inv; cbn [fst]; lia|].
    intros sys st Hin Hinv. apply wp_bind.
    apply (wp_dict_get _ _ _ _ _ (mask_ok_sats s sys Hok Hin)).
    apply wp_for_each_inv; [exact Hinv|].
    intros g [pos' msg] _ Hinv'. unfold pos_inv in *. cbn [fst] in *.
    destruct (sys =? "E")%string;
      (wp_guard; [now apply wp_Return|]; repeat wp_step; cbn [fst]; lia).
  - intros [pos' msg] Hinv. apply wp_Next. now apply within_finish_sat.
  - intros r ->. apply within_return.
Qed.

Lemma decode_cssr_st3_within (s : Ssr) (payload : bits) (pos : nat) :
  mask_ok s -> pos <= length payload ->
  returns (decode_cssr_st3 s payload pos) (within s payload pos).
Proof.
  intros Hok Hpos. unfold decode_cssr_st3. apply wp_call. cbv zeta.
  apply wp_bind.
  eapply wp_mono with (Q := pos_inv payload pos) (QR := fun r => r = (s, 0)).
  - apply wp_for_each_inv; [unfold pos_inv; cbn [fst]; lia|].
    intros [i sys] st Hin Hinv. apply enumerate_from_in in Hin as [_ Hin].
    apply wp_bind.
    apply (wp_dict_get _ _ _ _ _ (mask_ok_sats s sys Hok Hin)).
    apply wp_for_each_inv; [exact Hinv|].
    intros g [pos' msg] _ Hinv'. unfold pos_inv in *. cbn [fst] in *.
    wp_guard; [now apply wp_Return|]. repeat wp_step. cbn [fst]. lia.
  - intros [pos' msg] Hinv. apply wp_Next. now apply within_finish_sat.
  - intros r ->. apply within_return.
Qed.

Lemma wp_list_get_HAS_VI {R} (b : bits) (Q : Z -> Prop) (QR : R -> Prop) :
  length b <= 4 -> (forall v, Q v) -> wp (list_get HAS_VI (bits_value b)) Q QR.
Proof.
  intros Hlen HQ. destruct (@list_get_HAS_VI R b Hlen) as [v Hv].
  rewrite Hv. apply HQ.
Qed.




(** The cell loops. *)

Lemma decode_cssr_st5_within (s : Ssr) (payload : bits) (pos : nat) :
  mask_ok s -> pos <= length payload ->
  returns (decode_cssr_st5 s payload pos) (within s payload pos).
Proof.
  intros Hok Hpos. unfold decode_cssr_st5. apply wp_call. cbv zeta.
  apply wp_bind. rewrite (for_cells_order s _ _ Hok).
  eapply wp_mono with (Q := pos_inv payload pos) (QR := fun r => r = (s, 0)).
  - apply wp_for_each_inv; [unfold pos_inv; cbn [fst]; lia|].
    intros [[[[[i sys] j] sat] sig] mask] [pos' msg] _ Hinv.
    unfold pos_inv in *. cbn [fst on_cell] in *.
    destruct mask; cbn [negb]; [|apply wp_Next; cbn [fst]; lia].
    wp_guard; [now apply wp_Return|].
    repeat wp_step. cbn [fst]. lia.
  - intros [pos' msg] Hinv. apply wp_Next. now apply within_finish_sig.
  - intros r ->. apply within_return.
Qed.


Lemma count_active_app (a b : list cell) :
  count_active (a ++ b) = count_active a + count_active b.
Proof. unfold count_active. now rewrite filter_app, length_app. Qed.

Lemma count_cells {R} (cells : list cell) (n : nat) :
  for_each (R := R) cells
    (on_cell (fun _ _ _ _ _ (mask : bool) (nsigsat : nat) =>
                if negb mask then Next nsigsat else Next (nsigsat + 1)))
    n
  = Next (n + count_active cells).
Proof.
  revert n. induction cells as [|[[[[[i sys] j] sat] sig] mask] cells IH]; intros n.
  - cbn. now rewrite Nat.add_0_r.
  - cbn [for_each on_cell]. destruct mask; cbn [negb bind]; rewrite IH;
      unfold count_active; cbn [filter length]; f_equal; lia.
Qed.

Lemma code_bias_cells (s : Ssr) (payload : bits) (head : string)
    (cells : list cell) (pos : nat) (msg : list trace_line) :
  pos + 11 * count_active cells <= length payload ->
  wp (for_each (R := Ssr * nat) cells
        (on_cell (fun _ _ _ gsys gsig (mask : bool) '(pos, msg_trace1) =>
           if negb mask then Next (pos, msg_trace1) else
           bind (int (slice payload pos (pos + 11))) (fun icb =>
           Next (pos + 11,
                 msg_trace1 ++
                   [Line head [gsys; gsig] [] [scale_unless icb 0.02 (-1024)]]))))
        (pos, msg))
     (fun st => fst st = pos + 11 * count_active cells)
     (fun _ => False).
Proof.
  revert pos msg.
  induction cells as [|[[[[[i sys] j] sat] sig] mask] cells IH]; intros pos msg Hlen.
  - apply wp_Next. cbn. lia.
  - cbn [for_each on_cell]. apply wp_bind.
    change (count_active ((i, sys, j, sat, sig, mask) :: cells))
      with (count_active ([(i, sys, j, sat, sig, mask)] ++ cells)) in *.
    rewrite count_active_app in *.
    destruct mask; cbn [negb].
    + change (count_active [(i, sys, j, sat, sig, true)]) with 1 in *.
      wp_step. wp_step. wp_step.
      eapply wp_mono; [apply IH; lia | | auto].
      intros st Hst. cbv beta in Hst. lia.
    + change (count_active [(i, sys, j, sat, sig, false)]) with 0 in *.
      wp_step.
      eapply wp_mono; [apply IH; lia | | auto].
      intros st Hst. cbv beta in Hst. lia.
Qed.

Lemma decode_code_bias_within (s : Ssr) (payload : bits) (pos : nat)
    (ssr_type : string) :
  mask_ok s ->
  (ssr_type = "cssr" /\ pos <= length payload) \/ ssr_type = "has" ->
  returns (_decode_code_bias s payload pos ssr_type) (within s payload pos).
Proof.
  intros Hok Hty. unfold _decode_code_bias. apply wp_call.
  assert (Hty' : negb ((ssr_type =? "cssr")%string || (ssr_type =? "has")%string)
                 = false) by (destruct Hty as [[-> _] | ->]; reflexivity).
  rewrite Hty'. cbv zeta.
  rewrite (for_cells_order s _ _ Hok), count_cells. cbn [bind Nat.add].
  apply wp_bind.
  apply wp_mono with
    (Q := fun st : nat * list trace_line => pos <= fst st <= length payload)
    (QR := fun r => r = (s, 0)).
  - destruct Hty as [[-> Hpos] | ->].
    + change ("cssr" =? "has")%string with false. cbv iota.
      apply wp_Next. cbn [fst]. lia.
    + change ("has" =? "has")%string with true. cbv iota.
      wp_guard; [now apply wp_Return|].
      wp_step. wp_step. apply wp_bind.
      apply wp_list_get_HAS_VI; [rewrite slice_length; lia|]. intros vi_s.
      apply wp_Next. cbn [fst]. lia.
  - intros [pos1 msg] Hpos1. cbn [fst] in Hpos1. cbv beta iota.
    wp_guard; [apply wp_Return, within_return|].
    apply wp_bind. rewrite (for_cells_order s _ _ Hok).
    eapply wp_mono; [apply (code_bias_cells s); lia | | intros r []].
    intros [pos2 msg2] Hpos2. cbn [fst] in Hpos2. cbv beta iota.
    apply wp_Next. apply within_finish_sig. lia.
  - intros r ->. apply within_return.
Qed.

(** The HAS clock decoder. *)




(** The decoders with a satellite mask of their own. *)

Lemma read_svmask_ok (s : Ssr) (payload : bits) (pos : nat) :
  mask_ok s -> pos <= length payload ->
  wp (read_svmask s payload pos)
     (fun st => pos <= fst st <= length payload /\ svmask_ok s (snd st))
     (fun r => r = (s, 0)).
Proof.
  intros Hok Hpos. unfold read_svmask.
  eapply wp_mono;
    [apply (wp_for_each s.(satsys) _
              (fun pre st =>
                 pos <= fst st <= length payload /\
                 forall sys, In sys pre ->
                   exists m, snd st sys = Some m /\
                             length m = length (sats_of s sys)))
    | | intros r H; exact H].
  - cbn [fst snd]. split; [lia | intros sys []].
  - intros pre sys post [pos' sv] Hl [Hpos' Hsv]. cbn [fst snd] in *.
    assert (Hin : In sys s.(satsys))
      by (rewrite Hl; apply in_or_app; right; now left).
    apply wp_bind.
    apply (wp_dict_get _ _ _ _ _ (mask_ok_sats s sys Hok Hin)). cbv zeta.
    wp_guard; [now apply wp_Return|].
    apply wp_Next. cbn [fst snd]. split; [lia|].
    intros sys' Hin'. unfold dict_set.
    destruct (String.eqb_spec sys' sys) as [->|Hne].
    + eexists. split; [reflexivity|]. rewrite slice_length. lia.
    + apply in_app_or in Hin' as [Hin' | [<- | []]]; [now apply Hsv | congruence].
  - intros [pos' sv] [Hpos' Hsv]. cbn [fst snd] in *. split; [exact Hpos'|].
    intros sys Hin. now apply Hsv.
Qed.

Lemma wp_svmask_at {R} (s : Ssr) (svmask : dict bits) (sys : string) (i : nat)
    (Q : bool -> Prop) (QR : R -> Prop) :
  svmask_ok s svmask -> In sys s.(satsys) -> i < length (sats_of s sys) ->
  (forall b, Q b) -> wp (svmask_at svmask sys i) Q QR.
Proof.
  intros Hsv Hin Hi HQ. destruct (Hsv sys Hin) as [m [Hm Hlen]].
  unfold svmask_at. apply wp_bind. apply (wp_dict_get _ _ m); [exact Hm|].
  apply wp_bit_at; [lia | auto].
Qed.

Lemma stec_terms_within (s : Ssr) (payload : bits) (stec_type : Z) (pos : nat) :
  pos <= length payload ->
  wp (stec_terms s payload stec_type pos)
     (fun st => pos <= fst st <= length payload)
     (fun r => r = (s, 0)).
Proof.
  intros Hpos. unfold stec_terms. cbv zeta.
  apply wp_bind.
  apply wp_mono with
    (Q := fun st : nat * list pynum => pos <= fst st <= length payload)
    (QR := fun r => r = (s, 0)); [| |auto].
  { destruct (1 <=? stec_type)%Z; [|apply wp_Next; cbn [fst]; lia].
    wp_guard; [now apply wp_Return|]. repeat wp_step. cbn [fst]. lia. }
  intros [pos1 t1] H1. cbn [fst] in H1. cbv beta iota.
  apply wp_bind.
  apply wp_mono with
    (Q := fun st : nat * list pynum => pos <= fst st <= length payload)
    (QR := fun r => r = (s, 0)); [| |auto].
  { destruct (2 <=? stec_type)%Z; [|apply wp_Next; cbn [fst]; lia].
    wp_guard; [now apply wp_Return|]. repeat wp_step. cbn [fst]. lia. }
  intros [pos2 t2] H2. cbn [fst] in H2. cbv beta iota.
  apply wp_bind.
  apply wp_mono with
    (Q := fun st : nat * list pynum => pos <= fst st <= length payload)
    (QR := fun r => r = (s, 0)); [| |auto].
  { destruct (3 <=? stec_type)%Z; [|apply wp_Next; cbn [fst]; lia].
    wp_guard; [now apply wp_Return|]. repeat wp_step. cbn [fst]. lia. }
  intros [pos3 t3] H3. cbn [fst] in H3. cbv beta iota.
  apply wp_Next. cbn [fst]. lia.
Qed.

Lemma decode_cssr_st8_within (s : Ssr) (payload : bits) (pos : nat) :
  mask_ok s -> pos <= 37 ->
  returns (decode_cssr_st8 s payload pos) (within s payload pos).
Proof.
  intros Hok Hpos. unfold decode_cssr_st8. apply wp_call. cbv zeta.
  wp_guard; [apply wp_Return, within_return|].
  wp_step. wp_step. wp_step. wp_step.
  apply wp_bind.
  eapply wp_mono; [apply (read_svmask_ok s payload (pos + 2 + 5) Hok); lia | |auto].
  2: { intros r ->. apply within_return. }
  intros [pos1 svmask] [Hpos1 Hsv]. cbn [fst snd] in *. cbv beta iota.
  apply wp_bind.
  eapply wp_mono with (Q := pos_inv payload pos) (QR := fun r => r = (s, 0)).
  - apply wp_for_each_inv; [unfold pos_inv; cbn [fst]; lia|].
    intros sys st Hin Hinv. apply wp_bind.
    apply (wp_dict_get _ _ _ _ _ (mask_ok_sats s sys Hok Hin)).
    apply wp_for_each_inv; [exact Hinv|].
    intros [i g] [pos' msg] Hi Hinv'. unfold pos_inv in *. cbn [fst] in *.
    apply enumerate_from_in in Hi as [Hi _].
    apply wp_bind. apply (wp_svmask_at s); [exact Hsv | exact Hin | lia|].
    intros [|]; cbn [negb]; [|apply wp_Next; cbn [fst]; lia].
    wp_guard; [now apply wp_Return|].
    wp_step. wp_step. wp_step. wp_step. apply wp_bind.
    eapply wp_mono; [apply stec_terms_within; lia | | auto].
    intros [pos2 terms] Hpos2. cbn [fst] in Hpos2. cbv beta iota.
    apply wp_Next. cbn [fst]. lia.
  - intros [pos' msg] Hinv. apply wp_Next. now apply within_finish_sat.
  - intros r ->. apply within_return.
Qed.

Lemma decode_cssr_st11_within (s : Ssr) (payload : bits) (pos : nat) :
  mask_ok s -> pos <= 37 ->
  returns (decode_cssr_st11 s payload pos) (within s payload pos).
Proof.
  intros Hok Hpos. unfold decode_cssr_st11. apply wp_call. cbv zeta.
  wp_guard; [apply wp_Return, within_return|].
  apply wp_bind.
  eapply wp_mono with (Q := pos_inv payload pos) (QR := fun r => r = (s, 0)).
  - destruct (truth (slice payload (pos + 1 + 1) (pos + 1 + 1 + 1)));
      [|apply wp_Next; unfold pos_inv; cbn [fst]; lia].
    wp_guard; [now apply wp_Return|].
    wp_step. wp_step. apply wp_bind.
    eapply wp_mono;
      [apply (read_svmask_ok s payload (pos + 1 + 1 + 1 + 5) Hok); lia | |auto].
    intros [pos1 svmask] [Hpos1 Hsv]. cbn [fst snd] in *. cbv beta iota.
    apply wp_for_each_inv; [unfold pos_inv; cbn [fst]; lia|].
    intros sys st Hin Hinv. apply wp_bind.
    apply (wp_dict_get _ _ _ _ _ (mask_ok_sats s sys Hok Hin)).
    apply wp_for_each_inv; [exact Hinv|].
    intros [i g] [pos' msg] Hi Hinv'. unfold pos_inv in *. cbn [fst] in *.
    apply enumerate_from_in in Hi as [Hi _].
    apply wp_bind. apply (wp_svmask_at s); [exact Hsv | exact Hin | lia|].
    intros [|]; cbn [negb]; [|apply wp_Next; cbn [fst]; lia].
    apply wp_bind.
    apply wp_mono with
      (Q := fun st : nat * list Z * list pynum =>
              pos <= fst (fst st) <= length payload)
      (QR := fun r => r = (s, 0)); [| |auto].
    { destruct (truth (slice payload pos (pos + 1)));
        [|apply wp_Next; cbn [fst]; lia].
      destruct (sys =? "E")%string;
        (wp_guard; [now apply wp_Return|]; repeat wp_step; cbn [fst]; lia). }
    intros [[pos2 iodes] orb] Hpos2. cbn [fst] in Hpos2. cbv beta iota.
    apply wp_bind.
    apply wp_mono with
      (Q := fun st : nat * list pynum => pos <= fst st <= length payload)
      (QR := fun r => r = (s, 0)); [| |auto].
    { destruct (truth (slice payload (pos + 1) (pos + 1 + 1)));
        [|apply wp_Next; cbn [fst]; lia].
      wp_guard; [now apply wp_Return|]. repeat wp_step. cbn [fst]. lia. }
    intros [pos3 clk] Hpos3. cbn [fst] in Hpos3. cbv beta iota.
    apply wp_Next. cbn [fst]. lia.
  - intros [pos' msg] Hinv. apply wp_Next.
    destruct (truth _); [|now apply within_finish_sat].
    right. cbn [fst snd]. split; [exact Hinv|]. split.
    + eapply same_mask_trans; [apply same_mask_finish_sat|].
      apply same_mask_add_stat_sat.
    + eapply same_head_trans; [eapply same_head_trans|];
        [apply same_head_trace | apply same_head_add_stat_sat
        | apply same_head_add_stat_sat].
  - intros r ->. apply within_return.
Qed.

Lemma same_mask_set_stat_both (s : Ssr) (v : Z) : same_mask s (set_stat_both v s).
Proof. repeat split. Qed.

Lemma within_finish_both (s : Ssr) (payload : bits) (pos pos' : nat)
    (l : list trace_line) (v : Z) :
  pos <= pos' <= length payload ->
  within s payload pos (set_stat_both v (trace s 1 l), pos').
Proof.
  intros H. right. split; [exact H|]. split.
  - eapply same_mask_trans; [apply same_mask_trace | apply same_mask_set_stat_both].
  - pose proof (trace_fields s 1 l) as Ht. cbv zeta in Ht.
    unfold same_head. cbn. intuition congruence.
Qed.

Lemma range_length (n : Z) : length (range n) = Z.to_nat n.
Proof. apply length_seq. Qed.

Section BitsEqIntProofs.

Variable bits_eq_int : bits -> Z -> bool.

Lemma decode_cssr_st9_within (s : Ssr) (payload : bits) (pos : nat) :
  mask_ok s -> pos <= 37 ->
  returns (decode_cssr_st9 bits_eq_int s payload pos) (within s payload pos).
Proof.
  intros Hok Hpos. unfold decode_cssr_st9. apply wp_call. cbv zeta.
  wp_guard; [apply wp_Return, within_return|].
  wp_step. wp_step. wp_step. wp_step.
  apply wp_bind.
  eapply wp_mono;
    [apply (read_svmask_ok s payload (pos + 2 + 1 + 5) Hok); lia | |auto].
  2: { intros r ->. apply within_return. }
  intros [pos1 svmask] [Hpos1 Hsv]. cbn [fst snd] in *. cbv beta iota.
  wp_guard; [apply wp_Return, within_return|].
  wp_step. wp_step. wp_step. wp_step.
  apply wp_bind.
  eapply wp_mono with (Q := pos_inv payload pos) (QR := fun r => r = (s, 0)).
  - apply wp_for_each_inv; [unfold pos_inv; cbn [fst]; lia|].
    intros igrid [pos' msg] _ Hinv. unfold pos_inv in Hinv. cbn [fst] in Hinv.
    wp_guard; [now apply wp_Return|].
    wp_step. wp_step. wp_step. wp_step.
    apply wp_for_each_inv; [unfold pos_inv; cbn [fst]; lia|].
    intros sys st Hin Hinv1. apply wp_bind.
    apply (wp_dict_get _ _ _ _ _ (mask_ok_sats s sys Hok Hin)).
    apply wp_for_each_inv; [exact Hinv1|].
    intros [j g] [pos2 msg2] Hj Hinv2. unfold pos_inv in *. cbn [fst] in *.
    apply enumerate_from_in in Hj as [Hj _].
    apply wp_bind. apply (wp_svmask_at s); [exact Hsv | exact Hin | lia|].
    intros [|]; cbn [negb]; [|apply wp_Next; cbn [fst]; lia].
    destruct (truth (slice payload (pos + 2) (pos + 2 + 1)));
      (wp_guard; [now apply wp_Return|]; repeat wp_step; cbn [fst]; lia).
  - intros [pos' msg] Hinv. apply wp_Next. now apply within_finish_both.
  - intros r ->. apply within_return.
Qed.

Lemma decode_cssr_st12_within (s : Ssr) (payload : bits) (pos : nat) :
  mask_ok s -> pos <= 37 ->
  returns (decode_cssr_st12 bits_eq_int s payload pos) (within s payload pos).
Proof.
  intros Hok Hpos. unfold decode_cssr_st12. apply wp_call. cbv zeta.
  wp_guard; [apply wp_Return, within_return|].
  wp_step. wp_step. wp_step. wp_step.
  set (ngrid := bits_value (slice payload (pos + 2 + 2 + 5) (pos + 2 + 2 + 5 + 6))).
  apply wp_bind. apply wp_bit_at; [rewrite slice_length; lia|]. intros tropo0 _.
  (* the polynomial part of the troposphere correction *)
  apply wp_bind.
  apply wp_mono with
    (Q := fun st : nat * list trace_line => pos <= fst st <= length payload)
    (QR := fun r => r = (s, 0)); [| |intros r ->; apply within_return].
  { destruct tropo0; [|apply wp_Next; cbn [fst]; lia].
    wp_guard; [now apply wp_Return|].
    wp_step. wp_step. wp_step. wp_step. wp_step. wp_step.
    set (ttype := bits_value _).
    apply wp_bind.
    apply wp_mono with
      (Q := fun st : nat * list pynum => pos <= fst st <= length payload)
      (QR := fun r => r = (s, 0)); [| |auto].
    { destruct (1 <=? ttype)%Z; [|apply wp_Next; cbn [fst]; lia].
      wp_guard; [now apply wp_Return|]. repeat wp_step. cbn [fst]. lia. }
    intros [pos1 t1] H1. cbn [fst] in H1. cbv beta iota.
    apply wp_bind.
    apply wp_mono with
      (Q := fun st : nat * list pynum => pos <= fst st <= length payload)
      (QR := fun r => r = (s, 0)); [| |auto].
    { destruct (2 <=? ttype)%Z; [|apply wp_Next; cbn [fst]; lia].
      wp_guard; [now apply wp_Return|]. repeat wp_step. cbn [fst]. lia. }
    intros [pos2 t2] H2. cbn [fst] in H2. cbv beta iota.
    apply wp_Next. cbn [fst]. lia. }
  intros [pos1 msg1] Hpos1. cbn [fst] in Hpos1. cbv beta iota.
  apply wp_bind. apply wp_bit_at; [rewrite slice_length; lia|]. intros tropo1 _.
  (* the residuals of the troposphere correction *)
  apply wp_bind.
  apply wp_mono with
    (Q := fun st : nat * list trace_line => pos <= fst st <= length payload)
    (QR := fun r => r = (s, 0)); [| |intros r ->; apply within_return].
  { destruct tropo1; [|apply wp_Next; cbn [fst]; lia].
    wp_guard; [now apply wp_Return|].
    wp_step. wp_step.
    set (bw := if truth _ then 8 else 6).
    assert (Hbw : 0 < bw) by (subst bw; destruct (truth _); lia).
    wp_guard; [now apply wp_Return|].
    eapply wp_mono;
      [apply (wp_for_each (range ngrid) _
                (fun pre st => fst st = pos1 + 1 + 4 + bw * length pre))
      | | intros r H; exact H].
    - cbn [fst length]. lia.
    - intros pre i post [pos' msg] Hl Hpos'. cbn [fst] in Hpos'.
      apply (f_equal (@length _)) in Hl.
      rewrite range_length, length_app in Hl. cbn [length] in Hl.
      assert (bw * S (length pre) <= bw * Z.to_nat ngrid)
        by (apply Nat.mul_le_mono_l; lia).
      wp_step. wp_step. wp_step. cbn [fst].
      rewrite length_app. cbn [length]. lia.
    - intros [pos' msg] Hpos'. cbn [fst] in *.
      rewrite range_length in Hpos'. lia. }
  intros [pos2 msg2] Hpos2. cbn [fst] in Hpos2. cbv beta iota.
  apply wp_bind. apply wp_bit_at; [rewrite slice_length; lia|]. intros stec0 _.
  (* the STEC correction *)
  apply wp_bind.
  apply wp_mono with
    (Q := fun st : nat * list trace_line => pos2 <= fst st <= length payload)
    (QR := fun r => r = (s, 0)); [| |intros r ->; apply within_return].
  { destruct stec0; [|apply wp_Next; cbn [fst]; lia].
    apply wp_bind.
    eapply wp_mono; [apply (read_svmask_ok s payload pos2 Hok); lia | |auto].
    intros [pos3 svmask] [Hpos3 Hsv]. cbn [fst snd] in *. cbv beta iota.
    apply wp_for_each_inv with
      (Inv := fun st : nat * list trace_line => pos2 <= fst st <= length payload);
      [cbn [fst]; lia|].
    intros sys st Hin Hinv. apply wp_bind.
    apply (wp_dict_get _ _ _ _ _ (mask_ok_sats s sys Hok Hin)).
    apply wp_for_each_inv; [exact Hinv|].
    intros [i g] [pos' msg] Hi Hinv'. cbn [fst] in *.
    apply enumerate_from_in in Hi as [Hi _].
    apply wp_bind. apply (wp_svmask_at s); [exact Hsv | exact Hin | lia|].
    intros [|]; cbn [negb]; [|apply wp_Next; cbn [fst]; lia].
    wp_guard; [now apply wp_Return|].
    wp_step. wp_step. wp_step. wp_step. wp_step. wp_step. apply wp_bind.
    eapply wp_mono; [apply stec_terms_within; lia | | auto].
    intros [pos4 terms] Hpos4. cbn [fst] in Hpos4. cbv beta iota.
    wp_guard; [now apply wp_Return|].
    wp_step. wp_step.
    remember (bits_value (slice payload pos4 (pos4 + 2))) as srs eqn:Esrs.
    assert (Hsrs : (0 <= srs < 4)%Z).
    { subst srs. pose proof (bits_value_range (slice payload pos4 (pos4 + 2))) as Hr.
      rewrite slice_length in Hr.
      replace (Nat.min (pos4 + 2 - pos4) (length payload - pos4)) with 2 in Hr by lia.
      exact Hr. }
    clear Esrs.
    assert (Hcases : (srs = 0 \/ srs = 1 \/ srs = 2 \/ srs = 3)%Z) by lia.
    destruct Hcases as [-> | [-> | [-> | ->]]]; cbn [list_get Z.to_nat nth_error bind];
      (apply wp_for_each_inv; [cbn [fst]; lia|];
       intros igrid [pos5 msg5] _ Hinv5; cbn [fst] in Hinv5;
       wp_guard; [now apply wp_Return|]; repeat wp_step; cbn [fst]; lia). }
  intros [pos3 msg3] Hpos3. cbn [fst] in Hpos3. cbv beta iota.
  apply wp_Next. apply within_finish_sat. lia.
Qed.

End BitsEqIntProofs.

(** ** The dispatch *)

Lemma within_subtype (s s' : Ssr) (payload : bits) (pos r : nat) :
  within s payload pos (s', r) ->
  r <= length payload /\ same_mask s s' /\ same_head s s'.
Proof.
  intros [[= -> ->] | [H [Hm Hh]]]; cbn [fst snd] in *.
  - split; [lia|]. split; [apply same_mask_refl | repeat split].
  - split; [lia | auto].
Qed.

(** Subtype 6 when the mask has no satellite system: the satellite loops do
    nothing, and the network fields lie within the 45 bits that the decoder
    asks for. *)
Lemma decode_cssr_st6_no_system (s : Ssr) (payload : bits) (pos : nat) :
  s.(satsys) = [] -> pos <= 37 ->
  returns (decode_cssr_st6 s payload pos) (within s payload pos).
Proof.
  intros Hsys Hpos. unfold decode_cssr_st6, read_svmask, for_cells.
  rewrite Hsys. apply wp_call. cbv zeta.
  wp_guard; [apply wp_Return, within_return|].
  cbn [for_each enumerate enumerate_from]. apply wp_bind. apply wp_Next.
  apply wp_bind.
  apply wp_mono with
    (Q := fun st : nat * dict bits * list trace_line =>
            pos <= fst (fst st) <= length payload)
    (QR := fun r => r = (s, 0)); [| |intros r ->; apply within_return].
  { destruct (truth _); [|apply wp_Next; cbn [fst]; lia].
    repeat wp_step. cbn [fst]. lia. }
  intros [[pos1 svmask] msg] Hpos1. cbn [fst] in Hpos1. cbv beta iota.
  apply wp_bind. apply wp_Next. apply wp_Next.
  now apply within_finish_sig.
Qed.

Lemma no_system_position (s : Ssr) (payload : bits) :
  s.(satsys) = [] -> 37 <= length payload ->
  forall d, In d [decode_cssr_st2; decode_cssr_st3; decode_cssr_st4;
                  decode_cssr_st5; decode_cssr_st7] ->
  returns (d s payload 37) (fun out => snd out = 37).
Proof.
  intros Hsys Hlen d Hd. apply Nat.ltb_ge in Hlen as Hlt.
  assert (H11 : (length payload <? 37 + 11 * 0) = false).
  { apply Nat.ltb_ge. lia. }
  cbn [In] in Hd.
  destruct Hd as [<-|[<-|[<-|[<-|[<-|[]]]]]];
    unfold decode_cssr_st2, decode_cssr_st3, decode_cssr_st4, _decode_code_bias,
      decode_cssr_st5, decode_cssr_st7, for_cells;
    rewrite Hsys; cbn [for_each enumerate enumerate_from bind call String.eqb
                       Ascii.eqb Bool.eqb orb negb];
    cbv zeta; rewrite ?Hlt, ?H11; reflexivity.
Qed.

Section Dispatch.

Variable bits_eq_int : bits -> Z -> bool.

(** [decode_cssr] on a message with a whole header of a subtype other than
    1 and 10: the decoder of the subtype is called at position 37 on the
    object the header decoder leaves, and what it returns is returned with
    the summary of the subtype. *)
Lemma decode_cssr_dispatch (s : Ssr) (payload : bits) (st : Z) (P : nat -> Prop) :
  has_header payload = true ->
  st = bits_value (slice payload 12 16) ->
  In st non_mask_subtypes ->
  (forall s1 d, same_mask s s1 -> In (st, d) (cssr_decoders bits_eq_int) ->
     returns (d s1 payload 37) (fun out => within s1 payload 37 out /\ P (snd out))) ->
  returns (decode_cssr bits_eq_int s payload)
    (fun out => cssr_post s payload st out /\ P (fst (snd out))).
Proof.
  intros Hhdr Hst Hin Hdec. unfold decode_cssr. apply wp_call.
  apply wp_bind. apply wp_from_result.
  eapply returns_mono; [apply decode_cssr_head_post|].
  intros [s1 pos] [Hm Hh]. cbn [fst snd] in *. rewrite Hhdr, <- Hst in Hh.
  destruct Hh as [Hsub ->]. rewrite Hsub. specialize (Hdec s1).
  set (Q := fun out : Ssr * (nat * cssr_string) =>
              cssr_post s payload st out /\ P (fst (snd out))).
  assert (Hfin : forall d, In (st, d) (cssr_decoders bits_eq_int) ->
            wp (R := Ssr * (nat * cssr_string))
               ('(s2, pos) <- from_result (d s1 payload 37) ;;
                let string :=
                  if (s2.(subtype) =? 1)%Z
                  then StrEpoch s2.(subtype) s2.(epoch) s2.(iod)
                  else StrHepoch s2.(subtype) s2.(hepoch) s2.(iod) in
                Next (s2, (pos, string))) Q Q).
  { intros d Hd. apply wp_bind. apply wp_from_result.
    eapply returns_mono; [exact (Hdec d Hm Hd)|].
    intros [s2 r2] [Hw HP]. apply within_subtype in Hw as (Hlen & Hm2 & Hh2).
    apply wp_Next. unfold Q, cssr_post. cbn [fst snd] in *.
    destruct Hh2 as (E & _). rewrite E, Hsub.
    assert (Hne : (st =? 1)%Z = false).
    { unfold non_mask_subtypes in Hin. cbn [In] in Hin. apply Z.eqb_neq. lia. }
    rewrite Hne. split; [|exact HP]. split; [exact Hlen|]. split; [reflexivity|].
    split; [reflexivity|]. eapply same_mask_trans; eassumption. }
  unfold non_mask_subtypes in Hin. cbn [In] in Hin.
  destruct Hin as [E|[E|[E|[E|[E|[E|[E|[E|[E|[E|[]]]]]]]]]]]; subst st;
    rewrite <- E in *; cbn [header_bits Z.eqb Pos.eqb Nat.eqb]; cbv zeta;
    apply Hfin; unfold cssr_decoders;
    repeat (first [left; reflexivity | right]).
Qed.

(** The decoders of the subtypes 2 to 5, 7 to 9, 11 and 12 stay within the
    payload when they are called after the header. *)
Lemma cssr_decoders_within (s : Ssr) (payload : bits) (st : Z)
    (d : Ssr -> bits -> nat -> result (Ssr * nat)) :
  mask_ok s -> 37 <= length payload ->
  In (st, d) (cssr_decoders bits_eq_int) -> st <> 6%Z ->
  returns (d s payload 37) (within s payload 37).
Proof.
  intros Hok Hlen Hd Hne. unfold cssr_decoders in Hd. cbn [In] in Hd.
  destruct Hd as [E|[E|[E|[E|[E|[E|[E|[E|[E|[E|[]]]]]]]]]]];
    injection E as <- <-; try congruence.
  - now apply decode_cssr_st2_within.
  - now apply decode_cssr_st3_within.
  - apply decode_code_bias_within; auto.
  - now apply decode_cssr_st5_within.
  - now apply decode_cssr_st7_within.
  - now apply decode_cssr_st8_within.
  - now apply decode_cssr_st9_within.
  - now apply decode_cssr_st11_within.
  - now apply decode_cssr_st12_within.
Qed.

End Dispatch.

(** ** The claims on the decoders as a whole *)



Lemma same_mask_init_no_system (fp : option (list trace_line)) (level : Z) (s : Ssr) :
  same_mask (Ssr_init fp level) s -> s.(satsys) = [].
Proof. now intros (E & _). Qed.

Section Claims.

Variable bits_eq_int : bits -> Z -> bool.


(** C4 (as the code has it). The decoder has no protocol state and no
    sequencing check: in the initial state, in which the list of satellite
    systems is empty, [decode_cssr] reports no error for a message with a
    whole header of a subtype from 2 to 9, 11 or 12. It calls the decoder of
    the subtype, whose loops over the satellites of the mask do nothing, and
    returns the summary of the subtype with a position within the payload;
    the mask tables stay empty. For the subtypes 2, 3, 4, 5 and 7 the
    position is the end of the header: no correction is read. *)
Theorem decode_cssr_without_mask (fp : option (list trace_line)) (level : Z)
    (payload : bits) (st : Z) :
  has_header payload = true ->
  st = bits_value (slice payload 12 16) ->
  In st non_mask_subtypes ->
  returns (decode_cssr bits_eq_int (Ssr_init fp level) payload)
    (fun out =>
       cssr_post (Ssr_init fp level) payload st out /\
       (fst out).(satsys) = [] /\
       (In st mask_only_subtypes -> fst (snd out) = 37)).
Proof.
  intros Hhdr Hst Hin.
  assert (Hlen : 37 <= length payload).
  { unfold has_header in Hhdr. rewrite <- Hst in Hhdr.
    apply andb_true_iff in Hhdr as [_ Hhdr]. apply Nat.leb_le in Hhdr.
    unfold non_mask_subtypes in Hin. cbn [In] in Hin.
    unfold header_bits in Hhdr.
    destruct (Z.eqb_spec st 1); [lia|]. destruct (Z.eqb_spec st 10); [lia|].
    exact Hhdr. }
  eapply returns_mono.
  - apply (decode_cssr_dispatch bits_eq_int (Ssr_init fp level) payload st
             (fun pos => In st mask_only_subtypes -> pos = 37) Hhdr Hst Hin).
    intros s1 d Hm Hd.
    pose proof (same_mask_init_no_system fp level s1 Hm) as Hsys.
    assert (Hok : mask_ok s1).
    { eapply mask_ok_same_mask; [apply mask_ok_init | exact Hm]. }
    destruct (Z.eq_dec st 6) as [-> | Hne].
    + unfold cssr_decoders in Hd. cbn [In] in Hd.
      destruct Hd as [E|[E|[E|[E|[E|[E|[E|[E|[E|[E|[]]]]]]]]]]];
        try discriminate E; injection E as <-.
      eapply returns_mono; [now apply decode_cssr_st6_no_system|].
      intros out Hw. split; [exact Hw|].
      unfold mask_only_subtypes. cbn [In]. intros H. exfalso. lia.
    + pose proof (cssr_decoders_within bits_eq_int s1 payload st d Hok Hlen Hd Hne)
        as Hw.
      apply returns_ok in Hw as [out [Eout Hw]]. rewrite Eout. cbn [returns].
      split; [exact Hw|]. intros Hmo.
      assert (Hfive : In d [decode_cssr_st2; decode_cssr_st3; decode_cssr_st4;
                            decode_cssr_st5; decode_cssr_st7]).
      { unfold cssr_decoders in Hd. unfold mask_only_subtypes in Hmo.
        cbn [In] in Hd, Hmo |- *.
        destruct Hd as [E|[E|[E|[E|[E|[E|[E|[E|[E|[E|[]]]]]]]]]]];
          injection E as E1 <-; subst st; try (exfalso; lia);
          repeat (first [left; reflexivity | right]). }
      pose proof (no_system_position s1 payload Hsys Hlen d Hfive) as Hp.
      rewrite Eout in Hp. exact Hp.
  - intros out [Hpost HP]. split; [exact Hpost|]. split; [|exact HP].
    destruct Hpost as (_ & _ & _ & Hm). now apply same_mask_init_no_system in Hm.
Qed.

End Claims.



Lemma decode_cssr_without_mask_witness :
  returns (decode_cssr bits_eq_value (Ssr_init None 0) (example_header "0010"))
    (fun out =>
       cssr_post (Ssr_init None 0) (example_header "0010") 2 out /\
       (fst out).(satsys) = [] /\
       (In 2%Z mask_only_subtypes -> fst (snd out) = 37)).
Proof.
  apply (decode_cssr_without_mask bits_eq_value None 0 (example_header "0010") 2).
  - reflexivity.
  - reflexivity.
  - unfold non_mask_subtypes. left. reflexivity.
Defined.

Lemma decode_cssr_no_mask_no_error :
  returns
    (decode_cssr bits_eq_value (Ssr_init (Some []) 1) (example_header "0010"))
    (fun out =>
       snd out = (37, StrHepoch 2 0 0) /\
       (fst out).(satsys) = [] /\ (fst out).(fp_disp) = Some []).
Proof. vm_compute. repeat split. Qed.

(** ** The cells of the mask context *)

Lemma mask_sat_loop_from {R} (sys : string) (l : list (nat * bool))
    (n : nat) (names : list string) :
  for_each (R := R) l
    (fun '(i, val) '(t_satmask, t_gsys) =>
       if val : bool
       then Next (t_satmask + 1, t_gsys ++ [(sys ++ fmt_02d (i + 1))%string])
       else Next (t_satmask, t_gsys))
    (n, names)
  = Next (n + length (filter snd l),
          names ++ map (fun i => (sys ++ fmt_02d (i + 1))%string)
                       (map fst (filter snd l))).
Proof.
  revert n names. induction l as [|[i [|]] l IH]; intros n names.
  - cbn. now rewrite Nat.add_0_r, app_nil_r.
  - cbn [for_each bind filter snd map fst length]. rewrite IH.
    rewrite <- app_assoc. f_equal. f_equal. lia.
  - cbn [for_each bind filter snd]. apply IH.
Qed.

(** The satellites of a mask are named after its set bits, counted from 1,
    in ascending order. *)
Lemma mask_sat_loop_names {R} (sys : string) (b : bits) :
  @mask_sat_loop R sys b
  = Next (length (set_bits b),
          map (fun i => (sys ++ fmt_02d (i + 1))%string) (set_bits b)).
Proof.
  unfold mask_sat_loop, set_bits. rewrite mask_sat_loop_from.
  now rewrite length_map.
Qed.

(** C5. The mask decoder names the satellites after the set bits of the
    satellite mask, counted from 1 and in ascending order, for every mask.
    For the mask message of the example (GPS, the satellite bits 1, 3 and 5
    of 40, the signal bits 0 and 2 of 16 counted from 0) it stores the
    satellites G01, G03, G05, the signals L1 C/A and L1 Z-tracking, and a
    cell mask of six bits: the cells are the six pairs, satellite-major, all
    active when the cell mask flag is clear; with the cell mask 100110
    transmitted the active cells are the first signal of G01, the second of
    G03 and the first of G05. For every GNSS of every mask message with the
    cell mask flag clear the stored cell mask is all ones, one bit per pair
    of a satellite and a signal. On every object with complete mask tables
    the cell loop of the later decoders visits the cells of [cells_of], the
    cell of satellite [j] and signal [k] with the bit [j * n_signals + k]
    of the cell mask, in that order. *)
Theorem mask_context_cells {R St} (s : Ssr)
    (body : nat -> string -> nat -> string -> string -> bool -> St -> flow R St)
    (st : St) (sys : string) (bsatmask : bits)
    (payload : bits) (ssr_type : string) (pos pos' : nat) (m m' : mask_tables) :
  mask_ok s ->
  @mask_sat_loop R sys bsatmask
  = Next (length (set_bits bsatmask),
          map (fun i => (sys ++ fmt_02d (i + 1))%string) (set_bits bsatmask)) /\
  (let s1 := example_state_135 in
   state_after_mask example_mask_135 = Some s1 /\
   s1.(satsys) = ["G"] /\
   s1.(gsys) "G" = Some ["G01"; "G03"; "G05"] /\
   s1.(gsig) "G" = Some ["L1 C/A"; "L1 Z-tracking"] /\
   s1.(cellmask) = [ones 6] /\
   cell_names (cells_of s1)
   = [("G01", "L1 C/A", true); ("G01", "L1 Z-tracking", true);
      ("G03", "L1 C/A", true); ("G03", "L1 Z-tracking", true);
      ("G05", "L1 C/A", true); ("G05", "L1 Z-tracking", true)]) /\
  (let s1 := example_state_135_cells in
   state_after_mask example_mask_135_cells = Some s1 /\
   s1.(cellmask) = [bin "100110"] /\
   cell_names (cells_of s1)
   = [("G01", "L1 C/A", true); ("G01", "L1 Z-tracking", false);
      ("G03", "L1 C/A", false); ("G03", "L1 Z-tracking", true);
      ("G05", "L1 C/A", true); ("G05", "L1 Z-tracking", false)] /\
   active_cells s1
   = [("G01", "L1 C/A"); ("G03", "L1 Z-tracking"); ("G05", "L1 C/A")]) /\
  (@mask_gnss R payload ssr_type (pos, m) = Next (pos', m') ->
   truth (slice payload (pos + 60) (pos + 61)) = false ->
   exists t_satsys sats sigs,
     m'.(m_satsys) = m.(m_satsys) ++ [t_satsys] /\
     m'.(m_gsys) = dict_set t_satsys sats m.(m_gsys) /\
     m'.(m_gsig) = dict_set t_satsys sigs m.(m_gsig) /\
     m'.(m_cellmask) = m.(m_cellmask) ++ [ones (length sats * length sigs)]) /\
  for_cells s body st = for_each (cells_of s) (on_cell body) st.
Proof.
  intros Hok. split; [apply mask_sat_loop_names|].
  split; [cbv zeta; repeat (apply conj); vm_compute; reflexivity|].
  split; [cbv zeta; repeat (apply conj); vm_compute; reflexivity|].
  split; [|now apply for_cells_order].
  intros Hg Hcm. apply mask_gnss_tables in Hg as (t & sats & sigs & H).
  rewrite Hcm in H. exists t, sats, sigs. tauto.
Qed.

Lemma mask_context_cells_witness :
  mask_ok example_state_135 /\
  for_cells (R := Ssr * nat) example_state_135
    (fun i satsys j gsys gsig mask (l : list (string * string)) =>
       if negb mask then Next l else Next (l ++ [(gsys, gsig)])) []
  = Next (active_cells example_state_135).
Proof.
  assert (Hok : mask_ok example_state_135).
  { apply mask_okb_ok. vm_compute. reflexivity. }
  split; [exact Hok|].
  destruct (mask_context_cells (R := Ssr * nat) example_state_135
              (fun i satsys j gsys gsig mask (l : list (string * string)) =>
                 if negb mask then Next l else Next (l ++ [(gsys, gsig)])) []
              "G" [] [] "cssr" 0 0 mask_tables_empty mask_tables_empty Hok)
    as (_ & _ & _ & _ & ->).
  reflexivity.
Defined.

(** * Further properties of the decoders *)

(** ** Bits read per satellite *)

Lemma decode_cssr_st7_consumes (s : Ssr) (payload : bits) (pos : nat) :
  mask_ok s -> 37 <= length payload ->
  returns (decode_cssr_st7 s payload pos)
          (consumes s payload pos (nsat_total s * 6)).
Proof.
  intros Hok H37. unfold decode_cssr_st7. apply wp_call. cbv zeta.
  apply Nat.ltb_ge in H37. rewrite H37. apply wp_bind.
  pose proof (list_sum_scale (fun sys => length (sats_of s sys)) 6 s.(satsys)) as Hn.
  fold (nsat_total s) in Hn.
  eapply wp_mono;
    [apply (wp_sys_loop (length payload) (s, 0) s.(gsys) (sats_of s) s.(satsys)
              (fun _ => 6))| |].
  - intros sys Hin. now apply mask_ok_sats.
  - intros _. lia.
  - intros sys g pos' msg. cbv beta iota.
    apply wp_if; intros Hc.
    + apply wp_Return. apply Nat.ltb_lt in Hc. auto.
    + apply Nat.ltb_ge in Hc. apply wp_bind. apply wp_uint_slice; [lia | lia|].
      apply wp_Next. cbn [fst]. lia.
  - intros [pos' msg] [Hpos Hlen]. cbn [fst] in *. cbv beta iota zeta.
    apply wp_Next.
    rewrite Hn in Hpos, Hlen.
    apply consumes_intro; cbn [fst snd]; [exact Hpos | exact Hlen |].
    apply same_mask_finish_sat.
  - intros r [-> [Hshort Hpos]]. cbv beta.
    rewrite Hn in Hshort, Hpos.
    now apply consumes_short.
Qed.

(** X1. With complete mask tables the orbit decoder of subtype 2 reads, for
    every satellite of the mask, an IODE of 10 bits (Galileo) or 8 bits and
    15 + 13 + 13 bits: it returns the starting position plus the total when
    the payload has the bits and position 0 with the object unchanged when
    not. It never raises. *)
Theorem decode_cssr_st2_bits (s : Ssr) (payload : bits) (pos : nat) :
  mask_ok s ->
  returns (decode_cssr_st2 s payload pos)
    (fun out =>
       let need :=
         list_sum (map (fun sys => length (sats_of s sys) *
                                   ((if (sys =? "E")%string then 10 else 8)
                                    + 15 + 13 + 13))
                       s.(satsys)) in
       if (0 <? need) && (length payload <? pos + need)
       then out = (s, 0)
       else snd out = pos + need /\ same_mask s (fst out)).
Proof. intros Hok. exact (decode_cssr_st2_consumes s payload pos Hok). Qed.

Lemma decode_cssr_st2_bits_witness :
  mask_ok example_state_135 /\
  returns (decode_cssr_st2 example_state_135 (repeat true 200) 37)
    (fun out => snd out = 37 + 3 * 49).
Proof.
  assert (Hok : mask_ok example_state_135).
  { apply mask_okb_ok. vm_compute. reflexivity. }
  split; [exact Hok|].
  eapply returns_mono;
    [exact (decode_cssr_st2_bits example_state_135 (repeat true 200) 37 Hok)|].
  intros out H. vm_compute in H. exact (proj1 H).
Defined.

(** X2. With complete mask tables the clock decoder of subtype 3 reads 15
    bits for every satellite of the mask, and the URA decoder of subtype 7
    reads 6 bits for every satellite once the payload has the 37 bits of a
    header; a payload of fewer than 37 bits makes subtype 7 return
    position 0. Each returns the starting position plus the total when the
    payload has the bits and position 0 with the object unchanged when not,
    and never raises. *)
Theorem decode_cssr_st3_st7_bits (s : Ssr) (payload : bits) (pos : nat) :
  mask_ok s ->
  returns (decode_cssr_st3 s payload pos)
    (consumes s payload pos (nsat_total s * 15)) /\
  (37 <= length payload ->
   returns (decode_cssr_st7 s payload pos)
     (consumes s payload pos (nsat_total s * 6))) /\
  (length payload < 37 -> decode_cssr_st7 s payload pos = Ok (s, 0)).
Proof.
  intros Hok. split; [now apply decode_cssr_st3_consumes|].
  split; [now apply decode_cssr_st7_consumes|].
  intros Hlen. unfold decode_cssr_st7. cbv zeta.
  apply Nat.ltb_lt in Hlen. now rewrite Hlen.
Qed.

Lemma decode_cssr_st3_st7_bits_witness :
  mask_ok example_state_135 /\
  returns (decode_cssr_st3 example_state_135 (repeat true 200) 37)
    (fun out => snd out = 37 + 3 * 15) /\
  returns (decode_cssr_st7 example_state_135 (repeat true 200) 37)
    (fun out => snd out = 37 + 3 * 6).
Proof.
  assert (Hok : mask_ok example_state_135).
  { apply mask_okb_ok. vm_compute. reflexivity. }
  split; [exact Hok|].
  destruct (decode_cssr_st3_st7_bits example_state_135 (repeat true 200) 37 Hok)
    as (H3 & H7 & _).
  split.
  - eapply returns_mono; [exact H3|].
    intros out H. vm_compute in H. exact (proj1 H).
  - eapply returns_mono; [apply H7; vm_compute; lia|].
    intros out H. vm_compute in H. exact (proj1 H).
Defined.

(** ** The dispatch of [decode_cssr] *)

Section DecodeCssr.

Variable bits_eq_int : bits -> Z -> bool.

(** X3. On an object with complete mask tables [decode_cssr] never raises
    for a message with a whole header of the subtypes 2, 3, 4, 5, 7, 8, 9,
    11 and 12, whatever follows the header: it returns the summary of the
    subtype and a position that is 0 or within the payload, stores the
    subtype and leaves the mask tables as they are. *)
Theorem decode_cssr_checked (s : Ssr) (payload : bits) (st : Z) :
  mask_ok s ->
  has_header payload = true ->
  st = bits_value (slice payload 12 16) ->
  In st checked_subtypes ->
  returns (decode_cssr bits_eq_int s payload) (cssr_post s payload st).
Proof.
  intros Hok Hhdr Hst Hin.
  assert (Hne : st <> 6%Z /\ In st non_mask_subtypes).
  { unfold checked_subtypes in Hin. unfold non_mask_subtypes. cbn [In] in *. lia. }
  destruct Hne as [Hne Hin'].
  assert (Hlen : 37 <= length payload).
  { unfold has_header in Hhdr. rewrite <- Hst in Hhdr.
    apply andb_true_iff in Hhdr as [_ Hhdr]. apply Nat.leb_le in Hhdr.
    unfold checked_subtypes in Hin. cbn [In] in Hin. unfold header_bits in Hhdr.
    destruct (Z.eqb_spec st 1); [lia|]. destruct (Z.eqb_spec st 10); [lia|].
    exact Hhdr. }
  eapply returns_mono.
  - apply (decode_cssr_dispatch bits_eq_int s payload st (fun _ => True)
             Hhdr Hst Hin').
    intros s1 d Hm Hd. eapply returns_mono.
    + apply (cssr_decoders_within bits_eq_int s1 payload st d); auto.
      eapply mask_ok_same_mask; eassumption.
    + auto.
  - intros out [H _]. exact H.
Qed.

(** X4. [decode_cssr] raises the exception for an unknown subtype on every
    message with a whole header whose subtype field is 0, 13, 14 or 15. *)
Theorem decode_cssr_unknown_subtype (s : Ssr) (payload : bits) :
  has_header payload = true ->
  In (bits_value (slice payload 12 16)) [0; 13; 14; 15]%Z ->
  decode_cssr bits_eq_int s payload = Exc (Exception "unknown CSSR subtype").
Proof.
  intros Hhdr Hin.
  pose proof (decode_cssr_head_post s payload) as Hh.
  apply returns_ok in Hh as [[s1 pos] [Eh [_ Hh]]].
  rewrite Hhdr in Hh. cbn [fst snd] in Hh. destruct Hh as [Hsub ->].
  unfold decode_cssr. rewrite Eh. cbn [from_result bind]. cbv zeta.
  rewrite Hsub. cbn [In] in Hin.
  destruct Hin as [<-|[<-|[<-|[<-|[]]]]]; reflexivity.
Qed.

(** X5. On a payload without a whole header (no set bit, fewer bits than the
    header of its subtype, or a message number other than 4073)
    [decode_cssr] returns position 0 and the empty string; it does not raise
    and leaves the mask tables as they are. *)
Theorem decode_cssr_no_header (s : Ssr) (payload : bits) :
  has_header payload = false ->
  returns (decode_cssr bits_eq_int s payload)
    (fun out => snd out = (0, StrEmpty) /\ same_mask s (fst out)).
Proof.
  intros Hhdr.
  pose proof (decode_cssr_head_post s payload) as Hh.
  apply returns_ok in Hh as [[s1 pos] [Eh [Hm Hh]]].
  rewrite Hhdr in Hh. cbn [fst snd] in Hh, Hm. subst pos.
  unfold decode_cssr. rewrite Eh. cbn. split; [reflexivity | exact Hm].
Qed.

End DecodeCssr.

Lemma decode_cssr_checked_witness :
  mask_ok example_state_135 /\
  returns (decode_cssr bits_eq_value example_state_135
             (example_header "0011" ++ repeat true 40))
    (cssr_post example_state_135 (example_header "0011" ++ repeat true 40) 3).
Proof.
  assert (Hok : mask_ok example_state_135).
  { apply mask_okb_ok. vm_compute. reflexivity. }
  split; [exact Hok|].
  apply (decode_cssr_checked bits_eq_value example_state_135
           (example_header "0011" ++ repeat true 40) 3 Hok).
  - vm_compute. reflexivity.
  - vm_compute. reflexivity.
  - unfold checked_subtypes. right. left. reflexivity.
Defined.

Lemma decode_cssr_unknown_subtype_witness :
  decode_cssr bits_eq_value (Ssr_init None 0) (example_header "1101")
  = Exc (Exception "unknown CSSR subtype").
Proof.
  apply (decode_cssr_unknown_subtype bits_eq_value (Ssr_init None 0)
           (example_header "1101")).
  - vm_compute. reflexivity.
  - right. left. vm_compute. reflexivity.
Defined.

Lemma decode_cssr_no_header_witness :
  returns (decode_cssr bits_eq_value (Ssr_init None 0)
             (firstn 30 (example_header "0011")))
    (fun out => snd out = (0, StrEmpty) /\
                same_mask (Ssr_init None 0) (fst out)).
Proof.
  apply (decode_cssr_no_header bits_eq_value (Ssr_init None 0)
           (firstn 30 (example_header "0011"))).
  vm_compute. reflexivity.
Defined.

(** ** The mask tables stay complete *)




















(** ** Subtype 6 and the network bias flag *)

Lemma cells_of_in (s : Ssr) (i : nat) (sys : string) (j : nat) (sat sig : string)
    (mask : bool) :
  In (i, sys, j, sat, sig, mask) (cells_of s) ->
  In sys s.(satsys) /\ j < length (sats_of s sys).
Proof.
  unfold cells_of. intros H.
  apply in_flat_map in H as [[i' sys'] [Hsys H]].
  apply in_flat_map in H as [[j' sat'] [Hsat H]].
  apply in_map_iff in H as [[k sig'] [E _]]. injection E as -> -> -> -> _ _.
  apply enumerate_from_in in Hsys as [_ Hsys].
  apply enumerate_from_in in Hsat as [Hj _].
  split; [exact Hsys | lia].
Qed.

(** The loop of [decode_cssr_st6] that builds an all-ones mask per system. *)
Lemma st6_ones_loop {R} (s : Ssr) (l : list string) (b : bits)
    (Q : bits -> Prop) (QR : R -> Prop) :
  mask_ok s -> (forall sys, In sys l -> In sys s.(satsys)) -> (forall b, Q b) ->
  wp (for_each l
        (fun satsys (_ : bits) =>
           sats <- dict_get s.(gsys) satsys ;; Next (ones (length sats)))
        b) Q QR.
Proof.
  intros Hok Hl HQ. apply wp_for_each_inv; [apply HQ|].
  intros sys st Hin _. apply wp_bind.
  apply (wp_dict_get _ _ _ _ _ (mask_ok_sats s sys Hok (Hl sys Hin))).
  apply HQ.
Qed.

Lemma decode_cssr_st6_within (s : Ssr) (payload : bits) (pos : nat) :
  mask_ok s -> pos <= 37 ->
  truth (slice payload (pos + 2) (pos + 3)) = true ->
  returns (decode_cssr_st6 s payload pos) (within s payload pos).
Proof.
  intros Hok Hpos Hnb. unfold decode_cssr_st6. apply wp_call. cbv zeta.
  wp_guard; [apply wp_Return, within_return|].
  apply wp_bind. apply (st6_ones_loop s); [exact Hok | auto |]. intros _.
  replace (pos + 1 + 1) with (pos + 2) by lia.
  replace (pos + 2 + 1) with (pos + 3) by lia. rewrite Hnb.
  apply wp_bind. apply wp_bind. apply wp_uint_slice; [lia | lia|].
  apply wp_bind.
  eapply wp_mono; [apply (read_svmask_ok s payload (pos + 3 + 5) Hok); lia| |].
  2:{ intros r ->. apply within_return. }
  intros [pos1 svmask] [Hpos1 Hsv]. cbn [fst snd] in *. apply wp_Next.
  apply wp_bind. rewrite (for_cells_order s _ _ Hok).
  eapply wp_mono with (Q := pos_inv payload pos) (QR := fun r => r = (s, 0)).
  - apply wp_for_each_inv; [unfold pos_inv; cbn [fst]; lia|].
    intros [[[[[i sys] j] sat] sig] mask] [pos' msg] Hcell Hinv.
    apply cells_of_in in Hcell as [Hin Hj].
    unfold pos_inv in *. cbn [fst on_cell] in *.
    apply wp_bind. apply (wp_svmask_at s); [exact Hsv | exact Hin | exact Hj|].
    intros sv. destruct (negb sv || negb mask)%bool; [apply wp_Next; cbn [fst]; lia|].
    apply wp_bind.
    apply wp_mono with
      (Q := fun st : nat * list pynum => pos <= fst st <= length payload)
      (QR := fun r => r = (s, 0)); [| |auto].
    { destruct (truth (slice payload pos (pos + 1)));
        [|apply wp_Next; cbn [fst]; lia].
      wp_guard; [now apply wp_Return|]. repeat wp_step. cbn [fst]. lia. }
    intros [pos2 cbs] Hpos2. cbn [fst] in Hpos2. cbv beta iota.
    apply wp_bind.
    apply wp_mono with
      (Q := fun st : nat * list Z * list pynum =>
              pos <= fst (fst st) <= length payload)
      (QR := fun r => r = (s, 0)); [| |auto].
    { destruct (truth (slice payload (pos + 1) (pos + 2)));
        [|apply wp_Next; cbn [fst]; lia].
      wp_guard; [now apply wp_Return|]. repeat wp_step. cbn [fst]. lia. }
    intros [[pos3 dis] pbs] Hpos3. cbn [fst] in Hpos3. cbv beta iota.
    apply wp_Next. cbn [fst]. lia.
  - intros [pos' msg] Hinv. apply wp_Next. now apply within_finish_sig.
  - intros r ->. apply within_return.
Qed.

Lemma decode_cssr_st6_key_error (s : Ssr) (payload : bits) (pos : nat)
    (c : cell) (cells : list cell) :
  mask_ok s -> 45 <= length payload ->
  truth (slice payload (pos + 2) (pos + 3)) = false ->
  cells_of s = c :: cells ->
  decode_cssr_st6 s payload pos
  = Exc (KeyError (let '(_, sys, _, _, _, _) := c in sys)).
Proof.
  intros Hok Hlen Hnb Hcells. unfold decode_cssr_st6. cbv zeta.
  apply Nat.ltb_ge in Hlen. rewrite Hlen.
  pose proof (st6_ones_loop (R := Ssr * nat) s s.(satsys) []
                (fun _ => True) (fun _ => False) Hok (fun _ H => H) (fun _ => I))
    as Hones.
  unfold wp in Hones.
  match type of Hones with
  | match ?m with Next _ => _ | _ => _ end => destruct m as [b| |]
  end; try contradiction.
  cbn [bind].
  replace (pos + 1 + 1) with (pos + 2) by lia.
  replace (pos + 2 + 1) with (pos + 3) by lia. rewrite Hnb. cbn [bind].
  rewrite (for_cells_order s _ _ Hok), Hcells.
  destruct c as [[[[[i sys] j] sat] sig] mask].
  cbn [for_each on_cell]. reflexivity.
Qed.

Lemma decode_cssr_st6_no_cell (s : Ssr) (payload : bits) (pos : nat) :
  mask_ok s -> pos <= 37 ->
  truth (slice payload (pos + 2) (pos + 3)) = false ->
  cells_of s = [] ->
  returns (decode_cssr_st6 s payload pos) (within s payload pos).
Proof.
  intros Hok Hpos Hnb Hcells. unfold decode_cssr_st6. apply wp_call. cbv zeta.
  wp_guard; [apply wp_Return, within_return|].
  apply wp_bind. apply (st6_ones_loop s); [exact Hok | auto |]. intros _.
  replace (pos + 1 + 1) with (pos + 2) by lia.
  replace (pos + 2 + 1) with (pos + 3) by lia. rewrite Hnb.
  apply wp_bind. apply wp_Next. apply wp_bind.
  rewrite (for_cells_order s _ _ Hok), Hcells. cbn [for_each]. apply wp_Next.
  apply wp_Next. apply within_finish_sig. lia.
Qed.

(** X7. Subtype 6 (code and phase bias) on an object with complete mask
    tables, started right after the header. A payload of fewer than 45 bits
    gives position 0. When the network bias flag (the third bit) is set, the
    decoder reads the network id and one satellite mask per system and never
    raises: it returns position 0 with the object unchanged or a position
    within the payload. When the flag is clear the dictionary of satellite
    masks stays empty, and the first cell of the mask raises KeyError for
    its system; only a mask without cells is decoded. *)
Theorem decode_cssr_st6_network_flag (s : Ssr) (payload : bits) (pos : nat) :
  mask_ok s -> pos <= 37 ->
  (length payload < 45 -> decode_cssr_st6 s payload pos = Ok (s, 0)) /\
  (truth (slice payload (pos + 2) (pos + 3)) = true ->
   returns (decode_cssr_st6 s payload pos) (within s payload pos)) /\
  (truth (slice payload (pos + 2) (pos + 3)) = false ->
   (cells_of s = [] ->
    returns (decode_cssr_st6 s payload pos) (within s payload pos)) /\
   (45 <= length payload ->
    forall i sys j sat sig mask cells,
      cells_of s = (i, sys, j, sat, sig, mask) :: cells ->
      decode_cssr_st6 s payload pos = Exc (KeyError sys))).
Proof.
  intros Hok Hpos. split; [|split].
  - intros Hlen. unfold decode_cssr_st6. cbv zeta.
    apply Nat.ltb_lt in Hlen. now rewrite Hlen.
  - now apply decode_cssr_st6_within.
  - intros Hnb. split; [now apply decode_cssr_st6_no_cell|].
    intros Hlen i sys j sat sig mask cells Hcells.
    exact (decode_cssr_st6_key_error s payload pos _ cells Hok Hlen Hnb Hcells).
Qed.

Lemma decode_cssr_st6_network_flag_witness :
  mask_ok example_state_135 /\ 37 <= 37 /\
  decode_cssr_st6 example_state_135
    (example_header "0110" ++ bin "110" ++ repeat false 20) 37
  = Exc (KeyError "G") /\
  returns (decode_cssr_st6 example_state_135
             (example_header "0110" ++ bin "111" ++ repeat true 120) 37)
    (within example_state_135
       (example_header "0110" ++ bin "111" ++ repeat true 120) 37).
Proof.
  assert (Hok : mask_ok example_state_135).
  { apply mask_okb_ok. vm_compute. reflexivity. }
  split; [exact Hok|]. split; [lia|]. split.
  - destruct (decode_cssr_st6_network_flag example_state_135
                (example_header "0110" ++ bin "110" ++ repeat false 20) 37 Hok
                (le_n 37)) as (_ & _ & H).
    destruct (H ltac:(vm_compute; reflexivity)) as [_ H'].
    apply (H' ltac:(vm_compute; lia) 0 "G" 0 "G01" "L1 C/A" true
              (tl (cells_of example_state_135))).
    vm_compute. reflexivity.
  - destruct (decode_cssr_st6_network_flag example_state_135
                (example_header "0110" ++ bin "111" ++ repeat true 120) 37 Hok
                (le_n 37)) as (_ & H & _).
    apply H. vm_compute. reflexivity.
Defined.

(** ** Subtype 10 *)

(** X8. Subtype 10 (service information) tests the length of the payload
    against 5, not against the five bits after the starting position. With
    fewer than 5 bits it returns position 0. With 5 bits or more but no more
    than 3 bits after the starting position, the read of the message counter
    or of the data size raises bitstring's InterpretError. With more than 3
    bits after the starting position it never raises: it returns position 0
    with the object unchanged when the payload lacks the 40, 80, 120 or 160
    bits of auxiliary data that the data size announces, and otherwise the
    position after them. *)
Theorem decode_cssr_st10_lengths (s : Ssr) (payload : bits) (pos : nat) :
  (length payload < 5 -> decode_cssr_st10 s payload pos = Ok (s, 0)) /\
  (5 <= length payload <= pos + 3 ->
   decode_cssr_st10 s payload pos = Exc InterpretError) /\
  (5 <= length payload -> pos + 3 < length payload ->
   returns (decode_cssr_st10 s payload pos)
     (fun out =>
        let dsize :=
          Z.to_nat ((bits_value (slice payload (pos + 3) (pos + 5)) + 1) * 40) in
        (40 <= dsize <= 160) /\
        if length payload <? pos + 5 + dsize
        then out = (s, 0)
        else snd out = pos + 5 + dsize /\ same_mask s (fst out) /\
             same_head s (fst out))).
Proof.
  unfold decode_cssr_st10. cbv zeta. split; [|split].
  - intros H. apply Nat.ltb_lt in H. now rewrite H.
  - intros [H5 H]. apply Nat.ltb_ge in H5. rewrite H5.
    destruct (Nat.le_gt_cases (length payload) pos) as [Hs | Hs].
    + now rewrite uint_empty_slice by lia.
    + rewrite uint_slice by lia. cbn [bind].
      now rewrite uint_empty_slice by lia.
  - intros H5 H. apply Nat.ltb_ge in H5. rewrite H5.
    rewrite !uint_slice by lia. cbn [bind].
    replace (pos + 3 + 2) with (pos + 5) by lia.
    pose proof (bits_value_range (slice payload (pos + 3) (pos + 5))) as Hr.
    rewrite slice_length in Hr.
    assert (Hr' : (0 <= bits_value (slice payload (pos + 3) (pos + 5)) < 4)%Z).
    { destruct Hr as [H0 H1]. split; [exact H0|].
      eapply Z.lt_le_trans; [exact H1|].
      change 4%Z with (2 ^ Z.of_nat 2)%Z. apply Z.pow_le_mono_r; lia. }
    set (v := bits_value (slice payload (pos + 3) (pos + 5))) in *.
    destruct (length payload <? pos + 5 + Z.to_nat ((v + 1) * 40)) eqn:E;
      cbn [call returns fst snd].
    + split; [lia | reflexivity].
    + split; [lia|]. split; [reflexivity|].
      pose proof (trace_fields s 1
                    [Line "ST10" []
                       [bits_value (slice payload pos (pos + 3));
                        bits_value (slice payload (pos + 5)
                                      (pos + 5 + Z.to_nat ((v + 1) * 40)))] []])
        as Ht.
      cbv zeta in Ht. split.
      * eapply same_mask_trans; [apply same_mask_trace|].
        apply same_mask_set_stat_both.
      * unfold same_head. cbn. tauto.
Qed.

Lemma decode_cssr_st10_lengths_witness :
  decode_cssr_st10 (Ssr_init None 0) (bin "1111111010011010" ++ bin "000") 16
  = Exc InterpretError.
Proof.
  apply (decode_cssr_st10_lengths (Ssr_init None 0)
           (bin "1111111010011010" ++ bin "000") 16).
  split; vm_compute; lia.
Defined.

(** ** The RTCM SSR decoders *)

(** X9. With the bits of the header in the payload, [ssr_decode_head]
    returns the position after them and stores the number of satellites
    (the last 6 bits, 4 for QZSS) and the issue of data; it leaves the mask
    tables of the Compact SSR decoders alone. *)
Theorem ssr_decode_head_bits (s : Ssr) (payload : bits) (pos : nat)
    (satsys mtype : string) :
  pos + ssr_head_bits satsys mtype <= length payload ->
  returns (ssr_decode_head s payload pos satsys mtype)
    (fun out =>
       let s' := fst out in
       let bw := if negb (satsys =? "J")%string then 6 else 4 in
       snd out = pos + ssr_head_bits satsys mtype /\
       s'.(ssr_nsat) = bits_value (slice payload (snd out - bw) (snd out)) /\
       (0 <= s'.(ssr_nsat) < 2 ^ Z.of_nat bw)%Z /\
       s'.(ssr_iod)
       = bits_value (slice payload (snd out - bw - 24) (snd out - bw - 20)) /\
       same_mask s s').
Proof.
  unfold ssr_head_bits, ssr_decode_head. intros Hlen. apply wp_call. cbv zeta.
  destruct (negb (satsys =? "R")%string);
    destruct ((mtype =? "SSR orbit")%string || (mtype =? "SSR obt/clk")%string)%bool;
    destruct (negb (satsys =? "J")%string);
    repeat wp_step; cbn [fst snd ssr_nsat ssr_iod set_ssr_nsat set_ssr_iod set_ssr_mmi];
    (split; [lia|]); (split; [f_equal; f_equal; lia|]);
    (split;
     [match goal with
      | |- (0 <= bits_value ?b < _)%Z =>
          pose proof (bits_value_range b) as Hr; rewrite slice_length in Hr;
          destruct Hr as [H0 H1]; split; [exact H0|];
          eapply Z.lt_le_trans; [exact H1|]; apply Z.pow_le_mono_r; lia
      end|]);
    (split; [f_equal; f_equal; lia | repeat split]).
Qed.

Lemma ssr_decode_head_bits_witness :
  returns (ssr_decode_head (Ssr_init None 0) example_ssr_header 0 "G" "SSR orbit")
    (fun out => snd out = 56 /\ (fst out).(ssr_nsat) = 1%Z).
Proof.
  eapply returns_mono.
  - apply (ssr_decode_head_bits (Ssr_init None 0) example_ssr_header 0 "G"
             "SSR orbit").
    vm_compute. lia.
  - intros out (H1 & H2 & _). split; [exact H1|].
    rewrite H2, H1. vm_compute. reflexivity.
Defined.

(** A loop over satellite records of a fixed size. *)
Lemma ssr_record_loop {R} (payload : bits) (w : nat) (l : list nat)
    (body : nat -> Ssr * nat * list string -> flow R (Ssr * nat * list string))
    (s : Ssr) (pos : nat) (names : list string) :
  (forall i s p names, p + w <= length payload ->
     wp (body i (s, p, names))
        (fun st => snd (fst st) = p + w /\ same_mask s (fst (fst st)) /\
                   (fst (fst st)).(ssr_nsat) = s.(ssr_nsat) /\
                   length (snd st) = S (length names))
        (fun _ => False)) ->
  pos + length l * w <= length payload ->
  wp (for_each l body (s, pos, names))
     (fun st => snd (fst st) = pos + length l * w /\ same_mask s (fst (fst st)) /\
                (fst (fst st)).(ssr_nsat) = s.(ssr_nsat) /\
                length (snd st) = length names + length l)
     (fun _ => False).
Proof.
  intros Hbody. revert s pos names.
  induction l as [|i l IH]; intros s pos names Hlen.
  - cbn [for_each length wp fst snd].
    split; [lia|]. split; [apply same_mask_refl|]. split; [reflexivity | lia].
  - cbn [for_each]. apply wp_bind. cbn [length] in Hlen.
    eapply wp_mono; [apply Hbody; lia | | auto].
    intros [[s1 p1] n1] (Hp & Hm & Hn & Hl). cbn [fst snd] in *. subst p1.
    eapply wp_mono; [apply IH; lia | | auto].
    intros [[s2 p2] n2] (Hp & Hm2 & Hn2 & Hl2). cbn [fst snd length] in *.
    split; [lia|]. split; [eapply same_mask_trans; eassumption|].
    split; [congruence | lia].
Qed.

Lemma ssr_satid_bw_cases (satsys : string) :
  ssr_satid_bw satsys = 4 \/ ssr_satid_bw satsys = 5 \/ ssr_satid_bw satsys = 6.
Proof.
  unfold ssr_satid_bw.
  destruct (satsys =? "J")%string; [auto|].
  destruct (satsys =? "R")%string; auto.
Qed.


Lemma trace_ssr_fields (s : Ssr) (level : Z) (l : list trace_line) :
  (trace s level l).(ssr_nsat) = s.(ssr_nsat) /\
  (trace s level l).(ssr_iod) = s.(ssr_iod) /\
  (trace s level l).(ssr_mmi) = s.(ssr_mmi).
Proof.
  unfold trace. destruct (s.(t_level) <? level)%Z; [repeat split|].
  destruct s.(fp_disp); repeat split.
Qed.

(** X10. The RTCM SSR decoders of the orbit, clock, URA and high rate clock
    corrections read, for each of the [ssr_nsat] satellites that the header
    announced, a satellite id of 4 (QZSS), 5 (GLONASS) or 6 bits and a
    record of 129, 70, 6 and 22 bits. With these bits in the payload they
    return the position after them and a summary that names every
    satellite; they leave the number of satellites and the mask tables as
    they are. *)
Theorem ssr_decode_record_bits (s : Ssr) (payload : bits) (pos : nat)
    (satsys : string)
    (d : Ssr -> bits -> nat -> string -> result (Ssr * (nat * trace_line)))
    (w : nat) :
  In (d, w) ssr_record_decoders ->
  let n := Z.to_nat s.(ssr_nsat) in
  pos + n * (ssr_satid_bw satsys + w) <= length payload ->
  returns (d s payload pos satsys)
    (fun out =>
       fst (snd out) = pos + n * (ssr_satid_bw satsys + w) /\
       length (snd (snd out)).(names) = n /\
       (fst out).(ssr_nsat) = s.(ssr_nsat) /\
       same_mask s (fst out)).
Proof.
  intros Hd n Hlen. unfold ssr_record_decoders in Hd. cbn [In] in Hd.
  pose proof (ssr_satid_bw_cases satsys) as Hbw.
  assert (Hn : length (range s.(ssr_nsat)) = n) by apply range_length.
  destruct Hd as [E|[E|[E|[E|[]]]]]; injection E as <- <-;
    unfold ssr_decode_orbit, ssr_decode_clock, ssr_decode_ura, ssr_decode_hr_clock;
    apply wp_call; cbv zeta; apply wp_bind;
    match type of Hlen with
    | _ + _ * (_ + ?w) <= _ =>
        eapply wp_mono;
        [apply (ssr_record_loop payload (ssr_satid_bw satsys + w));
         [|rewrite Hn; exact Hlen]
        | | intros r []]
    end.
  all: try (intros i s0 p names0 Hp; repeat wp_step; cbn [fst snd];
            (split; [lia|]); (split; [apply same_mask_trace|]);
            (split; [apply trace_ssr_fields | rewrite length_app; cbn [length]; lia])).
  all: intros [[s1 p1] n1] (Hp & Hm & Hns & Hl); cbn [fst snd] in *;
       apply wp_Next; cbn [fst snd ssr_string names];
       rewrite Hn in Hp, Hl; repeat split; try assumption; try apply Hm; lia.
Qed.

Lemma ssr_decode_record_bits_witness :
  returns (ssr_decode_clock (set_ssr_nsat 2 (Ssr_init None 0))
             (repeat true 152) 0 "G")
    (fun out => fst (snd out) = 152).
Proof.
  eapply returns_mono.
  - apply (ssr_decode_record_bits (set_ssr_nsat 2 (Ssr_init None 0))
             (repeat true 152) 0 "G" ssr_decode_clock (22 + 21 + 27)).
    + right. left. reflexivity.
    + vm_compute. lia.
  - intros out (H & _). exact H.
Defined.

Lemma list_get_out {R A} (l : list A) (i : Z) :
  (Z.of_nat (length l) <= i)%Z -> @list_get R A l i = Raise IndexError.
Proof.
  intros H. unfold list_get.
  destruct (nth_error l (Z.to_nat i)) eqn:E; [|reflexivity].
  assert (Hlt : Z.to_nat i < length l) by (apply nth_error_Some; congruence).
  lia.
Qed.

Lemma sigmask2signame_out {R} (satsys : string) (i : Z) :
  (17 <= i)%Z ->
  @sigmask2signame R satsys i
  = if existsb (String.eqb satsys) signal_systems
    then Raise IndexError
    else Raise (Exception "unassigned signal name").
Proof.
  intros Hi. unfold sigmask2signame, signal_systems. cbn [existsb].
  destruct (satsys =? "G")%string; [apply list_get_out; cbn; lia|].
  destruct (satsys =? "R")%string; [apply list_get_out; cbn; lia|].
  destruct (satsys =? "E")%string; [apply list_get_out; cbn; lia|].
  destruct (satsys =? "C")%string; [apply list_get_out; cbn; lia|].
  destruct (satsys =? "J")%string; [apply list_get_out; cbn; lia|].
  destruct (satsys =? "S")%string; [apply list_get_out; cbn; lia|].
  reflexivity.
Qed.

(** X11. [ssr_decode_code_bias] looks the 5-bit signal and tracking mode
    indicator up in the tables of signal names of the Compact SSR mask,
    which have 16 or 17 entries. When the first code bias of the first
    satellite has an indicator of 17 or more, the call raises IndexError for
    the systems G, R, E, C, J and S, and the exception for an unassigned
    signal name for any other system. *)
Theorem ssr_decode_code_bias_indicator (s : Ssr) (payload : bits) (pos : nat)
    (satsys : string) :
  let bw := ssr_satid_bw satsys in
  (1 <= s.(ssr_nsat))%Z ->
  pos + bw + 5 + 5 + 14 <= length payload ->
  (1 <= bits_value (slice payload (pos + bw) (pos + bw + 5)))%Z ->
  (17 <= bits_value (slice payload (pos + bw + 5) (pos + bw + 5 + 5)))%Z ->
  ssr_decode_code_bias s payload pos satsys
  = Exc (if existsb (String.eqb satsys) signal_systems
         then IndexError
         else Exception "unassigned signal name").
Proof.
  intros bw Hn Hlen Hncb Hind.
  pose proof (ssr_satid_bw_cases satsys) as Hbw. fold bw in Hbw.
  assert (E : range s.(ssr_nsat) = 0 :: seq 1 (Z.to_nat (s.(ssr_nsat) - 1))).
  { rewrite <- range_succ by lia. f_equal. lia. }
  set (ncb := bits_value (slice payload (pos + bw) (pos + bw + 5))) in *.
  assert (E' : range ncb = 0 :: seq 1 (Z.to_nat (ncb - 1))).
  { rewrite <- range_succ by lia. f_equal. lia. }
  unfold ssr_decode_code_bias. cbv zeta. fold bw. rewrite E. cbn [for_each].
  rewrite uint_slice by lia. cbn [bind].
  rewrite uint_slice by lia. cbn [bind]. fold ncb. rewrite E'. cbn [for_each].
  rewrite uint_slice by lia. cbn [bind].
  rewrite int_slice by lia. cbn [bind].
  rewrite sigmask2signame_out by exact Hind.
  now destruct (existsb _ _).
Qed.

Lemma ssr_decode_code_bias_indicator_witness :
  ssr_decode_code_bias (set_ssr_nsat 1 (Ssr_init None 0))
    (bin "000001" ++ bin "00001" ++ bin "10001" ++ repeat false 14) 0 "G"
  = Exc IndexError.
Proof.
  apply (ssr_decode_code_bias_indicator (set_ssr_nsat 1 (Ssr_init None 0))
           (bin "000001" ++ bin "00001" ++ bin "10001" ++ repeat false 14) 0 "G").
  - cbn. lia.
  - vm_compute. lia.
  - vm_compute. discriminate.
  - vm_compute. discriminate.
Defined.

(** ** Code bias *)

(** X12. The code bias decoders read 11 bits for every active cell of the
    mask (a cell whose bit of the cell mask is set), the HAS decoder after
    the 4 bits of its validity interval. On an object with complete mask
    tables they never raise: they return the position after these bits when
    the payload has them all, and position 0 with the object unchanged when
    not, before any bias is read. *)
Theorem decode_code_bias_bits (s : Ssr) (payload : bits) (pos : nat) :
  mask_ok s ->
  let n := count_active (cells_of s) in
  returns (decode_cssr_st4 s payload pos)
    (fun out =>
       if length payload <? pos + 11 * n then out = (s, 0)
       else snd out = pos + 11 * n /\ same_mask s (fst out)) /\
  returns (decode_has_cbias s payload pos)
    (fun out =>
       if length payload <? pos + 4 + 11 * n then out = (s, 0)
       else snd out = pos + 4 + 11 * n /\ same_mask s (fst out)).
Proof.
  intros Hok n. split.
  - unfold decode_cssr_st4, _decode_code_bias. apply wp_call.
    cbn [String.eqb Ascii.eqb Bool.eqb orb negb]. cbv zeta.
    rewrite (for_cells_order s _ _ Hok), count_cells. cbn [bind].
    fold n. cbn [Nat.add].
    destruct (Nat.ltb_spec (length payload) (pos + 11 * n)) as [Hs | Hl];
      [reflexivity|].
    apply wp_bind. rewrite (for_cells_order s _ _ Hok).
    eapply wp_mono; [apply (code_bias_cells s); exact Hl | | intros r []].
    intros [pos' msg] Hpos. cbn [fst] in Hpos. subst pos'. apply wp_Next.
    cbn [fst snd]. split; [reflexivity | apply same_mask_finish_sig].
  - unfold decode_has_cbias, _decode_code_bias. apply wp_call.
    cbn [String.eqb Ascii.eqb Bool.eqb orb negb]. cbv zeta.
    rewrite (for_cells_order s _ _ Hok), count_cells. cbn [bind].
    fold n. cbn [Nat.add].
    destruct (Nat.ltb_spec (length payload) (pos + 4)) as [Hs4 | Hl4].
    { destruct (Nat.ltb_spec (length payload) (pos + 4 + 11 * n)); [reflexivity | lia]. }
    apply wp_bind. apply wp_bind. apply wp_uint_slice; [lia | lia|].
    apply wp_bind. apply wp_list_get_HAS_VI; [rewrite slice_length; lia|].
    intros vi_s. apply wp_Next.
    destruct (Nat.ltb_spec (length payload) (pos + 4 + 11 * n)) as [Hs | Hl];
      [reflexivity|].
    apply wp_bind. rewrite (for_cells_order s _ _ Hok).
    eapply wp_mono; [apply (code_bias_cells s); exact Hl | | intros r []].
    intros [pos' msg] Hpos. cbn [fst] in Hpos. subst pos'. apply wp_Next.
    cbn [fst snd]. split; [reflexivity | apply same_mask_finish_sig].
Qed.

Lemma decode_code_bias_bits_witness :
  mask_ok example_state_135_cells /\
  returns (decode_cssr_st4 example_state_135_cells (repeat true 70) 37)
    (fun out => snd out = 37 + 11 * 3).
Proof.
  assert (Hok : mask_ok example_state_135_cells).
  { apply mask_okb_ok. vm_compute. reflexivity. }
  split; [exact Hok|].
  eapply returns_mono;
    [exact (proj1 (decode_code_bias_bits example_state_135_cells
                     (repeat true 70) 37 Hok))|].
  intros out H. vm_compute in H. exact (proj1 H).
Defined.

(** ** GNSS ids of the mask *)

Lemma gnssid2satsys_undefined {R} (g : Z) :
  (6 <= g)%Z -> @gnssid2satsys R g = Raise (Exception "undefined gnssid").
Proof.
  intros H. unfold gnssid2satsys.
  repeat (match goal with
          | |- context [(g =? ?k)%Z] => destruct (Z.eqb_spec g k); [lia|]
          end).
  reflexivity.
Qed.

(** X13. A mask message (Compact SSR subtype 1 or HAS) that passes the
    length checks of [_decode_mask] and whose first GNSS has a system id of
    6 or more is not decoded: the call raises the exception for an undefined
    GNSS id. The ids 0 to 5 are the systems G, R, E, C, J and S. *)
Theorem decode_mask_undefined_gnssid (s : Ssr) (payload : bits) (pos : nat)
    (ssr_type : string) :
  ssr_type = "cssr" \/ ssr_type = "has" ->
  pos + 8 <= length payload ->
  (1 <= bits_value (slice payload pos (pos + 4)))%Z ->
  (49 + 61 * bits_value (slice payload pos (pos + 4))
   <= Z.of_nat (length payload))%Z ->
  (6 <= bits_value (slice payload (pos + 4) (pos + 8)))%Z ->
  _decode_mask s payload pos ssr_type = Exc (Exception "undefined gnssid") /\
  map (fun g => @gnssid2satsys (Ssr * nat) g) [0; 1; 2; 3; 4; 5]%Z
  = map (fun sys => Next sys) signal_systems.
Proof.
  intros Hty Hlen Hn Hall Hid. split; [|reflexivity].
  unfold _decode_mask.
  assert (Hty' : negb ((ssr_type =? "cssr")%string || (ssr_type =? "has")%string)
                 = false) by (destruct Hty; subst; reflexivity).
  rewrite Hty'. cbv zeta.
  destruct (Nat.ltb_spec (length payload) (pos + 4)); [lia|].
  rewrite uint_slice by lia. cbn [bind].
  set (ngnss := bits_value (slice payload pos (pos + 4))) in *.
  destruct (Z.ltb_spec (Z.of_nat (length payload)) (49 + 61 * ngnss)); [lia|].
  assert (E : range ngnss = 0 :: seq 1 (Z.to_nat (ngnss - 1))).
  { rewrite <- range_succ by lia. f_equal. lia. }
  rewrite E. cbn [for_each]. unfold mask_gnss at 1.
  rewrite uint_slice by lia. cbn [bind]. cbv zeta.
  replace (pos + 4 + 4) with (pos + 8) by lia.
  rewrite gnssid2satsys_undefined by exact Hid. reflexivity.
Qed.

Lemma decode_mask_undefined_gnssid_witness :
  _decode_mask (Ssr_init None 0)
    (example_mask "0110" "1000000000000000000000000000000000000000"
       "1000000000000000") 45 "cssr"
  = Exc (Exception "undefined gnssid").
Proof.
  apply (decode_mask_undefined_gnssid (Ssr_init None 0)
           (example_mask "0110" "1000000000000000000000000000000000000000"
              "1000000000000000") 45 "cssr").
  - left. reflexivity.
  - vm_compute. lia.
  - vm_compute. discriminate.
  - vm_compute. discriminate.
  - vm_compute. discriminate.
Defined.

(** ** Ephemeris records *)

Lemma attr_u_cases {R} (r : dict pyobj) (name : string) :
  (exists b, r name = Some (ObjBits b) /\ b <> []) \/
  (exists e, @attr_u R r name = Raise e).
Proof.
  unfold attr_u, getattr. destruct (r name) as [[z|[|x b]]|]; cbn [bind dot_u uint].
  - right. eauto.
  - right. eauto.
  - left. exists (x :: b). split; [reflexivity | discriminate].
  - right. eauto.
Qed.

Lemma attr_i_cases {R} (r : dict pyobj) (name : string) :
  (exists b, r name = Some (ObjBits b) /\ b <> []) \/
  (exists e, @attr_i R r name = Raise e).
Proof.
  unfold attr_i, getattr. destruct (r name) as [[z|[|x b]]|]; cbn [bind dot_i int].
  - right. eauto.
  - right. eauto.
  - left. exists (x :: b). split; [reflexivity | discriminate].
  - right. eauto.
Qed.

Lemma call_bind_raise {R A} (m : flow R A) (k : A -> flow R R) (e : exn) (v : R) :
  m = Raise e -> call (bind m k) = Ok v -> False.
Proof. intros ->. discriminate. Qed.

Ltac attr_step H :=
  match type of H with
  | context [bind (@attr_u ?R ?r ?n) ?k] =>
      let b := fresh "b" in
      let Hr := fresh "Hr" in
      let Hb := fresh "Hb" in
      let e := fresh "e" in
      let He := fresh "He" in
      destruct (@attr_u_cases R r n) as [[b [Hr Hb]] | [e He]];
      [ rewrite (@bind_attr_u R _ r n b k Hr Hb) in H; cbv beta in H
      | exfalso; exact (call_bind_raise _ _ _ _ He H) ]
  | context [bind (@attr_i ?R ?r ?n) ?k] =>
      let b := fresh "b" in
      let Hr := fresh "Hr" in
      let Hb := fresh "Hb" in
      let e := fresh "e" in
      let He := fresh "He" in
      destruct (@attr_i_cases R r n) as [[b [Hr Hb]] | [e He]];
      [ rewrite (@bind_attr_i R _ r n b k Hr Hb) in H; cbv beta in H
      | exfalso; exact (call_bind_raise _ _ _ _ He H) ]
  end.

Lemma EphData_returns_raw_bits (satsys : string) (r : dict pyobj) (d : dict pynum) :
  EphData satsys r = Ok d -> raw_bits r.
Proof.
  intros H. unfold EphData in H. cbv zeta in H.
  repeat attr_step H.
  intros name Hin. unfold EphData_reads in Hin. cbn [In] in Hin.
  repeat (destruct Hin as [<- | Hin]; [eauto|]). contradiction.
Qed.

(** X14. [EphData.__init__] returns exactly on the raw records whose 36
    attributes read by the constructor are all non-empty bit strings: an
    attribute that is missing or an integer raises AttributeError, an empty
    bit string raises bitstring's InterpretError. The default argument
    [EphRaw()], whose attributes are the integer 0, raises AttributeError
    at the first read, [r.svid.u]. *)
Theorem EphData_returns_iff (satsys : string) (r : dict pyobj) :
  ((exists d, EphData satsys r = Ok d) <-> raw_bits r) /\
  EphData satsys EphRaw = Exc (AttributeError "u").
Proof.
  split; [|reflexivity]. split.
  - intros [d H]. exact (EphData_returns_raw_bits satsys r d H).
  - intros Hall. unfold EphData. repeat read_attr Hall.
    eexists. reflexivity.
Qed.

Lemma EphData_returns_iff_witness :
  raw_bits (example_raw [true]) /\
  exists d, EphData "G" (example_raw [true]) = Ok d.
Proof.
  assert (H : raw_bits (example_raw [true])).
  { intros name _. exists [true]. split; [reflexivity | discriminate]. }
  split; [exact H|].
  exact (proj2 (proj1 (EphData_returns_iff "G" (example_raw [true]))) H).
Defined.

(** X15. What the object built by [EphData.__init__] holds, on a raw record
    of non-empty bit strings. Its attributes are the 36 names that the
    constructor assigns, no other attribute of the raw record is taken over.
    [dn] is assigned twice: the mean motion difference
    [r.dn.i * 2**(-43) * PI] is overwritten by the day number [r.dn.u], so
    the object holds the unsigned integer. The times [t0e] and [t0c] are
    taken in minutes and stored in seconds, [t0g] in hours and stored in
    seconds. *)
Theorem EphData_attributes (satsys : string) (r : dict pyobj) :
  raw_bits r ->
  exists d,
    EphData satsys r = Ok d /\
    (forall name, d name <> None <-> In name EphData_reads) /\
    (forall b, r "dn" = Some (ObjBits b) -> d "dn" = Some (PyInt (bits_value b))) /\
    (forall b, r "t0e" = Some (ObjBits b) ->
       d "t0e" = Some (PyInt (bits_value b * 60))) /\
    (forall b, r "t0c" = Some (ObjBits b) ->
       d "t0c" = Some (PyInt (bits_value b * 60))) /\
    (forall b, r "t0g" = Some (ObjBits b) ->
       d "t0g" = Some (PyInt (bits_value b * 3600))).
Proof.
  intros Hall. unfold EphData.
  repeat read_attr Hall.
  same_bits.
  eexists. split; [reflexivity|].
  split; [|repeat apply conj; intros bb Hbb; known_bits Hbb; reflexivity].
  intros name. split.
  - unfold dict_set, dict_empty, EphData_reads. cbn [In].
    repeat match goal with
           | |- context [(name =? ?k)%string] =>
               destruct (String.eqb_spec name k) as [->|_];
               [intros _; repeat (first [left; reflexivity | right])|]
           end.
    congruence.
  - unfold EphData_reads. cbn [In]. intros Hin.
    repeat (destruct Hin as [<- | Hin]; [cbv [dict_set]; cbn; discriminate|]).
    contradiction.
Qed.

Lemma EphData_attributes_witness :
  exists d,
    EphData "G" (example_raw (bin "101")) = Ok d /\
    d "dn" = Some (PyInt 5) /\ d "t0e" = Some (PyInt 300) /\ d "toe" = None.
Proof.
  destruct (EphData_attributes "G" (example_raw (bin "101")))
    as (d & Hd & Hnames & Hdn & Ht0e & _).
  - intros name _. exists (bin "101"). split; [reflexivity | discriminate].
  - exists d. split; [exact Hd|]. split; [exact (Hdn _ eq_refl)|].
    split; [exact (Ht0e _ eq_refl)|].
    destruct (d "toe") eqn:E; [|reflexivity].
    exfalso.
    assert (Hin : In "toe" EphData_reads) by (apply Hnames; congruence).
    unfold EphData_reads in Hin. cbn [In] in Hin.
    repeat (destruct Hin as [Hin | Hin]; [discriminate Hin|]). contradiction.
Defined.
